(** * False-positive classification and recurrence analytics

    A shallow embedding of the scoring engine
    ([backend/src/utils/fp-scoring.utils.ts]), of the analysis service
    ([services/false-positive.service]: [calculateFPScore],
    [calculateSummary], [getSummaryFast], [analyzeEntityRecurrence],
    [setThresholds], [generateRecommendations],
    [calculateAvgResolutionTime]) and of the threshold, list, entity and
    summary endpoints of
    [backend/src/controllers/false-positive.controller.ts].

    Modelling conventions.
    - A JavaScript [number] is an exact rational ([Q]); the one special
      value the code reacts to, [NaN] in [problem.duration], is a
      constructor of [jsnum].  Rounding of binary64 arithmetic is not
      modelled; results are compared with [==] on [Q].
    - A string is a [string] of UTF-8 bytes.
    - The persisted collection is the list of its documents; an
      aggregation pipeline is the composition of its stages over that
      list. *)

From Stdlib Require Import QArith Qminmax Qabs Qround Lqa Lia ZArith.
From Stdlib Require Import List String Ascii Bool DecimalString.
From Stdlib Require Import Sorted Permutation.
Import ListNotations.

Open Scope Q_scope.

(* ================================================================== *)
(** ** JavaScript and MongoDB primitives *)
(* ================================================================== *)

(** A count as a number. *)
Definition ofNat (n : nat) : Q := inject_Z (Z.of_nat n).

(** [x < y] on numbers, as a boolean. *)
Definition Qltb (x y : Q) : bool := negb (Qle_bool y x).

(** A numeric field of a document: missing, [NaN], or a number. *)
Inductive jsnum : Type :=
| NumUndefined
| NumNaN
| Num (q : Q).

(** [d || 0]: [undefined], [NaN] and [0] are falsy. *)
Definition orZero (d : jsnum) : Q :=
  match d with
  | Num q => q
  | _ => 0
  end.

(** [d >= c] on the raw field: comparisons with [undefined] or [NaN]
    are false. *)
Definition jsGe (d : jsnum) (c : Q) : bool :=
  match d with
  | Num q => Qle_bool c q
  | _ => false
  end.

(** [{ $lt: [{ $ifNull: [d, 0] }, c] }]: a missing field becomes [0];
    in the BSON order [NaN] is below every number. *)
Definition mongoLtIfNull0 (d : jsnum) (c : Q) : bool :=
  match d with
  | NumUndefined => Qltb 0 c
  | NumNaN => true
  | Num q => Qltb q c
  end.

(** A free-form field ([problem as any]). *)
Inductive jsval : Type :=
| JUndefined
| JNull
| JBool (b : bool)
| JStr (s : string)
| JInt (z : Z).

Definition truthy (v : jsval) : bool :=
  match v with
  | JUndefined | JNull => false
  | JBool b => b
  | JStr s => negb (String.eqb s EmptyString)
  | JInt z => negb (Z.eqb z 0)
  end.

(** [String(v)]. *)
Definition String_ (v : jsval) : string :=
  match v with
  | JUndefined => "undefined"
  | JNull => "null"
  | JBool true => "true"
  | JBool false => "false"
  | JStr s => s
  | JInt z => NilZero.string_of_int (Z.to_int z)
  end.

(** [v || '']. *)
Definition orEmptyVal (v : jsval) : jsval :=
  if truthy v then v else JStr EmptyString.

(** [s || ''] for an optional string. *)
Definition orEmpty (s : option string) : string :=
  match s with
  | Some t => t
  | None => EmptyString
  end.

(** [{ $toString: { $ifNull: [v, ''] } }]. *)
Definition mongoToStringIfNull (v : jsval) : string :=
  match v with
  | JUndefined | JNull => EmptyString
  | _ => String_ v
  end.

Definition lowerAscii (c : ascii) : ascii :=
  let n := nat_of_ascii c in
  if Nat.leb 65 n && Nat.leb n 90 then ascii_of_nat (n + 32) else c.

(** The second byte of a two-byte sequence [C3 xx]: the capital letters
    of the Latin-1 supplement ([C3 80] .. [C3 9E], the sign [C3 97]
    apart) have their small letter 32 places further. *)
Definition lowerLatin1 (d : ascii) : ascii :=
  let n := nat_of_ascii d in
  if Nat.leb 128 n && Nat.leb n 158 && negb (Nat.eqb n 151)
  then ascii_of_nat (n + 32) else d.

(** [s.toLowerCase()], on ASCII and the Latin-1 supplement; other
    code points are left as they are. *)
Fixpoint toLowerCase (s : string) : string :=
  match s with
  | EmptyString => EmptyString
  | String c rest =>
      if Nat.eqb (nat_of_ascii c) 195 then
        match rest with
        | EmptyString => String c EmptyString
        | String d rest' => String c (String (lowerLatin1 d) (toLowerCase rest'))
        end
      else String (lowerAscii c) (toLowerCase rest)
  end.

(** [{ $toLower: s }]: defined on ASCII only. *)
Fixpoint mongoToLower (s : string) : string :=
  match s with
  | EmptyString => EmptyString
  | String c rest => String (lowerAscii c) (mongoToLower rest)
  end.

(** [hay.includes(needle)]. *)
Fixpoint includes (hay needle : string) : bool :=
  if String.prefix needle hay then true
  else match hay with
       | EmptyString => false
       | String _ rest => includes rest needle
       end.

(** [arr.includes(s)] on an array of strings. *)
Definition arrayIncludes (arr : list string) (s : string) : bool :=
  existsb (String.eqb s) arr.

(** [arr.some(kw => text.includes(kw))]. *)
Definition someIncluded (arr : list string) (text : string) : bool :=
  existsb (includes text) arr.

Definition natString (n : Z) : string :=
  NilZero.string_of_uint (N.to_uint (Z.to_N n)).

(** [x.toFixed(2)], for [|x| < 10^21]: the nearest multiple of [1/100]
    of the magnitude (the larger one on a tie), two decimals, and a
    minus sign when [x < 0]. *)
Definition toFixed2 (x : Q) : string :=
  let n := Qfloor (Qabs x * 100 + (1 # 2)) in
  let frac := (n mod 100)%Z in
  let body :=
    (natString (n / 100) ++ "." ++
     (if (frac <? 10)%Z then "0" ++ natString frac else natString frac))%string in
  if Qltb x 0 then ("-" ++ body)%string else body.

(* ================================================================== *)
(** ** Data model ([types/problem.types], [types/false-positive.types]) *)
(* ================================================================== *)

Record Comment : Type := mkComment {
  content : option string;
  context : option string
}.

Record RecentComments : Type := mkRecentComments {
  totalCount : nat;
  comments : list Comment
}.

Record EntityId : Type := mkEntityId {
  id : option string;
  type : option string
}.

Record AffectedEntity : Type := mkAffectedEntity {
  entityId : EntityId;
  name : option string
}.

Record ManagementZone : Type := mkManagementZone {
  zoneId : string;
  zoneName : string
}.

(** [evidenceDetails.details[i].data.properties[j].value]. *)
Record EvidenceDetail : Type := mkEvidenceDetail {
  properties : list jsval
}.

Record Problem : Type := mkProblem {
  problemId : string;
  displayId : string;
  title : string;
  status : string;
  severityLevel : option string;
  startTime : option string;
  duration : jsnum;
  affectedEntities : list AffectedEntity;
  managementZones : list ManagementZone;
  recentComments : option RecentComments;
  evidenceDetails : list EvidenceDetail;
  Autoremediado : jsval;
  FuncionoAutoRemediacion : jsval
}.

(** [problem.recentComments?.totalCount || 0]. *)
Definition commentCountOf (p : Problem) : nat :=
  match recentComments p with
  | Some rc => totalCount rc
  | None => O
  end.

(** [problem.recentComments?.comments || []]. *)
Definition commentsOf (p : Problem) : list Comment :=
  match recentComments p with
  | Some rc => comments rc
  | None => []
  end.

Inductive FPClassification : Type :=
| FALSE_POSITIVE
| TRUE_POSITIVE
| UNCERTAIN.

Inductive FPReason : Type :=
| VERY_SHORT_DURATION
| SHORT_DURATION
| AUTO_REMEDIATED
| AUTO_REMEDIATION_SUCCESS
| NO_COMMENTS
| QUICK_MANUAL_CLOSE
| LOW_SEVERITY
| RESOURCE_CONTENTION
| RECURRING_PATTERN
| SPIKE_PATTERN.

Definition FP_REASON_LABELS (r : FPReason) : string :=
  match r with
  | VERY_SHORT_DURATION => "Duración muy corta (<5 min)"
  | SHORT_DURATION => "Duración corta (5-15 min)"
  | AUTO_REMEDIATED => "Auto-remediado"
  | AUTO_REMEDIATION_SUCCESS => "Auto-remediación exitosa"
  | NO_COMMENTS => "Sin comentarios/investigación"
  | QUICK_MANUAL_CLOSE => "Cierre manual rápido"
  | LOW_SEVERITY => "Severidad baja"
  | RESOURCE_CONTENTION => "Contención de recursos"
  | RECURRING_PATTERN => "Patrón recurrente"
  | SPIKE_PATTERN => "Spike transitorio"
  end.

Record FPThresholds : Type := mkFPThresholds {
  veryShortDurationMinutes : Q;
  shortDurationMinutes : Q;
  mediumDurationMinutes : Q;
  highRecurrenceCount : Q;
  recurrenceWindowDays : Q;
  fpScoreThreshold : Q;
  uncertainThreshold : Q
}.

Definition DEFAULT_FP_THRESHOLDS : FPThresholds :=
  {| veryShortDurationMinutes := 5;
     shortDurationMinutes := 15;
     mediumDurationMinutes := 60;
     highRecurrenceCount := 5;
     recurrenceWindowDays := 30;
     fpScoreThreshold := 0.6;
     uncertainThreshold := 0.3 |}.

Record FPReasonDetail : Type := mkFPReasonDetail {
  reason : FPReason;
  label : string;
  weight : Q;
  details : option string
}.

Record FPScoreResult : Type := mkFPScoreResult {
  score : Q;
  classification : FPClassification;
  reasons : list FPReasonDetail;
  confidence : Q
}.

(** The running [score] and [reasons] of one scoring call. *)
Definition Acc : Type := (Q * list FPReasonDetail)%type.

(** [score += weight; reasons.push({ reason, label, weight, details })]. *)
Definition addReason (acc : Acc) (r : FPReason) (w : Q) (d : string) : Acc :=
  (fst acc + w,
   snd acc ++ [ {| reason := r; label := FP_REASON_LABELS r;
                   weight := w; details := Some d |} ]).

Definition LOW_SEVERITY_LEVELS : list string :=
  ["RESOURCE_CONTENTION"; "PERFORMANCE"]%string.

(** [LOW_SEVERITY_LEVELS.includes(problem.severityLevel)]. *)
Definition isLowSeverity (p : Problem) : bool :=
  match severityLevel p with
  | Some s => arrayIncludes LOW_SEVERITY_LEVELS s
  | None => false
  end.

Definition AUTO_REMEDIATION_VALUES : list string :=
  ["si"; "sí"; "yes"; "true"; "1"]%string.

(** Step 1 of both scoring functions: the duration term. *)
Definition durationStep (th : FPThresholds) (d : Q) (acc : Acc) : Acc :=
  if Qltb d (veryShortDurationMinutes th) then
    addReason acc VERY_SHORT_DURATION 0.35
      ("Duración: " ++ toFixed2 d ++ " min")%string
  else if Qltb d (shortDurationMinutes th) then
    addReason acc SHORT_DURATION 0.20
      ("Duración: " ++ toFixed2 d ++ " min")%string
  else acc.

(** Step 2: the auto-remediation term, from the two detected flags. *)
Definition remediationStep (flags : bool * bool) (acc : Acc) : Acc :=
  let '(isAutoRemediated, wasSuccessful) := flags in
  if isAutoRemediated then
    if wasSuccessful then
      addReason acc AUTO_REMEDIATION_SUCCESS 0.25
        "Auto-remediación exitosa detectada"
    else
      addReason acc AUTO_REMEDIATED 0.15 "Auto-remediación intentada"
  else acc.

(** Step 3: no comments. *)
Definition noCommentsStep (p : Problem) (acc : Acc) : Acc :=
  if Nat.eqb (commentCountOf p) 0 then
    addReason acc NO_COMMENTS 0.05 "Sin comentarios de investigación"
  else acc.

(** Step 4: quick manual close, from the detection result. *)
Definition manualCloseStep (hit : bool) (d : Q) (acc : Acc) : Acc :=
  if hit then
    addReason acc QUICK_MANUAL_CLOSE 0.15
      ("Cerrado manualmente en " ++ toFixed2 d ++ " min")%string
  else acc.

(** Step 5: low severity. *)
Definition lowSeverityStep (p : Problem) (acc : Acc) : Acc :=
  if isLowSeverity p then
    addReason acc LOW_SEVERITY 0.10
      ("Severidad: " ++ orEmpty (severityLevel p))%string
  else acc.

(** [Math.min(1.0, Math.max(0.0, score))]. *)
Definition clamp01 (s : Q) : Q := Qmin 1 (Qmax 0 s).

(** The comment scan shared by both [detectAutoRemediation]s: for each
    comment, [combined = content.toLowerCase() + ' ' +
    context.toLowerCase()]; a remediation keyword sets the first flag, and
    a success keyword in the same comment the second. *)
Definition combinedText (c : Comment) : string :=
  (toLowerCase (orEmpty (content c)) ++ " " ++
   toLowerCase (orEmpty (context c)))%string.

Fixpoint scanComments (kws successKws : list string) (cs : list Comment)
    (flags : bool * bool) : bool * bool :=
  match cs with
  | [] => flags
  | c :: rest =>
      let combined := combinedText c in
      let flags' :=
        if someIncluded kws combined then
          (true, if someIncluded successKws combined then true else snd flags)
        else flags in
      scanComments kws successKws rest flags'
  end.

(** [if (isAutoRemediated && problem.status === 'CLOSED' &&
    !wasSuccessful) wasSuccessful = true]. *)
Definition closedMeansSuccess (p : Problem) (flags : bool * bool) : bool * bool :=
  let '(isAutoRemediated, wasSuccessful) := flags in
  if isAutoRemediated && String.eqb (status p) "CLOSED" && negb wasSuccessful
  then (isAutoRemediated, true)
  else (isAutoRemediated, wasSuccessful).

(** The boolean-token reading of a free-form field value. *)
Definition isToken (v : jsval) : bool :=
  arrayIncludes AUTO_REMEDIATION_VALUES (toLowerCase (String_ v)).

(* ================================================================== *)
(** ** The standalone scoring utilities ([fp-scoring.utils.ts]) *)
(* ================================================================== *)

Module Utils.

Definition classifyByScore (score : Q) (thresholds : FPThresholds)
    : FPClassification :=
  if Qle_bool (fpScoreThreshold thresholds) score then FALSE_POSITIVE
  else if Qle_bool (uncertainThreshold thresholds) score then UNCERTAIN
  else TRUE_POSITIVE.

Definition autoRemediationKeywords : list string :=
  ["autoremediado"; "auto-remediado"; "github actions";
   "self-healing"; "auto-fix"; "automated fix"]%string.

Definition successKeywords : list string :=
  ["exitosa"; "successful"; "completed"; "fixed"]%string.

Definition detectAutoRemediation (problem : Problem) : bool * bool :=
  match Autoremediado problem with
  | JUndefined =>
      closedMeansSuccess problem
        (scanComments autoRemediationKeywords successKeywords
           (commentsOf problem) (false, false))
  | v => (isToken v, isToken (orEmptyVal (FuncionoAutoRemediacion problem)))
  end.

Definition calculateConfidence (score : Q) (reasonCount : nat)
    (thresholds : FPThresholds) : Q :=
  let distanceFromThreshold :=
    Qmin (Qabs (score - fpScoreThreshold thresholds))
         (Qabs (score - uncertainThreshold thresholds)) in
  let confidence := Qmin (0.5 + distanceFromThreshold) 0.8 in
  let confidence := confidence + Qmin (ofNat reasonCount * 0.05) 0.2 in
  Qmin 1 confidence.

Definition manualCloseKeywords : list string :=
  ["false positive"; "falso positivo"; "not an issue";
   "cerrado manualmente"]%string.

(** [comments.some(c => keywords.some(kw =>
    (c.content || '').toLowerCase().includes(kw)))], under the guard
    [duration < 10 && commentCount > 0]. *)
Definition hasManualCloseKeyword (problem : Problem) (d : Q) : bool :=
  Qltb d 10 && Nat.ltb 0 (commentCountOf problem) &&
  existsb (fun c => someIncluded manualCloseKeywords
                      (toLowerCase (orEmpty (content c))))
          (commentsOf problem).

Definition calculateFPScore (problem : Problem) (thresholds : FPThresholds)
    : FPScoreResult :=
  let d := orZero (duration problem) in
  let acc := durationStep thresholds d (0, []) in
  let acc := remediationStep (detectAutoRemediation problem) acc in
  let acc := noCommentsStep problem acc in
  let acc := manualCloseStep (hasManualCloseKeyword problem d) d acc in
  let acc := lowSeverityStep problem acc in
  let score := clamp01 (fst acc) in
  {| score := score;
     classification := classifyByScore score thresholds;
     reasons := snd acc;
     confidence := calculateConfidence score (List.length (snd acc)) thresholds |}.

Definition batchCalculateFPScores (problems : list Problem)
    (thresholds : FPThresholds) : list (Problem * FPScoreResult) :=
  map (fun problem => (problem, calculateFPScore problem thresholds)) problems.

(** [detectAutoRemediation(problem).wasSuccessful]. *)
Definition detectAutoRemediationSuccess (problem : Problem) : bool :=
  snd (detectAutoRemediation problem).

(** The two fast paths, then the full analysis under the defaults. *)
Definition quickClassify (problem : Problem) : FPClassification :=
  let d := orZero (duration problem) in
  if Qltb d 5 && isToken (orEmptyVal (Autoremediado problem)) then FALSE_POSITIVE
  else if Qltb 60 d && Nat.ltb 0 (commentCountOf problem) then TRUE_POSITIVE
  else classification (calculateFPScore problem DEFAULT_FP_THRESHOLDS).

(** The object [calculateFPRate] returns. *)
Record FPRate : Type := mkFPRate {
  total : nat;
  falsePositives : nat;
  truePositives : nat;
  uncertain : nat;
  fpRate : Q
}.

(** [counts[fpScore.classification]++] over the results. *)
Definition countClassification (c : FPClassification)
    (results : list (Problem * FPScoreResult)) : nat :=
  List.length
    (filter (fun entry =>
               match classification (snd entry), c with
               | FALSE_POSITIVE, FALSE_POSITIVE => true
               | TRUE_POSITIVE, TRUE_POSITIVE => true
               | UNCERTAIN, UNCERTAIN => true
               | _, _ => false
               end) results).

(** [thresholds] is optional: an absent one is the default parameter of
    [calculateFPScore]. *)
Definition calculateFPRate (problems : list Problem)
    (thresholds : option FPThresholds) : FPRate :=
  let results :=
    batchCalculateFPScores problems
      (match thresholds with
       | Some t => t
       | None => DEFAULT_FP_THRESHOLDS
       end) in
  let total := List.length problems in
  {| total := total;
     falsePositives := countClassification FALSE_POSITIVE results;
     truePositives := countClassification TRUE_POSITIVE results;
     uncertain := countClassification UNCERTAIN results;
     fpRate :=
       if Nat.ltb 0 total
       then ofNat (countClassification FALSE_POSITIVE results) / ofNat total
       else 0 |}.

End Utils.

(* ================================================================== *)
(** ** The analysis service ([services/false-positive.service]) *)
(* ================================================================== *)

(** [Partial<FPThresholds>]: every key may be absent. *)
Record PartialThresholds : Type := mkPartialThresholds {
  veryShortDurationMinutes_opt : option Q;
  shortDurationMinutes_opt : option Q;
  mediumDurationMinutes_opt : option Q;
  highRecurrenceCount_opt : option Q;
  recurrenceWindowDays_opt : option Q;
  fpScoreThreshold_opt : option Q;
  uncertainThreshold_opt : option Q
}.

(** One key of [{ ...old, ...update }]. *)
Definition spreadKey (old : Q) (update : option Q) : Q :=
  match update with
  | Some v => v
  | None => old
  end.

(** The three counters of [byClassification]. *)
Record ClassificationCounts : Type := mkClassificationCounts {
  countFalsePositive : nat;
  countTruePositive : nat;
  countUncertain : nat
}.

(** The five counters of [byDuration]. *)
Record DurationCounts : Type := mkDurationCounts {
  lt5min : nat;
  from5to15min : nat;
  from15to60min : nat;
  from1to4h : nat;
  gt4h : nat
}.

(** [byDuration] as the object it is: its keys in insertion order. *)
Definition durationObject (c : DurationCounts) : list (string * nat) :=
  [("<5min", lt5min c); ("5-15min", from5to15min c);
   ("15-60min", from15to60min c); ("1-4h", from1to4h c);
   (">4h", gt4h c)]%string.

(** The fields of [FPAnalyticsSummary] that both summary paths compute
    from the scores: totals, classification counts and rates, the
    duration buckets.  (The other distributions, the trend and the top
    lists are not part of this model.) *)
Record FPAnalyticsSummary : Type := mkFPAnalyticsSummary {
  totalProblems : nat;
  analyzedProblems : nat;
  falsePositives : nat;
  truePositives : nat;
  uncertain : nat;
  falsePositiveRate : Q;
  autoRemediationRate : Q;
  avgFPScore : Q;
  byClassification : ClassificationCounts;
  byDuration : list (string * nat)
}.

(** The projection of a problem that [$push] keeps in an entity group. *)
Record GroupedProblem : Type := mkGroupedProblem {
  gProblemId : string;
  gDisplayId : string;
  gTitle : string;
  gStartTime : option string;
  gDuration : jsnum;
  gStatus : string;
  gAutoremediado : jsval
}.

(** One document after [$group] ([avgDuration], [minDuration] and
    [maxDuration] are not part of this model). *)
Record EntityGroup : Type := mkEntityGroup {
  groupId : option string;
  groupEntityName : option string;
  groupEntityType : option string;
  groupTotalProblems : nat;
  groupProblems : list GroupedProblem
}.

Record RecentProblem : Type := mkRecentProblem {
  rProblemId : string;
  rDisplayId : string;
  rTitle : string;
  rStartTime : option string;
  rDuration : Q;
  rFpScore : Q
}.

(** [EntityRecurrenceAnalysis], without the duration statistics and the
    recommendation derived from them. *)
Record EntityRecurrenceAnalysis : Type := mkEntityRecurrenceAnalysis {
  eEntityId : option string;
  eEntityName : string;
  eEntityType : string;
  eTotalProblems : nat;
  eAutoRemediationRate : Q;
  eFalsePositiveRate : Q;
  eRecurrenceScore : Q;
  eProblemTypes : list (string * nat);
  eRecentProblems : list RecentProblem
}.

Definition optStringEqb (a b : option string) : bool :=
  match a, b with
  | Some x, Some y => String.eqb x y
  | None, None => true
  | _, _ => false
  end.

(** [{ $sort: { totalProblems: -1 } }] as a stable insertion sort. *)
Fixpoint insertByTotal (g : EntityGroup) (gs : list EntityGroup)
    : list EntityGroup :=
  match gs with
  | [] => [g]
  | h :: rest =>
      if Nat.ltb (groupTotalProblems h) (groupTotalProblems g)
      then g :: h :: rest
      else h :: insertByTotal g rest
  end.

Definition sortByTotalDesc (gs : list EntityGroup) : list EntityGroup :=
  fold_right insertByTotal [] gs.

(** [obj[key] = (obj[key] || 0) + 1] on an object with string keys. *)
Fixpoint bump (key : string) (obj : list (string * nat)) : list (string * nat) :=
  match obj with
  | [] => [(key, 1%nat)]
  | (k, n) :: rest =>
      if String.eqb k key then (k, S n) :: rest else (k, n) :: bump key rest
  end.

(** [obj[key] || 0] on an object of counters, for a key that is not a
    name objects inherit. *)
Definition lookupCount (key : string) (obj : list (string * nat)) : nat :=
  match find (fun kv => String.eqb (fst kv) key) obj with
  | Some kv => snd kv
  | None => 0%nat
  end.

(** The names a plain object inherits from [Object.prototype]: looked
    up in an object literal, such a key gives a function or an object,
    not [undefined]. *)
Definition INHERITED_KEYS : list string :=
  ["constructor"; "__defineGetter__"; "__defineSetter__"; "hasOwnProperty";
   "__lookupGetter__"; "__lookupSetter__"; "isPrototypeOf";
   "propertyIsEnumerable"; "toString"; "valueOf"; "__proto__";
   "toLocaleString"]%string.

Definition inheritedKey (key : string) : bool :=
  existsb (String.eqb key) INHERITED_KEYS.

(** [x.toFixed(1)], for [|x| < 10^21]: as [toFixed2], with one
    decimal. *)
Definition toFixed1 (x : Q) : string :=
  let n := Qfloor (Qabs x * 10 + (1 # 2)) in
  let body := (natString (n / 10) ++ "." ++ natString (n mod 10))%string in
  if Qltb x 0 then ("-" ++ body)%string else body.

(** [s.substring(0, n)], counted in UTF-16 code units over the UTF-8
    bytes: a lead byte of a four-byte sequence counts for two units, any
    other lead byte for one, and continuation bytes follow their lead.
    (A character outside the basic plane is not split: where the cut
    would fall between its two units, it is left out.) *)
Fixpoint substring0 (n : nat) (s : string) : string :=
  match s with
  | EmptyString => EmptyString
  | String c rest =>
      let b := nat_of_ascii c in
      if Nat.leb 128 b && Nat.leb b 191 then String c (substring0 n rest)
      else
        let units := if Nat.leb 240 b then 2%nat else 1%nat in
        if Nat.leb units n then String c (substring0 (n - units) rest)
        else EmptyString
  end.

(** [parseInt(...) || d]: [NaN] (no value) and [0] give the default. *)
Definition orDefaultZ (v : option Z) (d : Z) : Z :=
  match v with
  | Some z => if Z.eqb z 0 then d else z
  | None => d
  end.

(** [arr.slice(start, stop)]: a negative index counts from the end,
    both are clipped to the array. *)
Definition slice {A : Type} (l : list A) (start stop : Z) : list A :=
  let len := Z.of_nat (List.length l) in
  let from := if (start <? 0)%Z then Z.max (len + start) 0 else Z.min start len in
  let to := if (stop <? 0)%Z then Z.max (len + stop) 0 else Z.min stop len in
  firstn (Z.to_nat (to - from)) (skipn (Z.to_nat from) l).

(** [Math.round(x)]: the nearest integer, the larger one on a tie. *)
Definition mathRound (x : Q) : Z := Qfloor (x + (1 # 2)).

(** [arr.sort((a, b) => b.fpAnalysis.score - a.fpAnalysis.score)], a
    stable sort by descending score: an element is inserted in front of
    the sorted elements that followed it, before the first one whose
    score is not larger. *)
Fixpoint insertByScore (x : Problem * FPScoreResult)
    (l : list (Problem * FPScoreResult)) : list (Problem * FPScoreResult) :=
  match l with
  | [] => [x]
  | h :: rest =>
      if Qltb (score (snd x)) (score (snd h)) then h :: insertByScore x rest
      else x :: h :: rest
  end.

Definition sortByScoreDesc (l : list (Problem * FPScoreResult))
    : list (Problem * FPScoreResult) :=
  fold_right insertByScore [] l.

(** The string value of a classification. *)
Definition classificationName (c : FPClassification) : string :=
  match c with
  | FALSE_POSITIVE => "FALSE_POSITIVE"
  | TRUE_POSITIVE => "TRUE_POSITIVE"
  | UNCERTAIN => "UNCERTAIN"
  end.

(** [s.split(sep)] for a one-byte separator: the pieces between the
    separators, empty ones included. *)
Fixpoint split (sep : ascii) (s : string) : list string :=
  match s with
  | EmptyString => [EmptyString]
  | String c rest =>
      if Ascii.eqb c sep then EmptyString :: split sep rest
      else
        match split sep rest with
        | piece :: pieces => String c piece :: pieces
        | [] => [String c EmptyString]
        end
  end.

(** The white space and line terminators [trim] removes, as UTF-8 byte
    sequences: U+0009 to U+000D and U+0020; U+00A0; U+1680, U+2000 to
    U+200A, U+2028, U+2029, U+202F, U+205F, U+3000 and U+FEFF. *)
Definition isSpace1 (b1 : ascii) : bool :=
  let n := nat_of_ascii b1 in
  (Nat.leb 9 n && Nat.leb n 13) || Nat.eqb n 32.

Definition isSpace2 (b1 b2 : ascii) : bool :=
  Nat.eqb (nat_of_ascii b1) 194 && Nat.eqb (nat_of_ascii b2) 160.

Definition isSpace3 (b1 b2 b3 : ascii) : bool :=
  let n1 := nat_of_ascii b1 in
  let n2 := nat_of_ascii b2 in
  let n3 := nat_of_ascii b3 in
  (Nat.eqb n1 225 && Nat.eqb n2 154 && Nat.eqb n3 128)
  || (Nat.eqb n1 226 && Nat.eqb n2 128 &&
      ((Nat.leb 128 n3 && Nat.leb n3 138) || Nat.eqb n3 168 || Nat.eqb n3 169
       || Nat.eqb n3 175))
  || (Nat.eqb n1 226 && Nat.eqb n2 129 && Nat.eqb n3 159)
  || (Nat.eqb n1 227 && Nat.eqb n2 128 && Nat.eqb n3 128)
  || (Nat.eqb n1 239 && Nat.eqb n2 187 && Nat.eqb n3 191).

(** The bytes left when the sequences recognised by the three tests are
    removed from the front. *)
Fixpoint dropWhile3 (s1 : ascii -> bool) (s2 : ascii -> ascii -> bool)
    (s3 : ascii -> ascii -> ascii -> bool) (l : list ascii) : list ascii :=
  match l with
  | [] => []
  | b1 :: rest1 =>
      if s1 b1 then dropWhile3 s1 s2 s3 rest1
      else
        match rest1 with
        | [] => l
        | b2 :: rest2 =>
            if s2 b1 b2 then dropWhile3 s1 s2 s3 rest2
            else
              match rest2 with
              | [] => l
              | b3 :: rest3 =>
                  if s3 b1 b2 b3 then dropWhile3 s1 s2 s3 rest3 else l
              end
        end
  end.

(** [s.trim()]: white space removed from the front, then from the back
    (the same scan on the reversed bytes). *)
Definition trimBytes (l : list ascii) : list ascii :=
  rev (dropWhile3 isSpace1 (fun b2 b1 => isSpace2 b1 b2)
         (fun b3 b2 b1 => isSpace3 b1 b2 b3)
         (rev (dropWhile3 isSpace1 isSpace2 isSpace3 l))).

Definition trim (s : string) : string :=
  string_of_list_ascii (trimBytes (list_ascii_of_string s)).

Module Service.

Definition AUTO_REMEDIATION_KEYWORDS : list string :=
  ["autoremediado"; "auto-remediado"; "autoremediation"; "self-remediation";
   "github actions"; "remediación automática"; "automatic remediation";
   "self healing"; "auto healing"; "automated fix"; "auto-fix";
   "workflow completed"; "remediation successful"]%string.

Definition AUTO_REMEDIATION_SUCCESS_KEYWORDS : list string :=
  ["exitosa"; "successful"; "completed successfully"; "fixed";
   "resolved automatically"; "auto-resolved"; "funcionó"]%string.

Definition MANUAL_CLOSE_KEYWORDS : list string :=
  ["manually closed"; "cerrado manualmente"; "closed by user";
   "cerrado por usuario"; "manual intervention"; "false positive";
   "falso positivo"; "not an issue"; "expected behavior"]%string.

(** The service object: its collection and its private thresholds. *)
Record FalsePositiveService : Type := mkFalsePositiveService {
  collection : list Problem;
  thresholds : FPThresholds
}.

(** [new FalsePositiveService(db, 'problems')]. *)
Definition new (db : list Problem) : FalsePositiveService :=
  {| collection := db; thresholds := DEFAULT_FP_THRESHOLDS |}.

(** [this.thresholds = { ...this.thresholds, ...thresholds }]. *)
Definition setThresholds (this : FalsePositiveService)
    (update : PartialThresholds) : FalsePositiveService :=
  let old := thresholds this in
  {| collection := collection this;
     thresholds :=
       {| veryShortDurationMinutes :=
            spreadKey (veryShortDurationMinutes old) (veryShortDurationMinutes_opt update);
          shortDurationMinutes :=
            spreadKey (shortDurationMinutes old) (shortDurationMinutes_opt update);
          mediumDurationMinutes :=
            spreadKey (mediumDurationMinutes old) (mediumDurationMinutes_opt update);
          highRecurrenceCount :=
            spreadKey (highRecurrenceCount old) (highRecurrenceCount_opt update);
          recurrenceWindowDays :=
            spreadKey (recurrenceWindowDays old) (recurrenceWindowDays_opt update);
          fpScoreThreshold :=
            spreadKey (fpScoreThreshold old) (fpScoreThreshold_opt update);
          uncertainThreshold :=
            spreadKey (uncertainThreshold old) (uncertainThreshold_opt update) |} |}.

Definition getThresholds (this : FalsePositiveService) : FPThresholds :=
  thresholds this.

Definition detectAutoRemediation (problem : Problem) : bool * bool :=
  if truthy (Autoremediado problem) then
    (isToken (Autoremediado problem),
     isToken (orEmptyVal (FuncionoAutoRemediacion problem)))
  else
    closedMeansSuccess problem
      (scanComments AUTO_REMEDIATION_KEYWORDS AUTO_REMEDIATION_SUCCESS_KEYWORDS
         (commentsOf problem) (false, false)).

Definition wasQuickManualClose (problem : Problem) : bool :=
  if jsGe (duration problem) 10 then false
  else if existsb (fun c => someIncluded MANUAL_CLOSE_KEYWORDS (combinedText c))
            (commentsOf problem) then true
  else existsb
         (fun detail =>
            existsb (fun value =>
                       someIncluded MANUAL_CLOSE_KEYWORDS
                         (toLowerCase (String_ (orEmptyVal value))))
                    (properties detail))
         (evidenceDetails problem).

Definition calculateConfidence (this : FalsePositiveService)
    (score : Q) (reasonCount : nat) : Q :=
  let distanceFromThreshold :=
    Qmin (Qabs (score - fpScoreThreshold (thresholds this)))
         (Qabs (score - uncertainThreshold (thresholds this))) in
  let confidence := Qmin (0.5 + distanceFromThreshold) 0.8 in
  let confidence := confidence + Qmin (ofNat reasonCount * 0.05) 0.2 in
  Qmin 1 confidence.

Definition calculateFPScore (this : FalsePositiveService) (problem : Problem)
    : FPScoreResult :=
  let d := orZero (duration problem) in
  let acc := durationStep (thresholds this) d (0, []) in
  let acc := remediationStep (detectAutoRemediation problem) acc in
  let acc := noCommentsStep problem acc in
  let acc := manualCloseStep (wasQuickManualClose problem) d acc in
  let acc := lowSeverityStep problem acc in
  let score := clamp01 (fst acc) in
  let classification :=
    if Qle_bool (fpScoreThreshold (thresholds this)) score then FALSE_POSITIVE
    else if Qle_bool (uncertainThreshold (thresholds this)) score then UNCERTAIN
    else TRUE_POSITIVE in
  {| score := score;
     classification := classification;
     reasons := snd acc;
     confidence := calculateConfidence this score (List.length (snd acc)) |}.

(** [{ ...problem, fpAnalysis }]. *)
Definition analyzeProblem (this : FalsePositiveService) (problem : Problem)
    : Problem * FPScoreResult :=
  (problem, calculateFPScore this problem).

Definition analyzeProblems (this : FalsePositiveService)
    (problems : list Problem) : list (Problem * FPScoreResult) :=
  map (analyzeProblem this) problems.

(* ------------------------------------------------------------------ *)
(** *** [calculateSummary] *)

(** The variables the loop of [calculateSummary] updates. *)
Record SummaryAcc : Type := mkSummaryAcc {
  accByClassification : ClassificationCounts;
  accByDuration : DurationCounts;
  accTotalFPScore : Q;
  accAutoRemediatedCount : nat
}.

Definition summaryAcc0 : SummaryAcc :=
  {| accByClassification := mkClassificationCounts 0 0 0;
     accByDuration := mkDurationCounts 0 0 0 0 0;
     accTotalFPScore := 0;
     accAutoRemediatedCount := 0 |}.

(** [byClassification[c]++]. *)
Definition bumpClassification (c : FPClassification)
    (k : ClassificationCounts) : ClassificationCounts :=
  match c with
  | FALSE_POSITIVE =>
      mkClassificationCounts (S (countFalsePositive k)) (countTruePositive k) (countUncertain k)
  | TRUE_POSITIVE =>
      mkClassificationCounts (countFalsePositive k) (S (countTruePositive k)) (countUncertain k)
  | UNCERTAIN =>
      mkClassificationCounts (countFalsePositive k) (countTruePositive k) (S (countUncertain k))
  end.

(** The duration category of the loop: [duration = problem.duration || 0]
    against 5, 15, 60 and 240. *)
Definition bumpDuration (d : Q) (k : DurationCounts) : DurationCounts :=
  if Qltb d 5 then
    mkDurationCounts (S (lt5min k)) (from5to15min k) (from15to60min k) (from1to4h k) (gt4h k)
  else if Qltb d 15 then
    mkDurationCounts (lt5min k) (S (from5to15min k)) (from15to60min k) (from1to4h k) (gt4h k)
  else if Qltb d 60 then
    mkDurationCounts (lt5min k) (from5to15min k) (S (from15to60min k)) (from1to4h k) (gt4h k)
  else if Qltb d 240 then
    mkDurationCounts (lt5min k) (from5to15min k) (from15to60min k) (S (from1to4h k)) (gt4h k)
  else
    mkDurationCounts (lt5min k) (from5to15min k) (from15to60min k) (from1to4h k) (S (gt4h k)).

(** [analysis.reasons.some(r => r.reason === AUTO_REMEDIATED ||
    r.reason === AUTO_REMEDIATION_SUCCESS)]. *)
Definition hasRemediationReason (rs : list FPReasonDetail) : bool :=
  existsb (fun r => match reason r with
                    | AUTO_REMEDIATED | AUTO_REMEDIATION_SUCCESS => true
                    | _ => false
                    end) rs.

(** One iteration of [for (const problem of problems)]. *)
Definition summaryStep (acc : SummaryAcc) (entry : Problem * FPScoreResult)
    : SummaryAcc :=
  let '(problem, analysis) := entry in
  {| accByClassification :=
       bumpClassification (classification analysis) (accByClassification acc);
     accByDuration := bumpDuration (orZero (duration problem)) (accByDuration acc);
     accTotalFPScore := accTotalFPScore acc + score analysis;
     accAutoRemediatedCount :=
       if hasRemediationReason (reasons analysis)
       then S (accAutoRemediatedCount acc) else accAutoRemediatedCount acc |}.

Definition getEmptySummary : FPAnalyticsSummary :=
  {| totalProblems := 0;
     analyzedProblems := 0;
     falsePositives := 0;
     truePositives := 0;
     uncertain := 0;
     falsePositiveRate := 0;
     autoRemediationRate := 0;
     avgFPScore := 0;
     byClassification := mkClassificationCounts 0 0 0;
     byDuration := [] |}.

Definition calculateSummary (problems : list (Problem * FPScoreResult))
    : FPAnalyticsSummary :=
  let total := List.length problems in
  if Nat.eqb total 0 then getEmptySummary
  else
    let acc := fold_left summaryStep problems summaryAcc0 in
    let k := accByClassification acc in
    {| totalProblems := total;
       analyzedProblems := total;
       falsePositives := countFalsePositive k;
       truePositives := countTruePositive k;
       uncertain := countUncertain k;
       falsePositiveRate := ofNat (countFalsePositive k) / ofNat total;
       autoRemediationRate := ofNat (accAutoRemediatedCount acc) / ofNat total;
       avgFPScore := accTotalFPScore acc / ofNat total;
       byClassification := k;
       byDuration := durationObject (accByDuration acc) |}.

(** The per-record path of [runAnalysis], on a set already fetched:
    [calculateSummary(analyzeProblems(problems))]. *)
Definition summarize (this : FalsePositiveService) (problems : list Problem)
    : FPAnalyticsSummary :=
  calculateSummary (analyzeProblems this problems).

(* ------------------------------------------------------------------ *)
(** *** [getSummaryFast] *)

(** A filter value counts when it is given and not the empty string. *)
Definition given (s : option string) : option string :=
  match s with
  | Some t => if String.eqb t EmptyString then None else Some t
  | None => None
  end.

(** [{ startTime: { $gte: dateFrom, $lte: dateTo } }] on string
    timestamps; a document without the field matches no bound. *)
Definition matchStartTime (dateFrom dateTo : option string) (p : Problem) : bool :=
  match given dateFrom, given dateTo with
  | None, None => true
  | f, t =>
      match startTime p with
      | None => false
      | Some s =>
          (match f with Some lo => String.leb lo s | None => true end) &&
          (match t with Some hi => String.leb s hi | None => true end)
      end
  end.

(** [{ 'managementZones.name': { $in: zones } }], when [zones?.length]. *)
Definition matchZones (zones : option (list string)) (p : Problem) : bool :=
  match zones with
  | None | Some [] => true
  | Some zs => existsb (fun z => arrayIncludes zs (zoneName z)) (managementZones p)
  end.

(** [$in] of the lowered string of a field in the token list. *)
Definition mongoIsToken (v : jsval) : bool :=
  arrayIncludes AUTO_REMEDIATION_VALUES (mongoToLower (mongoToStringIfNull v)).

(** The [fpScore] expression of [$addFields]. *)
Definition fastFpScore (p : Problem) : Q :=
  (if mongoLtIfNull0 (duration p) 5 then 0.35
   else if mongoLtIfNull0 (duration p) 15 then 0.20
   else if mongoLtIfNull0 (duration p) 60 then 0.10 else 0)
  + (if mongoIsToken (Autoremediado p) && mongoIsToken (FuncionoAutoRemediacion p)
     then 0.25
     else if mongoIsToken (Autoremediado p) then 0.10 else 0)
  + (if isLowSeverity p then 0.10 else 0)
  + (if Nat.eqb (commentCountOf p) 0 then 0.05 else 0).

(** The [durationCategory] expression of [$addFields]. *)
Definition fastDurationCategory (p : Problem) : string :=
  (if mongoLtIfNull0 (duration p) 5 then "<5min"
   else if mongoLtIfNull0 (duration p) 15 then "5-15min"
   else if mongoLtIfNull0 (duration p) 60 then "15-60min"
   else if mongoLtIfNull0 (duration p) 240 then "1-4h"
   else ">4h")%string.

(** The one document [$group] with [_id: null] produces. *)
Record FastGroup : Type := mkFastGroup {
  fTotalProblems : nat;
  fFalsePositives : nat;
  fTruePositives : nat;
  fUncertain : nat;
  fAutoRemediated : nat;
  fTotalFPScore : Q;
  fDurationLt5 : nat;
  fDuration5to15 : nat;
  fDuration15to60 : nat;
  fDuration1to4h : nat;
  fDurationGt4h : nat
}.

(** [{ $sum: { $cond: [c, 1, 0] } }] over the documents. *)
Definition sumCond (c : Problem -> bool) (docs : list Problem) : nat :=
  List.length (filter c docs).

Definition fastGroup (docs : list Problem) : FastGroup :=
  let category (c : string) (p : Problem) := String.eqb (fastDurationCategory p) c in
  {| fTotalProblems := List.length docs;
     fFalsePositives := sumCond (fun p => Qle_bool 0.6 (fastFpScore p)) docs;
     fTruePositives := sumCond (fun p => Qltb (fastFpScore p) 0.3) docs;
     fUncertain :=
       sumCond (fun p => Qle_bool 0.3 (fastFpScore p) && Qltb (fastFpScore p) 0.6) docs;
     fAutoRemediated := sumCond (fun p => mongoIsToken (Autoremediado p)) docs;
     fTotalFPScore := fold_left (fun s p => s + fastFpScore p) docs 0;
     fDurationLt5 := sumCond (category "<5min"%string) docs;
     fDuration5to15 := sumCond (category "5-15min"%string) docs;
     fDuration15to60 := sumCond (category "15-60min"%string) docs;
     fDuration1to4h := sumCond (category "1-4h"%string) docs;
     fDurationGt4h := sumCond (category ">4h"%string) docs |}.

(** The result of the aggregation: no document at all when nothing
    matched, and then [mainResult || { ...zeros }]. *)
Definition fastData (docs : list Problem) : FastGroup :=
  match docs with
  | [] => mkFastGroup 0 0 0 0 0 0 0 0 0 0 0
  | _ => fastGroup docs
  end.

Definition getSummaryFast (this : FalsePositiveService)
    (dateFrom dateTo : option string) (zones : option (list string))
    : FPAnalyticsSummary :=
  let docs :=
    filter (fun p => matchStartTime dateFrom dateTo p && matchZones zones p)
      (collection this) in
  let data := fastData docs in
  let total := fTotalProblems data in
  let rate (n : Q) := if Nat.ltb 0 total then n / ofNat total else 0 in
  {| totalProblems := total;
     analyzedProblems := total;
     falsePositives := fFalsePositives data;
     truePositives := fTruePositives data;
     uncertain := fUncertain data;
     falsePositiveRate := rate (ofNat (fFalsePositives data));
     autoRemediationRate := rate (ofNat (fAutoRemediated data));
     avgFPScore := rate (fTotalFPScore data);
     byClassification :=
       mkClassificationCounts (fFalsePositives data) (fTruePositives data)
         (fUncertain data);
     byDuration :=
       durationObject
         (mkDurationCounts (fDurationLt5 data) (fDuration5to15 data)
            (fDuration15to60 data) (fDuration1to4h data) (fDurationGt4h data)) |}.

(* ------------------------------------------------------------------ *)
(** *** [analyzeEntityRecurrence] *)

(** The [$match] stage of the window.  The bounds are the ISO strings
    of the two [Date] arguments ([toISOString]); a [Date] is truthy
    whatever its value. *)
Definition matchWindow (dateFrom dateTo : option string) (p : Problem) : bool :=
  match dateFrom, dateTo with
  | None, None => true
  | f, t =>
      match startTime p with
      | None => false
      | Some s =>
          (match f with Some lo => String.leb lo s | None => true end) &&
          (match t with Some hi => String.leb s hi | None => true end)
      end
  end.

(** [{ $unwind: { path: '$affectedEntities',
    preserveNullAndEmptyArrays: false } }]: one document per element. *)
Definition unwind (docs : list Problem) : list (Problem * AffectedEntity) :=
  flat_map (fun p => map (fun e => (p, e)) (affectedEntities p)) docs.

(** The object [$push] builds from an unwound document. *)
Definition pushed (p : Problem) : GroupedProblem :=
  {| gProblemId := problemId p;
     gDisplayId := displayId p;
     gTitle := title p;
     gStartTime := startTime p;
     gDuration := duration p;
     gStatus := status p;
     gAutoremediado := Autoremediado p |}.

(** One unwound document entering [$group] with
    [_id: '$affectedEntities.entityId.id']: it joins the group of its
    key, or opens one ([$first] keeps the name and type it brings). *)
Fixpoint groupAdd (doc : Problem * AffectedEntity) (gs : list EntityGroup)
    : list EntityGroup :=
  match gs with
  | [] =>
      [ {| groupId := id (entityId (snd doc));
           groupEntityName := name (snd doc);
           groupEntityType := type (entityId (snd doc));
           groupTotalProblems := 1;
           groupProblems := [pushed (fst doc)] |} ]
  | g :: rest =>
      if optStringEqb (groupId g) (id (entityId (snd doc))) then
        {| groupId := groupId g;
           groupEntityName := groupEntityName g;
           groupEntityType := groupEntityType g;
           groupTotalProblems := S (groupTotalProblems g);
           groupProblems := groupProblems g ++ [pushed (fst doc)] |} :: rest
      else g :: groupAdd doc rest
  end.

Definition groupByEntity (docs : list (Problem * AffectedEntity))
    : list EntityGroup :=
  fold_left (fun gs doc => groupAdd doc gs) docs [].

(** The whole pipeline: [$match], [$unwind], [$group],
    [$match totalProblems >= 2], [$sort], [$limit 50]. *)
Definition recurrencePipeline (docs : list Problem)
    (dateFrom dateTo : option string) : list EntityGroup :=
  firstn 50
    (sortByTotalDesc
       (filter (fun g => Nat.leb 2 (groupTotalProblems g))
          (groupByEntity (unwind (filter (matchWindow dateFrom dateTo) docs))))).

(** The record the loop scores instead of the stored problem. *)
Definition mockProblem (p : GroupedProblem) : Problem :=
  {| problemId := EmptyString;
     displayId := EmptyString;
     title := EmptyString;
     status := gStatus p;
     severityLevel := Some "RESOURCE_CONTENTION"%string;
     startTime := None;
     duration := Num (orZero (gDuration p));
     affectedEntities := [];
     managementZones := [];
     recentComments := Some {| totalCount := 0; comments := [] |};
     evidenceDetails := [];
     Autoremediado := gAutoremediado p;
     FuncionoAutoRemediacion := JUndefined |}.

(** [fpCount] after the loop over [analyzedProblems]. *)
Definition fpCount (this : FalsePositiveService) (ps : list GroupedProblem) : nat :=
  List.length
    (filter (fun p => match classification (calculateFPScore this (mockProblem p)) with
                      | FALSE_POSITIVE => true
                      | _ => false
                      end) ps).

(** [s || 'Unknown']. *)
Definition orUnknown (s : option string) : string :=
  match s with
  | Some t => if String.eqb t EmptyString then "Unknown"%string else t
  | None => "Unknown"%string
  end.

(** [Math.min(1.0, totalProblems / highRecurrenceCount)], for a positive
    [totalProblems]: the quotient by zero is [+Infinity]. *)
Definition recurrenceScoreOf (total : nat) (high : Q) : Q :=
  if Qeq_bool high 0 then 1 else Qmin 1 (ofNat total / high).

Definition analyzeEntity (this : FalsePositiveService) (entity : EntityGroup)
    : EntityRecurrenceAnalysis :=
  let total := groupTotalProblems entity in
  let autoRemediatedCount :=
    List.length (filter (fun p => isToken (orEmptyVal (gAutoremediado p)))
                   (groupProblems entity)) in
  {| eEntityId := groupId entity;
     eEntityName := orUnknown (groupEntityName entity);
     eEntityType := orUnknown (groupEntityType entity);
     eTotalProblems := total;
     eAutoRemediationRate :=
       if Nat.ltb 0 total then ofNat autoRemediatedCount / ofNat total else 0;
     eFalsePositiveRate :=
       if Nat.ltb 0 total
       then ofNat (fpCount this (groupProblems entity)) / ofNat total else 0;
     eRecurrenceScore :=
       recurrenceScoreOf total (highRecurrenceCount (thresholds this));
     eProblemTypes :=
       fold_left (fun obj p => bump (gTitle p) obj) (groupProblems entity) [];
     eRecentProblems :=
       map (fun p => {| rProblemId := gProblemId p;
                        rDisplayId := gDisplayId p;
                        rTitle := gTitle p;
                        rStartTime := gStartTime p;
                        rDuration := orZero (gDuration p);
                        rFpScore := 0 |})
           (firstn 5 (groupProblems entity)) |}.

Definition analyzeEntityRecurrence (this : FalsePositiveService)
    (dateFrom dateTo : option string) : list EntityRecurrenceAnalysis :=
  map (analyzeEntity this)
      (recurrencePipeline (collection this) dateFrom dateTo).

(* ------------------------------------------------------------------ *)
(** *** [generateRecommendations] *)

(** The texts pushed for a summary.  [bySeverity] and
    [topRecurringEntities] are the two further fields of the summary the
    function reads; the second may be missing
    ([summary.topRecurringEntities?.filter(...) || []]). *)
Definition generateRecommendations (this : FalsePositiveService)
    (summary : FPAnalyticsSummary) (bySeverity : list (string * nat))
    (topRecurringEntities : option (list EntityRecurrenceAnalysis))
    : list string :=
  let rate := falsePositiveRate summary in
  let byRate :=
    if Qltb 0.5 rate then
      [("⚠️ CRÍTICO: " ++ toFixed1 (rate * 100) ++
       "% de los problemas son posibles falsos positivos. " ++
       "Se recomienda revisar urgentemente los umbrales de alertas en Dynatrace.")%string]
    else if Qltb 0.3 rate then
      [("⚠️ ALTO: " ++ toFixed1 (rate * 100) ++
       "% tasa de falsos positivos. " ++
       "Considere ajustar los umbrales de detección.")%string]
    else if Qltb 0.1 rate then
      [("ℹ️ MODERADO: " ++ toFixed1 (rate * 100) ++
       "% tasa de falsos positivos. " ++
       "Algunos ajustes podrían mejorar la precisión.")%string]
    else
      [("✅ BUENO: Solo " ++ toFixed1 (rate * 100) ++
       "% de falsos positivos detectados.")%string] in
  let byRemediation :=
    if Qltb 0.5 (autoRemediationRate summary) then
      [("🤖 " ++ toFixed1 (autoRemediationRate summary * 100) ++
       "% de problemas auto-remediados. " ++
       "Considere aumentar umbrales para reducir alertas de problemas transitorios.")%string]
    else [] in
  let veryShortCount := lookupCount "<5min"%string (byDuration summary) in
  let veryShortRate :=
    if Nat.ltb 0 (totalProblems summary)
    then ofNat veryShortCount / ofNat (totalProblems summary) else 0 in
  let byDurationRate :=
    if Qltb 0.3 veryShortRate then
      [("⏱️ " ++ toFixed1 (veryShortRate * 100) ++
       "% de problemas duran menos de 5 minutos. " ++
       "Considere añadir delays antes de generar alertas para problemas transitorios.")%string]
    else [] in
  let highRecurrence :=
    match topRecurringEntities with
    | Some entities =>
        filter (fun e => Qle_bool (highRecurrenceCount (thresholds this))
                           (ofNat (eTotalProblems e))) entities
    | None => []
    end in
  let byRecurrence :=
    if Nat.ltb 0 (List.length highRecurrence) then
      let top3Names :=
        String.concat ", "%string
          (map (fun e => substring0 40 (eEntityName e)) (slice highRecurrence 0 3)) in
      [("🔄 " ++ natString (Z.of_nat (List.length highRecurrence)) ++
       " entidades con alta recurrencia. " ++
       "Top 3: " ++ top3Names ++ ". Revisar configuración de estas entidades.")%string]
    else [] in
  let resourceContentionCount := lookupCount "RESOURCE_CONTENTION"%string bySeverity in
  let bySeverityShare :=
    if Qltb (ofNat (totalProblems summary) * 0.4) (ofNat resourceContentionCount) then
      [((if Nat.eqb (totalProblems summary) 0 then "📊 Infinity"
         else "📊 " ++ toFixed1 (ofNat resourceContentionCount /
                                  ofNat (totalProblems summary) * 100)) ++
        "% son problemas de RESOURCE_CONTENTION. " ++
        "Considere revisar los umbrales de recursos o capacidad de infraestructura.")%string]
    else [] in
  (byRate ++ byRemediation ++ byDurationRate ++ byRecurrence ++ bySeverityShare)%list.

(** The [recommendations] [getSummaryFast] builds beside its summary. *)
Definition getSummaryFastRecommendations (this : FalsePositiveService)
    (dateFrom dateTo : option string) (zones : option (list string))
    : list string :=
  let docs :=
    filter (fun p => matchStartTime dateFrom dateTo p && matchZones zones p)
      (collection this) in
  let data := fastData docs in
  let summary := getSummaryFast this dateFrom dateTo zones in
  let byRate :=
    if Qltb 0.5 (falsePositiveRate summary) then
      [("⚠️ CRÍTICO: " ++ toFixed1 (falsePositiveRate summary * 100) ++
        "% de los problemas son posibles falsos positivos.")%string]
    else if Qltb 0.3 (falsePositiveRate summary) then
      [("⚠️ ALTO: " ++ toFixed1 (falsePositiveRate summary * 100) ++
        "% tasa de falsos positivos.")%string]
    else [] in
  let byRemediation :=
    if Qltb 0.5 (autoRemediationRate summary) then
      [("🤖 " ++ toFixed1 (autoRemediationRate summary * 100) ++
        "% de problemas auto-remediados.")%string]
    else [] in
  let veryShortRate :=
    ofNat (fDurationLt5 data)
    / ofNat (if Nat.eqb (fTotalProblems data) 0 then 1 else fTotalProblems data) in
  let byDurationRate :=
    if Qltb 0.3 veryShortRate then
      [("⏱️ " ++ toFixed1 (veryShortRate * 100) ++
        "% de problemas duran menos de 5 minutos.")%string]
    else [] in
  (byRate ++ byRemediation ++ byDurationRate)%list.

(* ------------------------------------------------------------------ *)
(** *** [calculateAvgResolutionTime] and the health score *)

(** [weights[range] || 30], as the factor of [avgDuration * count]: one
    of the five midpoints, [30] for another key, and for a name the
    object literal inherits a function or an object, whose product with
    a number is [NaN]. *)
Definition rangeWeight (range : string) : jsnum :=
  if String.eqb range "<5min"%string then Num 2.5
  else if String.eqb range "5-15min"%string then Num 10
  else if String.eqb range "15-60min"%string then Num 37.5
  else if String.eqb range "1-4h"%string then Num 150
  else if String.eqb range ">4h"%string then Num 360
  else if inheritedKey range then NumNaN
  else Num 30.

(** The loop over [Object.entries(summary.byDuration)]: the pair
    [(totalWeight, totalDuration)]; a sum with [NaN] is [NaN]. *)
Definition resolutionTotals (obj : list (string * nat)) : Q * jsnum :=
  fold_left
    (fun acc entry =>
       (fst acc + ofNat (snd entry),
        match snd acc, rangeWeight (fst entry) with
        | Num d, Num w => Num (d + w * ofNat (snd entry))
        | _, _ => NumNaN
        end))
    obj (0, Num 0).

Definition calculateAvgResolutionTime (summary : FPAnalyticsSummary) : jsnum :=
  let totals := resolutionTotals (byDuration summary) in
  if Qltb 0 (fst totals) then
    match snd totals with
    | Num d => Num (d / fst totals)
    | _ => NumNaN
    end
  else Num 0.

(** [alertHealthScore] of [getDashboardKPIs]:
    [Math.round((1 - summary.falsePositiveRate) * 100)]. *)
Definition alertHealthScore (summary : FPAnalyticsSummary) : Z :=
  mathRound ((1 - falsePositiveRate summary) * 100).

End Service.

(* ================================================================== *)
(** ** The endpoints ([false-positive.controller.ts]) *)
(* ================================================================== *)

Module Controller.

(** The controller object: its lazily created service. *)
Record FalsePositiveController : Type := mkFalsePositiveController {
  service : option Service.FalsePositiveService
}.

(** [getService]: the service is created from [database.getDb()] on
    first use and kept. *)
Definition getService (db : list Problem) (this : FalsePositiveController)
    : Service.FalsePositiveService * FalsePositiveController :=
  match service this with
  | Some s => (s, this)
  | None => let s := Service.new db in (s, {| service := Some s |})
  end.



(** [GET /thresholds]: the thresholds a client reads. *)
Definition getThresholds (db : list Problem) (this : FalsePositiveController)
    : FPThresholds :=
  Service.getThresholds (fst (getService db this)).

(* ------------------------------------------------------------------ *)
(** *** The list endpoints *)

(** What [GET /problems] sends: the page and the pagination data. *)
Record ProblemListResponse : Type := mkProblemListResponse {
  listProblems : list (Problem * FPScoreResult);
  listTotal : nat;
  listPage : Z;
  listLimit : Z;
  listTotalPages : Z
}.

(** The three filters of [GET /problems].  A missing or empty
    [classification] does not filter; [minScore] and [maxScore] are the
    results of [parseFloat] ([undefined] when the parameter is missing
    or empty), and a comparison with [NaN] holds for no score. *)
Definition filterProblems (problems : list (Problem * FPScoreResult))
    (classificationParam : option string) (minScore maxScore : jsnum)
    : list (Problem * FPScoreResult) :=
  let problems :=
    match classificationParam with
    | Some c =>
        if String.eqb c EmptyString then problems
        else filter (fun p => String.eqb (classificationName (classification (snd p))) c)
               problems
    | None => problems
    end in
  let problems :=
    match minScore with
    | NumUndefined => problems
    | NumNaN => filter (fun _ => false) problems
    | Num m => filter (fun p => Qle_bool m (score (snd p))) problems
    end in
  match maxScore with
  | NumUndefined => problems
  | NumNaN => filter (fun _ => false) problems
  | Num m => filter (fun p => Qle_bool (score (snd p)) m) problems
  end.

(** [GET /problems], from [result.problems] of the analysis run and the
    query: [page] and [limit] are the results of [parseInt] ([None] for
    [NaN]). *)
Definition getProblemsWithAnalysis
    (resultProblems : option (list (Problem * FPScoreResult)))
    (page limit : option Z) (classificationParam : option string)
    (minScore maxScore : jsnum) : ProblemListResponse :=
  let page := orDefaultZ page 1 in
  let limit := orDefaultZ limit 20 in
  let problems := match resultProblems with Some l => l | None => [] end in
  let problems :=
    sortByScoreDesc (filterProblems problems classificationParam minScore maxScore) in
  let total := List.length problems in
  let totalPages := Qceiling (inject_Z (Z.of_nat total) / inject_Z limit) in
  let startIndex := ((page - 1) * limit)%Z in
  {| listProblems := slice problems startIndex (startIndex + limit);
     listTotal := total;
     listPage := page;
     listLimit := limit;
     listTotalPages := totalPages |}.

(** One entry of [GET /problems/top]. *)
Record TopFalsePositive : Type := mkTopFalsePositive {
  topProblemId : string;
  topDisplayId : string;
  topTitle : string;
  topDuration : jsnum;
  topSeverityLevel : option string;
  topStartTime : option string;
  topFpScore : Q;
  topFpReasons : list string;
  topAffectedEntity : string
}.

Definition topEntry (p : Problem * FPScoreResult) : TopFalsePositive :=
  {| topProblemId := problemId (fst p);
     topDisplayId := displayId (fst p);
     topTitle := title (fst p);
     topDuration := duration (fst p);
     topSeverityLevel := severityLevel (fst p);
     topStartTime := startTime (fst p);
     topFpScore := score (snd p);
     topFpReasons := map label (reasons (snd p));
     topAffectedEntity :=
       Service.orUnknown
         (match affectedEntities (fst p) with
          | e :: _ => name e
          | [] => None
          end) |}.

(** [GET /problems/top]: the list sent, and its [total]. *)
Definition getTopFalsePositives
    (resultProblems : option (list (Problem * FPScoreResult)))
    (limit : option Z) : list TopFalsePositive * nat :=
  let limit := orDefaultZ limit 10 in
  let problems := match resultProblems with Some l => l | None => [] end in
  let topFP :=
    map topEntry
      (slice
         (sortByScoreDesc
            (filter (fun p => match classification (snd p) with
                              | FALSE_POSITIVE => true
                              | _ => false
                              end) problems))
         0 limit) in
  (topFP, List.length topFP).

(* ------------------------------------------------------------------ *)
(** *** The entity endpoints *)

(** [GET /entities]: the entities sent and their [total].  [dateFrom]
    and [dateTo] are the ISO strings of the dates read from the query;
    [minProblems] is the result of [parseInt], which filters when it is
    a number other than 0; an empty [entityType] does not filter. *)
Definition getEntityAnalysis (db : list Problem) (this : FalsePositiveController)
    (dateFrom dateTo : option string) (minProblems : option Z)
    (entityType : option string)
    : (list EntityRecurrenceAnalysis * nat) * FalsePositiveController :=
  let '(svc, this) := getService db this in
  let entities := Service.analyzeEntityRecurrence svc dateFrom dateTo in
  let filteredEntities :=
    match minProblems with
    | Some m =>
        if Z.eqb m 0 then entities
        else filter (fun e => (m <=? Z.of_nat (eTotalProblems e))%Z) entities
    | None => entities
    end in
  let filteredEntities :=
    match entityType with
    | Some t =>
        if String.eqb t EmptyString then filteredEntities
        else filter (fun e => String.eqb (eEntityType e) t) filteredEntities
    | None => filteredEntities
    end in
  ((filteredEntities, List.length filteredEntities), this).

(** What [GET /entities/:entityId] sends. *)
Inductive EntityResponse : Type :=
| Entity404 (message : string)
| Entity200 (entity : EntityRecurrenceAnalysis).

(** [GET /entities/:entityId]: the analysis runs without a window. *)
Definition getEntityById (db : list Problem) (this : FalsePositiveController)
    (entityId : string) : EntityResponse * FalsePositiveController :=
  let '(svc, this) := getService db this in
  let entities := Service.analyzeEntityRecurrence svc None None in
  match find (fun e => optStringEqb (eEntityId e) (Some entityId)) entities with
  | None => (Entity404 ("Entity " ++ entityId ++ " not found")%string, this)
  | Some entity => (Entity200 entity, this)
  end.

(* ------------------------------------------------------------------ *)
(** *** Query parameters and the summary endpoint *)

(** A value of [req.query]: missing, a string, an array (of strings), or
    a nested object. *)
Inductive QueryValue : Type :=
| QueryMissing
| QueryString (s : string)
| QueryArray (items : list string)
| QueryObject.

(** [parseArrayParam]: [undefined] for a falsy value (missing, or the
    empty string) and for an object, an array as it is, and the trimmed
    non-empty pieces of a comma-separated string. *)
Definition parseArrayParam (param : QueryValue) : option (list string) :=
  match param with
  | QueryMissing => None
  | QueryString s =>
      if String.eqb s EmptyString then None
      else Some (filter (fun piece => negb (String.eqb piece EmptyString))
                   (map trim (split ","%char s)))
  | QueryArray items => Some items
  | QueryObject => None
  end.

(** [GET /summary]: the summary of [getSummaryFast] for the query. *)
Definition getSummary (db : list Problem) (this : FalsePositiveController)
    (dateFrom dateTo : option string) (managementZones : QueryValue)
    : FPAnalyticsSummary * FalsePositiveController :=
  let '(svc, this) := getService db this in
  (Service.getSummaryFast svc dateFrom dateTo (parseArrayParam managementZones),
   this).

End Controller.

(* ================================================================== *)
(** ** Vocabulary of the properties *)
(* ================================================================== *)

(** The same problem with another [duration]. *)
Definition withDuration (p : Problem) (d : jsnum) : Problem :=
  {| problemId := problemId p;
     displayId := displayId p;
     title := title p;
     status := status p;
     severityLevel := severityLevel p;
     startTime := startTime p;
     duration := d;
     affectedEntities := affectedEntities p;
     managementZones := managementZones p;
     recentComments := recentComments p;
     evidenceDetails := evidenceDetails p;
     Autoremediado := Autoremediado p;
     FuncionoAutoRemediacion := FuncionoAutoRemediacion p |}.

(** The invariant of a configuration:
    [0 <= uncertainThreshold <= fpScoreThreshold <= 1]. *)
Definition validThresholds (th : FPThresholds) : Prop :=
  0 <= uncertainThreshold th /\
  uncertainThreshold th <= fpScoreThreshold th /\
  fpScoreThreshold th <= 1.

(** A result whose classification is the one its score and the two
    cutoffs determine. *)
Definition consistentWith (th : FPThresholds) (r : FPScoreResult) : Prop :=
  (classification r = FALSE_POSITIVE <-> fpScoreThreshold th <= score r) /\
  (classification r = UNCERTAIN <->
     uncertainThreshold th <= score r /\ score r < fpScoreThreshold th) /\
  (classification r = TRUE_POSITIVE <-> score r < uncertainThreshold th).



(** A service over a collection with a given configuration. *)
Definition serviceWith (db : list Problem) (th : FPThresholds)
    : Service.FalsePositiveService :=
  {| Service.collection := db; Service.thresholds := th |}.

(** The unwound documents of one entity. *)
Definition ofEntity (key : option string) (docs : list (Problem * AffectedEntity))
    : list (Problem * AffectedEntity) :=
  filter (fun doc => optStringEqb (id (entityId (snd doc))) key) docs.

(** The occurrences of an entity among the problems of the window. *)
Definition observedInWindow (db : list Problem) (dateFrom dateTo : option string)
    (key : option string) : list (Problem * AffectedEntity) :=
  ofEntity key (Service.unwind (filter (Service.matchWindow dateFrom dateTo) db)).

Definition isFalsePositive (r : FPScoreResult) : bool :=
  match classification r with
  | FALSE_POSITIVE => true
  | _ => false
  end.

(** Every step adds its own weight to the running score, whatever the
    score was. *)
Definition additive (step : Acc -> Acc) : Prop :=
  forall acc : Acc, fst (step acc) == fst acc + fst (step (0, [])).


(** The key [$group] reads in an unwound document. *)
Definition keyOf (doc : Problem * AffectedEntity) : option string :=
  id (entityId (snd doc)).

(** What [$group] has accumulated after the documents [docs]: one group
    per key met, with its count and its pushed projections in document
    order. *)
Definition groupsOf (docs : list (Problem * AffectedEntity))
    (gs : list EntityGroup) : Prop :=
  NoDup (map groupId gs) /\
  (forall doc, In doc docs -> In (keyOf doc) (map groupId gs)) /\
  (forall g, In g gs ->
     groupTotalProblems g = List.length (ofEntity (groupId g) docs) /\
     groupProblems g = map (fun doc => Service.pushed (fst doc))
                         (ofEntity (groupId g) docs)).






(** Counters added field by field. *)
Definition plusCounts (a b : DurationCounts) : DurationCounts :=
  {| lt5min := lt5min a + lt5min b;
     from5to15min := from5to15min a + from5to15min b;
     from15to60min := from15to60min a + from15to60min b;
     from1to4h := from1to4h a + from1to4h b;
     gt4h := gt4h a + gt4h b |}.

(** The five category sums of [$group]. *)
Definition fastBuckets (docs : list Problem) : DurationCounts :=
  let category (c : string) (p : Problem) :=
    String.eqb (Service.fastDurationCategory p) c in
  {| lt5min := Service.sumCond (category "<5min"%string) docs;
     from5to15min := Service.sumCond (category "5-15min"%string) docs;
     from15to60min := Service.sumCond (category "15-60min"%string) docs;
     from1to4h := Service.sumCond (category "1-4h"%string) docs;
     gt4h := Service.sumCond (category ">4h"%string) docs |}.

(** The sum of the weights of a list of reasons. *)
Definition sumWeights (rs : list FPReasonDetail) : Q :=
  fold_right (fun r acc => weight r + acc) 0 rs.

(** Every step appends its own reasons to the list, whatever the list
    was. *)
Definition appending (step : Acc -> Acc) : Prop :=
  forall acc : Acc, snd (step acc) = snd acc ++ snd (step (0, [])).

(** TRUE_POSITIVE below UNCERTAIN below FALSE_POSITIVE. *)
Definition classificationRank (c : FPClassification) : nat :=
  match c with
  | TRUE_POSITIVE => 0
  | UNCERTAIN => 1
  | FALSE_POSITIVE => 2
  end.

(** The reason codes of a result, in order. *)
Definition reasonCodes (r : FPScoreResult) : list FPReason :=
  map reason (reasons r).

(** What the list of reason codes of a result always satisfies. *)
Definition wellFormedCodes (l : list FPReason) : Prop :=
  NoDup l /\
  (List.length l <= 5)%nat /\
  ~ (In VERY_SHORT_DURATION l /\ In SHORT_DURATION l) /\
  ~ (In AUTO_REMEDIATED l /\ In AUTO_REMEDIATION_SUCCESS l) /\
  ~ In RESOURCE_CONTENTION l /\
  ~ In RECURRING_PATTERN l /\
  ~ In SPIKE_PATTERN l.

(** A problem with a comment that closes it by hand and an evidence-free
    record: short, remediated with success, of low severity. *)
Definition closedByHand : Problem :=
  {| problemId := "P-3001"; displayId := "P-3001"; title := "Memory pressure";
     status := "CLOSED";
     severityLevel := Some "PERFORMANCE"%string;
     startTime := Some "2024-10-04T07:00:00.000Z"%string;
     duration := Num 2;
     affectedEntities := [];
     managementZones := [];
     recentComments :=
       Some {| totalCount := 1;
               comments := [ {| content := Some "Falso positivo, cerrado manualmente"%string;
                                context := None |} ] |};
     evidenceDetails := [];
     Autoremediado := JStr "yes";
     FuncionoAutoRemediacion := JBool true |}.

(** The same record, with a comment list but a total count of zero. *)
Definition closedByHandUncounted : Problem :=
  {| problemId := "P-3002"; displayId := "P-3002"; title := "Memory pressure";
     status := "CLOSED";
     severityLevel := Some "PERFORMANCE"%string;
     startTime := Some "2024-10-04T07:00:00.000Z"%string;
     duration := Num 2;
     affectedEntities := [];
     managementZones := [];
     recentComments :=
       Some {| totalCount := 0;
               comments := [ {| content := Some "Falso positivo, cerrado manualmente"%string;
                                context := None |} ] |};
     evidenceDetails := [];
     Autoremediado := JStr "yes";
     FuncionoAutoRemediacion := JBool true |}.

(** A problem on which the two fast paths of [quickClassify] are the
    only difference: long, commented, remediated with success, of low
    severity. *)
Definition longRemediated : Problem :=
  {| problemId := "P-3003"; displayId := "P-3003"; title := "Queue backlog";
     status := "CLOSED";
     severityLevel := Some "PERFORMANCE"%string;
     startTime := Some "2024-10-05T11:00:00.000Z"%string;
     duration := Num 90;
     affectedEntities := [];
     managementZones := [];
     recentComments :=
       Some {| totalCount := 2;
               comments := [ {| content := Some "restarted consumer"%string;
                                context := None |};
                             {| content := Some "back to normal"%string;
                                context := None |} ] |};
     evidenceDetails := [];
     Autoremediado := JStr "Si";
     FuncionoAutoRemediacion := JStr "Si" |}.

(** A closed problem whose only remediation signal is a comment. *)
Definition closedWithBotComment : Problem :=
  {| problemId := "P-3004"; displayId := "P-3004"; title := "Pod restart loop";
     status := "CLOSED";
     severityLevel := Some "ERROR"%string;
     startTime := Some "2024-10-06T12:00:00.000Z"%string;
     duration := Num 20;
     affectedEntities := [];
     managementZones := [];
     recentComments :=
       Some {| totalCount := 1;
               comments := [ {| content := Some "Auto-Fix triggered by GitHub Actions"%string;
                                context := Some "bot"%string |} ] |};
     evidenceDetails := [];
     Autoremediado := JUndefined;
     FuncionoAutoRemediacion := JUndefined |}.

(** The sum of the values of an object of counters. *)
Definition sumValues (obj : list (string * nat)) : nat :=
  fold_right (fun kv acc => (snd kv + acc)%nat) 0%nat obj.

(** The sum of five counters. *)
Definition sumCounts (k : DurationCounts) : nat :=
  (lt5min k + from5to15min k + from15to60min k + from1to4h k + gt4h k)%nat.

(** The sum of three counters. *)
Definition sumClasses (k : ClassificationCounts) : nat :=
  (countFalsePositive k + countTruePositive k + countUncertain k)%nat.

(** A condition as the [1] or [0] a [$cond] sums. *)
Definition b2n (b : bool) : nat := if b then 1%nat else 0%nat.

(** Equality of entity keys is decidable. *)
Definition optString_dec (a b : option string) : {a = b} + {a <> b}.
Proof. decide equality. apply string_dec. Defined.

(** The distinct entity keys met in the problems of the window. *)
Definition entitiesInWindow (db : list Problem) (dateFrom dateTo : option string)
    : list (option string) :=
  nodup optString_dec
    (map keyOf (Service.unwind (filter (Service.matchWindow dateFrom dateTo) db))).

(** One key of [{ ...a, ...b }] on two partial updates. *)
Definition laterKey (a b : option Q) : option Q :=
  match b with
  | Some v => Some v
  | None => a
  end.

(** [{ ...a, ...b }]: the update that carries the keys of both, those of
    [b] winning. *)
Definition mergeUpdates (a b : PartialThresholds) : PartialThresholds :=
  {| veryShortDurationMinutes_opt :=
       laterKey (veryShortDurationMinutes_opt a) (veryShortDurationMinutes_opt b);
     shortDurationMinutes_opt :=
       laterKey (shortDurationMinutes_opt a) (shortDurationMinutes_opt b);
     mediumDurationMinutes_opt :=
       laterKey (mediumDurationMinutes_opt a) (mediumDurationMinutes_opt b);
     highRecurrenceCount_opt :=
       laterKey (highRecurrenceCount_opt a) (highRecurrenceCount_opt b);
     recurrenceWindowDays_opt :=
       laterKey (recurrenceWindowDays_opt a) (recurrenceWindowDays_opt b);
     fpScoreThreshold_opt :=
       laterKey (fpScoreThreshold_opt a) (fpScoreThreshold_opt b);
     uncertainThreshold_opt :=
       laterKey (uncertainThreshold_opt a) (uncertainThreshold_opt b) |}.

(** The update [{}]. *)
Definition noUpdate : PartialThresholds :=
  mkPartialThresholds None None None None None None None.

(** Descending order of the scores. *)
Definition scoreDesc (a b : Problem * FPScoreResult) : Prop :=
  score (snd b) <= score (snd a).

(** The pages [1 .. n] of a listing. *)
Definition pagesUpTo {A : Type} (n : nat) (page : Z -> list A) : list A :=
  List.concat (map (fun k => page (Z.of_nat k)) (seq 1 n)).

(** [result.problems || []]. *)
Definition resultOf {A : Type} (problems : option (list A)) : list A :=
  match problems with
  | Some l => l
  | None => []
  end.

(** An analysed problem passes the filters of the query. *)
Definition passesFilters (classificationParam : option string)
    (minScore maxScore : jsnum) (p : Problem * FPScoreResult) : Prop :=
  match classificationParam with
  | Some c => c = EmptyString \/ classificationName (classification (snd p)) = c
  | None => True
  end /\
  match minScore with
  | NumUndefined => True
  | NumNaN => False
  | Num m => m <= score (snd p)
  end /\
  match maxScore with
  | NumUndefined => True
  | NumNaN => False
  | Num m => score (snd p) <= m
  end.

(** The page [k] of a listing, for a given page size and filters. *)
Definition pageOf (resultProblems : option (list (Problem * FPScoreResult)))
    (limit : option Z) (classificationParam : option string)
    (minScore maxScore : jsnum) (k : Z) : Controller.ProblemListResponse :=
  Controller.getProblemsWithAnalysis resultProblems (Some k) limit
    classificationParam minScore maxScore.



(* ------------------------------------------------------------------ *)
(** *** Concrete records *)

(** Scenario A. *)
Definition scenarioA : Problem :=
  {| problemId := "P-1001"; displayId := "P-1001"; title := "CPU saturation";
     status := "CLOSED";
     severityLevel := Some "RESOURCE_CONTENTION"%string;
     startTime := Some "2024-10-01T10:00:00.000Z"%string;
     duration := Num 3;
     affectedEntities := [];
     managementZones := [];
     recentComments := None;
     evidenceDetails := [];
     Autoremediado := JStr "Si";
     FuncionoAutoRemediacion := JStr "Si" |}.

(** A half-hour problem, remediated with success, with one comment. *)
Definition halfHourRemediated : Problem :=
  {| problemId := "P-1002"; displayId := "P-1002"; title := "Slow response";
     status := "OPEN";
     severityLevel := Some "ERROR"%string;
     startTime := Some "2024-10-01T10:00:00.000Z"%string;
     duration := Num 30;
     affectedEntities := [];
     managementZones := [];
     recentComments :=
       Some {| totalCount := 1;
               comments := [ {| content := Some "checked"%string; context := None |} ] |};
     evidenceDetails := [];
     Autoremediado := JStr "Si";
     FuncionoAutoRemediacion := JStr "Si" |}.


Definition hostA : AffectedEntity :=
  {| entityId := {| id := Some "HOST-A"%string; type := Some "HOST"%string |};
     name := Some "host-a"%string |}.

(** An availability problem on [hostA]: three minutes, remediation
    attempted, three comments of investigation. *)
Definition investigated (pid : string) : Problem :=
  {| problemId := pid; displayId := pid; title := "Host unavailable";
     status := "OPEN";
     severityLevel := Some "AVAILABILITY"%string;
     startTime := Some "2024-10-03T09:00:00.000Z"%string;
     duration := Num 3;
     affectedEntities := [hostA];
     managementZones := [];
     recentComments :=
       Some {| totalCount := 3;
               comments :=
                 [ {| content := Some "looking into it"%string; context := None |};
                   {| content := Some "disk replaced"%string; context := None |};
                   {| content := Some "service restored"%string; context := None |} ] |};
     evidenceDetails := [];
     Autoremediado := JStr "Si";
     FuncionoAutoRemediacion := JUndefined |}.

Definition twoInvestigated : list Problem :=
  [investigated "P-2001"; investigated "P-2002"].

(** The analysis of [hostA] over [twoInvestigated]. *)
Definition analyzeEntityHostA : EntityRecurrenceAnalysis :=
  Service.analyzeEntity (Service.new twoInvestigated)
    {| groupId := Some "HOST-A"%string;
       groupEntityName := Some "host-a"%string;
       groupEntityType := Some "HOST"%string;
       groupTotalProblems := 2;
       groupProblems :=
         [Service.pushed (investigated "P-2001");
          Service.pushed (investigated "P-2002")] |}.

(** A controller whose service has not been created yet. *)
Definition freshController : Controller.FalsePositiveController :=
  {| Controller.service := None |}.

(* ================================================================== *)
(** ** Arithmetic of the primitives *)
(* ================================================================== *)

Lemma Qltb_lt (x y : Q) : Qltb x y = true <-> x < y.
Proof.
  unfold Qltb. rewrite negb_true_iff.
  split; intro H.
  - destruct (Qlt_le_dec x y) as [Hlt | Hle]; [exact Hlt |].
    apply Qle_bool_iff in Hle. congruence.
  - destruct (Qle_bool y x) eqn:E; [| reflexivity].
    apply Qle_bool_iff in E. lra.
Qed.

Lemma Qltb_ge (x y : Q) : Qltb x y = false <-> y <= x.
Proof.
  unfold Qltb. rewrite negb_false_iff. apply Qle_bool_iff.
Qed.

Lemma Qle_bool_lt (x y : Q) : Qle_bool x y = false <-> y < x.
Proof.
  rewrite <- Qltb_lt. unfold Qltb.
  destruct (Qle_bool x y); simpl; split; congruence.
Qed.

Lemma clamp01_bounds (s : Q) : 0 <= clamp01 s /\ clamp01 s <= 1.
Proof.
  unfold clamp01. split.
  - apply Q.min_glb; [lra | apply Q.le_max_l].
  - apply Q.le_min_l.
Qed.

Lemma clamp01_mono (a b : Q) : a <= b -> clamp01 a <= clamp01 b.
Proof.
  intro H. unfold clamp01.
  apply Q.min_le_compat_l. apply Q.max_le_compat_l. exact H.
Qed.

Lemma ofNat_nonneg (n : nat) : 0 <= ofNat n.
Proof.
  unfold ofNat. change 0 with (inject_Z 0). rewrite <- Zle_Qle. lia.
Qed.

(** The confidence formula, whatever the two cutoffs are. *)
Lemma confidence_formula_bounds (s f u : Q) (n : nat) :
  let c := Qmin 1 (Qmin (0.5 + Qmin (Qabs (s - f)) (Qabs (s - u))) 0.8
                   + Qmin (ofNat n * 0.05) 0.2) in
  0.5 <= c /\ c <= 1.
Proof.
  intro c. subst c.
  pose proof (Qabs_nonneg (s - f)) as Hf.
  pose proof (Qabs_nonneg (s - u)) as Hu.
  pose proof (ofNat_nonneg n) as Hn.
  assert (Hd : 0 <= Qmin (Qabs (s - f)) (Qabs (s - u)))
    by (apply Q.min_glb; assumption).
  assert (Hb : 0.5 <= Qmin (0.5 + Qmin (Qabs (s - f)) (Qabs (s - u))) 0.8)
    by (apply Q.min_glb; lra).
  assert (Hr : 0 <= Qmin (ofNat n * 0.05) 0.2)
    by (apply Q.min_glb; nra).
  split.
  - apply Q.min_glb; lra.
  - apply Q.le_min_l.
Qed.

(** Closes a bound on the confidence of a result from the bounds of
    the formula. *)
Ltac confidence_bounds :=
  match goal with
  | |- context [Qmin 1 (Qmin (0.5 + Qmin (Qabs (?s - ?f)) (Qabs (?s - ?u))) 0.8
                        + Qmin (ofNat ?n * 0.05) 0.2)] =>
      let H := fresh "H" in
      pose proof (confidence_formula_bounds s f u n) as H;
      cbv zeta in H; lra
  end.

(* ================================================================== *)
(** ** The scoring engine: range, classification, confidence *)
(* ================================================================== *)

(** The classification rule, on any score. *)
Lemma classify_consistent (th : FPThresholds) (s : Q) (c : FPClassification) :
  uncertainThreshold th <= fpScoreThreshold th ->
  c = (if Qle_bool (fpScoreThreshold th) s then FALSE_POSITIVE
       else if Qle_bool (uncertainThreshold th) s then UNCERTAIN
       else TRUE_POSITIVE) ->
  (c = FALSE_POSITIVE <-> fpScoreThreshold th <= s) /\
  (c = UNCERTAIN <-> uncertainThreshold th <= s /\ s < fpScoreThreshold th) /\
  (c = TRUE_POSITIVE <-> s < uncertainThreshold th).
Proof.
  intros Hord ->.
  destruct (Qle_bool (fpScoreThreshold th) s) eqn:Ef.
  - apply Qle_bool_iff in Ef.
    repeat split; intros; try discriminate; try assumption; lra.
  - apply Qle_bool_lt in Ef.
    destruct (Qle_bool (uncertainThreshold th) s) eqn:Eu.
    + apply Qle_bool_iff in Eu.
      repeat split; intros; try discriminate; try assumption; lra.
    + apply Qle_bool_lt in Eu.
      repeat split; intros; try discriminate; try assumption; lra.
Qed.

(** C3. For every problem and every valid configuration
    ([0 <= uncertainThreshold <= fpScoreThreshold <= 1]) the result of
    the scoring engine, in the utilities and in the service alike, is
    FALSE_POSITIVE exactly when [score >= fpScoreThreshold], UNCERTAIN
    exactly when [uncertainThreshold <= score < fpScoreThreshold], and
    TRUE_POSITIVE exactly when [score < uncertainThreshold]. *)
Theorem classification_consistency
    (p : Problem) (th : FPThresholds) (db : list Problem) :
  validThresholds th ->
  consistentWith th (Utils.calculateFPScore p th) /\
  consistentWith th (Service.calculateFPScore (serviceWith db th) p).
Proof.
  intros (_ & Hord & _).
  split; unfold consistentWith.
  - unfold Utils.calculateFPScore. cbn [score classification].
    apply classify_consistent; [exact Hord | reflexivity].
  - unfold Service.calculateFPScore. cbn [score classification].
    apply classify_consistent; [exact Hord | reflexivity].
Qed.

Lemma classification_consistency_witness :
  validThresholds DEFAULT_FP_THRESHOLDS /\
  consistentWith DEFAULT_FP_THRESHOLDS
    (Utils.calculateFPScore scenarioA DEFAULT_FP_THRESHOLDS) /\
  consistentWith DEFAULT_FP_THRESHOLDS
    (Service.calculateFPScore (serviceWith [] DEFAULT_FP_THRESHOLDS) scenarioA).
Proof.
  assert (H : validThresholds DEFAULT_FP_THRESHOLDS).
  { unfold validThresholds. simpl. lra. }
  split; [exact H |].
  exact (classification_consistency scenarioA DEFAULT_FP_THRESHOLDS [] H).
Defined.

(** C6. For every problem and every configuration, the score and the
    confidence of the result lie in [[0,1]], in the utilities and in the
    service. *)
Theorem score_and_confidence_in_unit_interval
    (p : Problem) (th : FPThresholds) (db : list Problem) :
  (0 <= score (Utils.calculateFPScore p th) <= 1 /\
   0 <= confidence (Utils.calculateFPScore p th) <= 1) /\
  (0 <= score (Service.calculateFPScore (serviceWith db th) p) <= 1 /\
   0 <= confidence (Service.calculateFPScore (serviceWith db th) p) <= 1).
Proof.
  split; split.
  - unfold Utils.calculateFPScore. cbn [score]. apply clamp01_bounds.
  - unfold Utils.calculateFPScore, Utils.calculateConfidence. cbn [confidence].
    confidence_bounds.
  - unfold Service.calculateFPScore. cbn [score]. apply clamp01_bounds.
  - unfold Service.calculateFPScore, Service.calculateConfidence. cbn [confidence].
    confidence_bounds.
Qed.

(** C10. For every problem and every configuration of rational
    cutoffs, the confidence of the result is at least [0.5]: the base
    term [min(0.5 + distance, 0.8)] is never below [0.5] and the boost
    [min(0.05 * reasons, 0.2)] is never negative. *)
Theorem confidence_at_least_half
    (p : Problem) (th : FPThresholds) (db : list Problem) :
  0.5 <= confidence (Utils.calculateFPScore p th) /\
  0.5 <= confidence (Service.calculateFPScore (serviceWith db th) p).
Proof.
  split.
  - unfold Utils.calculateFPScore, Utils.calculateConfidence. cbn [confidence].
    confidence_bounds.
  - unfold Service.calculateFPScore, Service.calculateConfidence. cbn [confidence].
    confidence_bounds.
Qed.



(* ================================================================== *)
(** ** The duration term *)
(* ================================================================== *)

(** The three values of the duration term. *)
Lemma durationStep_values (th : FPThresholds) (d : Q) (acc : Acc) :
  (d < veryShortDurationMinutes th ->
   fst (durationStep th d acc) = fst acc + 0.35) /\
  (veryShortDurationMinutes th <= d -> d < shortDurationMinutes th ->
   fst (durationStep th d acc) = fst acc + 0.20) /\
  (veryShortDurationMinutes th <= d -> shortDurationMinutes th <= d ->
   fst (durationStep th d acc) = fst acc).
Proof.
  unfold durationStep.
  repeat split; intros.
  - apply Qltb_lt in H. rewrite H. reflexivity.
  - apply Qltb_ge in H. apply Qltb_lt in H0. rewrite H, H0. reflexivity.
  - apply Qltb_ge in H. apply Qltb_ge in H0. rewrite H, H0. reflexivity.
Qed.

(** The duration term alone, from an empty account. *)
Lemma durationStep_antitone (th : FPThresholds) (d1 d2 : Q) :
  d1 <= d2 ->
  fst (durationStep th d2 (0, [])) <= fst (durationStep th d1 (0, [])).
Proof.
  intro Hle. unfold durationStep.
  destruct (Qltb d2 (veryShortDurationMinutes th)) eqn:V2;
    destruct (Qltb d1 (veryShortDurationMinutes th)) eqn:V1;
    destruct (Qltb d2 (shortDurationMinutes th)) eqn:S2;
    destruct (Qltb d1 (shortDurationMinutes th)) eqn:S1;
    cbn [addReason fst];
    repeat match goal with
           | H : Qltb _ _ = true |- _ => apply Qltb_lt in H
           | H : Qltb _ _ = false |- _ => apply Qltb_ge in H
           end; lra.
Qed.



Lemma durationStep_additive (th : FPThresholds) (d : Q) :
  additive (durationStep th d).
Proof.
  intro acc. unfold durationStep.
  destruct (Qltb d (veryShortDurationMinutes th));
    [| destruct (Qltb d (shortDurationMinutes th))]; cbn [addReason fst]; lra.
Qed.

Lemma remediationStep_additive (flags : bool * bool) :
  additive (remediationStep flags).
Proof.
  intro acc. destruct flags as [[|] [|]]; cbn [remediationStep addReason fst]; lra.
Qed.

Lemma noCommentsStep_additive (p : Problem) : additive (noCommentsStep p).
Proof.
  intro acc. unfold noCommentsStep.
  destruct (Nat.eqb (commentCountOf p) 0); cbn [addReason fst]; lra.
Qed.

Lemma manualCloseStep_additive (hit : bool) (d : Q) :
  additive (manualCloseStep hit d).
Proof.
  intro acc. destruct hit; cbn [manualCloseStep addReason fst]; lra.
Qed.

Lemma lowSeverityStep_additive (p : Problem) : additive (lowSeverityStep p).
Proof.
  intro acc. unfold lowSeverityStep.
  destruct (isLowSeverity p); cbn [addReason fst]; lra.
Qed.

Lemma manualCloseStep_antitone (hit1 hit2 : bool) (d1 d2 : Q) :
  (hit2 = true -> hit1 = true) ->
  fst (manualCloseStep hit2 d2 (0, [])) <= fst (manualCloseStep hit1 d1 (0, [])).
Proof.
  intro H. destruct hit2.
  - rewrite (H eq_refl). cbn [manualCloseStep addReason fst]. lra.
  - destruct hit1; cbn [manualCloseStep addReason fst]; lra.
Qed.

(** The score before the clamp is the sum of the five weights. *)
Lemma five_steps_sum (s1 s2 s3 s4 s5 : Acc -> Acc) :
  additive s1 -> additive s2 -> additive s3 -> additive s4 -> additive s5 ->
  fst (s5 (s4 (s3 (s2 (s1 (0, []))))))
  == fst (s1 (0, [])) + fst (s2 (0, [])) + fst (s3 (0, []))
     + fst (s4 (0, [])) + fst (s5 (0, [])).
Proof.
  intros A1 A2 A3 A4 A5.
  pose proof (A5 (s4 (s3 (s2 (s1 (0, [])))))) as H5.
  pose proof (A4 (s3 (s2 (s1 (0, []))))) as H4.
  pose proof (A3 (s2 (s1 (0, [])))) as H3.
  pose proof (A2 (s1 (0, []))) as H2.
  lra.
Qed.

Lemma utils_hit_antitone (p : Problem) (d1 d2 : Q) :
  d1 <= d2 ->
  Utils.hasManualCloseKeyword (withDuration p (Num d2)) d2 = true ->
  Utils.hasManualCloseKeyword (withDuration p (Num d1)) d1 = true.
Proof.
  intro Hle. unfold Utils.hasManualCloseKeyword.
  change (commentCountOf (withDuration p (Num d2))) with (commentCountOf p).
  change (commentCountOf (withDuration p (Num d1))) with (commentCountOf p).
  change (commentsOf (withDuration p (Num d2))) with (commentsOf p).
  change (commentsOf (withDuration p (Num d1))) with (commentsOf p).
  rewrite !andb_true_iff. intros ((H10 & Hc) & Hk).
  apply Qltb_lt in H10.
  repeat split; try assumption. apply Qltb_lt. lra.
Qed.

Lemma service_hit_antitone (p : Problem) (d1 d2 : Q) :
  d1 <= d2 ->
  Service.wasQuickManualClose (withDuration p (Num d2)) = true ->
  Service.wasQuickManualClose (withDuration p (Num d1)) = true.
Proof.
  intro Hle. unfold Service.wasQuickManualClose.
  cbn [withDuration duration jsGe].
  change (commentsOf (withDuration p (Num d2))) with (commentsOf p).
  change (commentsOf (withDuration p (Num d1))) with (commentsOf p).
  cbn [evidenceDetails].
  destruct (Qle_bool 10 d2) eqn:E2; [discriminate |].
  apply Qle_bool_lt in E2.
  assert (E1 : Qle_bool 10 d1 = false) by (apply Qle_bool_lt; lra).
  rewrite E1. trivial.
Qed.

(** The whole score does not increase with the duration either: the
    only other term that reads the duration is the quick manual close,
    which a longer duration can only switch off. *)
Lemma score_antitone_in_duration
    (th : FPThresholds) (p : Problem) (db : list Problem) (d1 d2 : Q) :
  d1 <= d2 ->
  score (Utils.calculateFPScore (withDuration p (Num d2)) th)
    <= score (Utils.calculateFPScore (withDuration p (Num d1)) th) /\
  score (Service.calculateFPScore (serviceWith db th) (withDuration p (Num d2)))
    <= score (Service.calculateFPScore (serviceWith db th) (withDuration p (Num d1))).
Proof.
  intro Hle.
  pose proof (durationStep_antitone th d1 d2 Hle) as Hdur.
  pose proof (manualCloseStep_antitone _ _ d1 d2 (utils_hit_antitone p d1 d2 Hle)) as Hu.
  pose proof (manualCloseStep_antitone _ _ d1 d2 (service_hit_antitone p d1 d2 Hle)) as Hs.
  split.
  - unfold Utils.calculateFPScore. cbn [score]. apply clamp01_mono.
    cbn [withDuration duration orZero] in *.
    pose proof (five_steps_sum _ _ _ _ _
      (durationStep_additive th d1)
      (remediationStep_additive (Utils.detectAutoRemediation (withDuration p (Num d1))))
      (noCommentsStep_additive (withDuration p (Num d1)))
      (manualCloseStep_additive
         (Utils.hasManualCloseKeyword (withDuration p (Num d1)) d1) d1)
      (lowSeverityStep_additive (withDuration p (Num d1)))) as E1.
    pose proof (five_steps_sum _ _ _ _ _
      (durationStep_additive th d2)
      (remediationStep_additive (Utils.detectAutoRemediation (withDuration p (Num d2))))
      (noCommentsStep_additive (withDuration p (Num d2)))
      (manualCloseStep_additive
         (Utils.hasManualCloseKeyword (withDuration p (Num d2)) d2) d2)
      (lowSeverityStep_additive (withDuration p (Num d2)))) as E2.
    cbn [withDuration duration orZero] in *.
    rewrite E1, E2.
    change (Utils.detectAutoRemediation (withDuration p (Num d2)))
      with (Utils.detectAutoRemediation (withDuration p (Num d1))).
    change (noCommentsStep (withDuration p (Num d2)) (0, []))
      with (noCommentsStep (withDuration p (Num d1)) (0, [])).
    change (lowSeverityStep (withDuration p (Num d2)) (0, []))
      with (lowSeverityStep (withDuration p (Num d1)) (0, [])).
    lra.
  - unfold Service.calculateFPScore. cbn [score]. apply clamp01_mono.
    cbn [withDuration duration orZero serviceWith Service.thresholds] in *.
    pose proof (five_steps_sum _ _ _ _ _
      (durationStep_additive th d1)
      (remediationStep_additive (Service.detectAutoRemediation (withDuration p (Num d1))))
      (noCommentsStep_additive (withDuration p (Num d1)))
      (manualCloseStep_additive
         (Service.wasQuickManualClose (withDuration p (Num d1))) d1)
      (lowSeverityStep_additive (withDuration p (Num d1)))) as E1.
    pose proof (five_steps_sum _ _ _ _ _
      (durationStep_additive th d2)
      (remediationStep_additive (Service.detectAutoRemediation (withDuration p (Num d2))))
      (noCommentsStep_additive (withDuration p (Num d2)))
      (manualCloseStep_additive
         (Service.wasQuickManualClose (withDuration p (Num d2))) d2)
      (lowSeverityStep_additive (withDuration p (Num d2)))) as E2.
    rewrite E1, E2.
    change (Service.detectAutoRemediation (withDuration p (Num d2)))
      with (Service.detectAutoRemediation (withDuration p (Num d1))).
    change (noCommentsStep (withDuration p (Num d2)) (0, []))
      with (noCommentsStep (withDuration p (Num d1)) (0, [])).
    change (lowSeverityStep (withDuration p (Num d2)) (0, []))
      with (lowSeverityStep (withDuration p (Num d1)) (0, [])).
    lra.
Qed.

(* ================================================================== *)
(** ** Absent, non-numeric and negative durations *)
(* ================================================================== *)












(* ================================================================== *)
(** ** Threshold updates *)
(* ================================================================== *)






(* ================================================================== *)
(** ** The recurrence pipeline *)
(* ================================================================== *)

Lemma optStringEqb_eq (a b : option string) : optStringEqb a b = true <-> a = b.
Proof.
  destruct a as [x |], b as [y |]; cbn [optStringEqb].
  - rewrite String.eqb_eq. split; congruence.
  - split; discriminate.
  - split; discriminate.
  - split; reflexivity.
Qed.

Lemma ofEntity_app (key : option string) (l1 l2 : list (Problem * AffectedEntity)) :
  ofEntity key (l1 ++ l2) = ofEntity key l1 ++ ofEntity key l2.
Proof. unfold ofEntity. apply filter_app. Qed.

Lemma ofEntity_none (key : option string) (docs : list (Problem * AffectedEntity)) :
  (forall doc, In doc docs -> keyOf doc <> key) -> ofEntity key docs = [].
Proof.
  induction docs as [| doc rest IH]; intro H; [reflexivity |].
  unfold ofEntity in *. cbn [filter].
  destruct (optStringEqb (id (entityId (snd doc))) key) eqn:E.
  - apply optStringEqb_eq in E. exfalso. apply (H doc); [left; reflexivity | exact E].
  - apply IH. intros d Hd. apply H. right. exact Hd.
Qed.

(** One more document: where it lands. *)
Lemma groupAdd_spec (doc : Problem * AffectedEntity) (gs : list EntityGroup) :
  NoDup (map groupId gs) ->
  NoDup (map groupId (Service.groupAdd doc gs)) /\
  In (keyOf doc) (map groupId (Service.groupAdd doc gs)) /\
  (forall k, In k (map groupId gs) -> In k (map groupId (Service.groupAdd doc gs))) /\
  (forall g', In g' (Service.groupAdd doc gs) ->
     (groupId g' <> keyOf doc /\ In g' gs) \/
     (groupId g' = keyOf doc /\
      exists g, In g gs /\ groupId g = keyOf doc /\
                groupTotalProblems g' = S (groupTotalProblems g) /\
                groupProblems g' = groupProblems g ++ [Service.pushed (fst doc)]) \/
     (groupId g' = keyOf doc /\ ~ In (keyOf doc) (map groupId gs) /\
      groupTotalProblems g' = 1%nat /\
      groupProblems g' = [Service.pushed (fst doc)])).
Proof.
  induction gs as [| g rest IH]; intro Hnd.
  - cbn [Service.groupAdd map]. repeat split.
    + constructor; [intros [] | constructor].
    + left. reflexivity.
    + intros k [].
    + intros g' [<- | []]. right. right. cbn. repeat split; try reflexivity.
      intros [].
  - cbn [Service.groupAdd].
    inversion Hnd as [| k ks Hnotin Hnd' E0]; subst.
    destruct (optStringEqb (groupId g) (id (entityId (snd doc)))) eqn:E.
    + apply optStringEqb_eq in E. fold (keyOf doc) in E.
      cbn [map groupId]. repeat split.
      * constructor; assumption.
      * left. exact E.
      * intros k Hk. exact Hk.
      * intros g' [<- | Hin].
        -- right. left. cbn [groupId groupTotalProblems groupProblems].
           split; [exact E |].
           exists g. repeat split; try reflexivity; [left; reflexivity | exact E].
        -- left. split; [| right; exact Hin].
           intro Heq. apply Hnotin. rewrite E, <- Heq.
           apply in_map. exact Hin.
    + assert (Hne : groupId g <> keyOf doc).
      { intro Heq. apply optStringEqb_eq in Heq. unfold keyOf in Heq. congruence. }
      destruct (IH Hnd') as (N & K & M & S).
      cbn [map]. repeat split.
      * constructor; [| exact N].
        intro Hin.
        assert (Hrest : forall k, In k (map groupId (Service.groupAdd doc rest)) ->
                                  k = keyOf doc \/ In k (map groupId rest)).
        { intros k Hk. apply in_map_iff in Hk. destruct Hk as (g' & <- & Hg').
          destruct (S g' Hg') as [(_ & H1) | [(H2 & _) | (H3 & _)]].
          - right. apply in_map. exact H1.
          - left. exact H2.
          - left. exact H3. }
        destruct (Hrest _ Hin) as [Heq | Hin']; [exact (Hne Heq) | exact (Hnotin Hin')].
      * right. exact K.
      * intros k [<- | Hk]; [left; reflexivity | right; apply M; exact Hk].
      * intros g' [<- | Hin].
        -- left. split; [exact Hne | left; reflexivity].
        -- destruct (S g' Hin) as [(H1 & H1') | [(H2 & g0 & G1 & G2 & G3 & G4) | (H3 & H3' & H3'')]].
           ++ left. split; [exact H1 | right; exact H1'].
           ++ right. left. split; [exact H2 |].
              exists g0. repeat split; try assumption. right. exact G1.
           ++ right. right. split; [exact H3 |]. split; [| exact H3''].
              intros [Heq | Hin']; [exact (Hne Heq) | exact (H3' Hin')].
Qed.

Lemma groupsOf_add (docs : list (Problem * AffectedEntity))
    (doc : Problem * AffectedEntity) (gs : list EntityGroup) :
  groupsOf docs gs -> groupsOf (docs ++ [doc]) (Service.groupAdd doc gs).
Proof.
  intros (Hnd & Hcov & Hgs).
  destruct (groupAdd_spec doc gs Hnd) as (N & K & M & S).
  assert (Hself : ofEntity (keyOf doc) [doc] = [doc]).
  { unfold ofEntity, keyOf. cbn [filter].
    replace (optStringEqb (id (entityId (snd doc))) (id (entityId (snd doc))))
      with true by (symmetry; apply optStringEqb_eq; reflexivity).
    reflexivity. }
  repeat split.
  - exact N.
  - intros d Hd. apply in_app_or in Hd. destruct Hd as [Hd | [<- | []]].
    + apply M. apply Hcov. exact Hd.
    + exact K.
  - destruct (S g H) as [(H1 & H1') | [(H2 & g0 & G1 & G2 & G3 & G4) | (H3 & H3' & H3'' & _)]].
    + rewrite ofEntity_app. destruct (Hgs g H1') as (T & _). rewrite T.
      replace (ofEntity (groupId g) [doc]) with (@nil (Problem * AffectedEntity)).
      * rewrite app_nil_r. reflexivity.
      * symmetry. apply ofEntity_none. intros d [<- | []]. congruence.
    + rewrite ofEntity_app, H2, Hself, length_app. cbn [List.length].
      destruct (Hgs g0 G1) as (T & _). rewrite G3, T, G2. lia.
    + rewrite ofEntity_app, H3, Hself.
      rewrite (ofEntity_none (keyOf doc) docs).
      * exact H3''.
      * intros d Hd Heq. apply H3'. rewrite <- Heq. apply Hcov. exact Hd.
  - destruct (S g H) as [(H1 & H1') | [(H2 & g0 & G1 & G2 & G3 & G4) | (H3 & H3' & _ & H3'')]].
    + rewrite ofEntity_app. destruct (Hgs g H1') as (_ & P). rewrite P.
      replace (ofEntity (groupId g) [doc]) with (@nil (Problem * AffectedEntity)).
      * rewrite app_nil_r. reflexivity.
      * symmetry. apply ofEntity_none. intros d [<- | []]. congruence.
    + rewrite ofEntity_app, H2, Hself, map_app. cbn [map].
      destruct (Hgs g0 G1) as (_ & P). rewrite G4, P, G2. reflexivity.
    + rewrite ofEntity_app, H3, Hself.
      rewrite (ofEntity_none (keyOf doc) docs).
      * exact H3''.
      * intros d Hd Heq. apply H3'. rewrite <- Heq. apply Hcov. exact Hd.
Qed.

Lemma groupsOf_fold (docs2 docs1 : list (Problem * AffectedEntity))
    (gs : list EntityGroup) :
  groupsOf docs1 gs ->
  groupsOf (docs1 ++ docs2) (fold_left (fun gs doc => Service.groupAdd doc gs) docs2 gs).
Proof.
  revert docs1 gs.
  induction docs2 as [| doc rest IH]; intros docs1 gs H.
  - rewrite app_nil_r. exact H.
  - cbn [fold_left].
    replace (docs1 ++ doc :: rest) with ((docs1 ++ [doc]) ++ rest)
      by (rewrite <- app_assoc; reflexivity).
    apply IH. apply groupsOf_add. exact H.
Qed.

(** [$group] yields one group per entity, counting and collecting the
    documents of that entity. *)
Lemma groupByEntity_spec (docs : list (Problem * AffectedEntity)) :
  groupsOf docs (Service.groupByEntity docs).
Proof.
  unfold Service.groupByEntity.
  apply (groupsOf_fold docs [] []).
  repeat split.
  - constructor.
  - intros doc [].
  - destruct H.
  - destruct H.
Qed.

Lemma insertByTotal_In (g x : EntityGroup) (gs : list EntityGroup) :
  In x (insertByTotal g gs) <-> x = g \/ In x gs.
Proof.
  induction gs as [| h rest IH]; cbn [insertByTotal].
  - cbn. intuition congruence.
  - destruct (Nat.ltb (groupTotalProblems h) (groupTotalProblems g)).
    + cbn. intuition congruence.
    + cbn [In]. rewrite IH. intuition congruence.
Qed.


Lemma sortByTotalDesc_In (x : EntityGroup) (gs : list EntityGroup) :
  In x (sortByTotalDesc gs) <-> In x gs.
Proof.
  unfold sortByTotalDesc.
  induction gs as [| g rest IH]; cbn [fold_right]; [reflexivity |].
  rewrite insertByTotal_In, IH. cbn. intuition congruence.
Qed.


Lemma firstn_In {A : Type} (n : nat) (l : list A) (x : A) :
  In x (firstn n l) -> In x l.
Proof.
  revert l. induction n as [| n IH]; intros [| a l] H; cbn in *; try contradiction.
  destruct H as [-> | H]; [left; reflexivity | right; apply IH; exact H].
Qed.

Lemma firstn_sorted {A : Type} (R : A -> A -> Prop) (n : nat) (l : list A) :
  StronglySorted R l -> StronglySorted R (firstn n l).
Proof.
  revert l. induction n as [| n IH]; intros l Hs; [constructor |].
  destruct l as [| a l]; [constructor |].
  inversion Hs as [| a' l' Hl Hall]; subst. cbn [firstn].
  constructor; [apply IH; exact Hl |].
  rewrite Forall_forall in *. intros x Hx. apply Hall.
  apply (firstn_In n). exact Hx.
Qed.

Lemma map_sorted {A B : Type} (R : A -> A -> Prop) (R' : B -> B -> Prop)
    (f : A -> B) (l : list A) :
  (forall a b, R a b -> R' (f a) (f b)) ->
  StronglySorted R l -> StronglySorted R' (map f l).
Proof.
  intros Hf Hs. induction Hs as [| a l Hl IH Hall]; cbn [map]; constructor.
  - exact IH.
  - rewrite Forall_forall in *. intros y Hy.
    apply in_map_iff in Hy. destruct Hy as (x & <- & Hx).
    apply Hf. apply Hall. exact Hx.
Qed.

(** What every group leaving the pipeline satisfies. *)
Lemma recurrencePipeline_groups
    (db : list Problem) (dateFrom dateTo : option string) (g : EntityGroup) :
  In g (Service.recurrencePipeline db dateFrom dateTo) ->
  (2 <= groupTotalProblems g)%nat /\
  groupTotalProblems g
    = List.length (observedInWindow db dateFrom dateTo (groupId g)) /\
  groupProblems g
    = map (fun doc => Service.pushed (fst doc))
        (observedInWindow db dateFrom dateTo (groupId g)).
Proof.
  unfold Service.recurrencePipeline, observedInWindow. intro H.
  apply firstn_In in H.
  apply (proj1 (sortByTotalDesc_In _ _)) in H.
  apply (proj1 (filter_In _ _ _)) in H. destruct H as (Hin & Hge).
  apply Nat.leb_le in Hge.
  destruct (groupByEntity_spec
              (Service.unwind (filter (Service.matchWindow dateFrom dateTo) db)))
    as (_ & _ & Hgs).
  destruct (Hgs g Hin) as (T & P).
  repeat split; assumption.
Qed.

Lemma filter_map_comm {A B : Type} (f : B -> bool) (g : A -> B) (l : list A) :
  filter f (map g l) = map g (filter (fun x => f (g x)) l).
Proof.
  induction l as [| a l IH]; [reflexivity |].
  cbn [map filter]. destruct (f (g a)); cbn [map]; rewrite IH; reflexivity.
Qed.

Lemma filter_none {A : Type} (f : A -> bool) (l : list A) :
  (forall x, In x l -> f x = false) -> filter f l = [].
Proof.
  induction l as [| a l IH]; intro H; [reflexivity |].
  cbn [filter]. rewrite (H a (or_introl eq_refl)).
  apply IH. intros x Hx. apply H. right. exact Hx.
Qed.





(* ================================================================== *)
(** ** The false-positive rate of an entity *)
(* ================================================================== *)

(** The record scored for a grouped problem: its duration ([|| 0]), its
    status and its [Autoremediado]; the severity is always
    RESOURCE_CONTENTION, there is no comment, no evidence and no
    [FuncionoAutoRemediacion]. *)
Lemma mockProblem_fields (p : Problem) :
  let m := Service.mockProblem (Service.pushed p) in
  duration m = Num (orZero (duration p)) /\
  status m = status p /\
  Autoremediado m = Autoremediado p /\
  FuncionoAutoRemediacion m = JUndefined /\
  severityLevel m = Some "RESOURCE_CONTENTION"%string /\
  recentComments m = Some {| totalCount := 0; comments := [] |} /\
  evidenceDetails m = [].
Proof. cbv zeta. repeat split; reflexivity. Qed.

(** On [hostA], with its two investigated availability problems, the
    reported rate is 1 although neither problem is a FALSE_POSITIVE for
    the scoring engine. *)
Lemma mock_record_overrates :
  let this := Service.new twoInvestigated in
  exists e : EntityRecurrenceAnalysis,
    Service.analyzeEntityRecurrence this None None = [e] /\
    eEntityId e = Some "HOST-A"%string /\
    eTotalProblems e = 2%nat /\
    eFalsePositiveRate e == 1 /\
    map (fun doc => classification (Service.calculateFPScore this (fst doc)))
        (observedInWindow twoInvestigated None None (eEntityId e))
      = [UNCERTAIN; UNCERTAIN] /\
    ~ eFalsePositiveRate e
      == ofNat (List.length
                  (filter (fun doc => isFalsePositive
                                        (Service.calculateFPScore this (fst doc)))
                     (observedInWindow twoInvestigated None None (eEntityId e))))
         / ofNat (eTotalProblems e).
Proof.
  cbv zeta. eexists. split; [vm_compute; reflexivity |].
  cbn [eEntityId eTotalProblems eFalsePositiveRate].
  split; [reflexivity |].
  split; [reflexivity |].
  split; [reflexivity |].
  split; [vm_compute; reflexivity |].
  vm_compute. discriminate.
Qed.

(** C4, as the code has it. For every entity group returned, the
    reported [falsePositiveRate] is the number of the entity's grouped
    problems whose mock record is classified FALSE_POSITIVE by the
    service's scoring function, divided by the entity's total problem
    count.  The mock record carries the grouped problem's duration
    ([|| 0]), status and [Autoremediado]; its severity is
    RESOURCE_CONTENTION and it has no comment, no evidence and no
    [FuncionoAutoRemediacion]. *)
Theorem recurrence_false_positive_rate
    (this : Service.FalsePositiveService) (dateFrom dateTo : option string)
    (e : EntityRecurrenceAnalysis) :
  In e (Service.analyzeEntityRecurrence this dateFrom dateTo) ->
  eFalsePositiveRate e
  = ofNat (List.length
             (filter (fun doc =>
                        isFalsePositive
                          (Service.calculateFPScore this
                             (Service.mockProblem (Service.pushed (fst doc)))))
                (observedInWindow (Service.collection this) dateFrom dateTo
                   (eEntityId e))))
    / ofNat (eTotalProblems e).
Proof.
  unfold Service.analyzeEntityRecurrence. intro He.
  apply in_map_iff in He. destruct He as (g & <- & Hg).
  destruct (recurrencePipeline_groups _ _ _ _ Hg) as (H2 & HT & HP).
  cbn [Service.analyzeEntity eTotalProblems eEntityId eFalsePositiveRate].
  assert (Hpos : Nat.ltb 0 (groupTotalProblems g) = true)
    by (apply Nat.ltb_lt; lia).
  rewrite Hpos. unfold Service.fpCount. rewrite HP.
  rewrite (filter_map_comm
             (fun p => match classification
                               (Service.calculateFPScore this (Service.mockProblem p)) with
                       | FALSE_POSITIVE => true
                       | _ => false
                       end)
             (fun doc => Service.pushed (fst doc))).
  rewrite length_map. reflexivity.
Qed.

Lemma recurrence_false_positive_rate_witness :
  let this := Service.new twoInvestigated in
  let e := analyzeEntityHostA in
  In e (Service.analyzeEntityRecurrence this None None) /\
  eFalsePositiveRate e
  = ofNat (List.length
             (filter (fun doc =>
                        isFalsePositive
                          (Service.calculateFPScore this
                             (Service.mockProblem (Service.pushed (fst doc)))))
                (observedInWindow twoInvestigated None None (eEntityId e))))
    / ofNat (eTotalProblems e).
Proof.
  cbv zeta.
  assert (H : In analyzeEntityHostA
                (Service.analyzeEntityRecurrence (Service.new twoInvestigated) None None))
    by (left; vm_compute; reflexivity).
  split; [exact H |].
  exact (recurrence_false_positive_rate (Service.new twoInvestigated) None None
           analyzeEntityHostA H).
Defined.

(* ================================================================== *)
(** ** The two summary paths *)
(* ================================================================== *)

(** C1. The optimized summary and the per-record summary are compared
    on the collection that holds the one problem [halfHourRemediated]
    (30 minutes, remediated with success, severity ERROR, one comment),
    under the default thresholds.  The scoring engine gives it [0.25], a
    TRUE_POSITIVE; the aggregation gives it [0.10 + 0.25 = 0.35], an
    UNCERTAIN: the classification counts and the average score of the
    two summaries differ.  On [investigated] (remediation attempted
    only) the engine adds [0.15] where the aggregation adds [0.10]. *)
Theorem summary_paths_diverge :
  let this := Service.new [halfHourRemediated] in
  let perRecord := Service.summarize this (Service.collection this) in
  let fast := Service.getSummaryFast this None None None in
  score (Service.calculateFPScore this halfHourRemediated) == 0.25 /\
  Service.fastFpScore halfHourRemediated == 0.35 /\
  (truePositives perRecord = 1%nat /\ uncertain perRecord = 0%nat) /\
  (truePositives fast = 0%nat /\ uncertain fast = 1%nat) /\
  avgFPScore perRecord == 0.25 /\
  avgFPScore fast == 0.35 /\
  ~ avgFPScore perRecord == avgFPScore fast /\
  byClassification perRecord <> byClassification fast /\
  score (Service.calculateFPScore this (investigated "P-2001")) == 0.35 + 0.15 /\
  Service.fastFpScore (investigated "P-2001") == 0.35 + 0.10.
Proof.
  cbv zeta.
  split; [vm_compute; reflexivity |].
  split; [vm_compute; reflexivity |].
  split; [split; vm_compute; reflexivity |].
  split; [split; vm_compute; reflexivity |].
  split; [vm_compute; reflexivity |].
  split; [vm_compute; reflexivity |].
  split; [vm_compute; discriminate |].
  split; [vm_compute; discriminate |].
  split; vm_compute; reflexivity.
Qed.

(** What the two paths do share: the totals and the duration buckets of
    a non-empty collection. *)
Lemma mongoLt_orZero (d : jsnum) (c : Q) :
  0 < c -> mongoLtIfNull0 d c = Qltb (orZero d) c.
Proof.
  intro Hc. destruct d as [| | q]; cbn [mongoLtIfNull0 orZero]; try reflexivity.
  symmetry. apply Qltb_lt. exact Hc.
Qed.

Lemma bucket_of_problem (p : Problem) (k : DurationCounts) :
  Service.bumpDuration (orZero (duration p)) k = plusCounts k (fastBuckets [p]).
Proof.
  unfold Service.bumpDuration, fastBuckets, Service.sumCond, plusCounts.
  destruct k as [a b c d e].
  cbv zeta. cbn [filter lt5min from5to15min from15to60min from1to4h gt4h].
  unfold Service.fastDurationCategory.
  rewrite !mongoLt_orZero by reflexivity.
  destruct (Qltb (orZero (duration p)) 5);
    [| destruct (Qltb (orZero (duration p)) 15);
       [| destruct (Qltb (orZero (duration p)) 60);
          [| destruct (Qltb (orZero (duration p)) 240)]]];
    cbn; f_equal; lia.
Qed.

Lemma fastBuckets_cons (p : Problem) (docs : list Problem) :
  fastBuckets (p :: docs) = plusCounts (fastBuckets [p]) (fastBuckets docs).
Proof.
  unfold fastBuckets, plusCounts, Service.sumCond.
  cbn [filter lt5min from5to15min from15to60min from1to4h gt4h].
  f_equal;
    match goal with
    | |- context [String.eqb ?a ?b] => destruct (String.eqb a b)
    end; reflexivity.
Qed.

Lemma plusCounts_assoc (a b c : DurationCounts) :
  plusCounts (plusCounts a b) c = plusCounts a (plusCounts b c).
Proof.
  unfold plusCounts. cbn [lt5min from5to15min from15to60min from1to4h gt4h].
  f_equal; lia.
Qed.

Lemma summary_buckets_fold (this : Service.FalsePositiveService)
    (docs : list Problem) (acc : Service.SummaryAcc) :
  Service.accByDuration
    (fold_left Service.summaryStep (Service.analyzeProblems this docs) acc)
  = plusCounts (Service.accByDuration acc) (fastBuckets docs).
Proof.
  revert acc. induction docs as [| p rest IH]; intro acc.
  - destruct acc as [k [a b c d e] t n]. unfold plusCounts. cbn. f_equal; lia.
  - cbn [Service.analyzeProblems map fold_left]. fold (Service.analyzeProblems this rest).
    rewrite IH. cbn [Service.analyzeProblem Service.summaryStep Service.accByDuration].
    rewrite bucket_of_problem, plusCounts_assoc, <- fastBuckets_cons. reflexivity.
Qed.

(** X13. On every non-empty collection, whatever the configuration,
    the optimized summary without filters and the per-record summary
    report the same total and the same five duration buckets: an absent
    or [NaN] duration falls in ["<5min"] on both paths. *)
Lemma summary_paths_share_buckets (db : list Problem) (th : FPThresholds) :
  db <> [] ->
  let this := serviceWith db th in
  totalProblems (Service.summarize this db)
    = totalProblems (Service.getSummaryFast this None None None) /\
  byDuration (Service.summarize this db)
    = byDuration (Service.getSummaryFast this None None None).
Proof.
  intro Hne. cbv zeta.
  unfold Service.getSummaryFast, Service.summarize, Service.calculateSummary.
  cbn [serviceWith Service.collection Service.matchStartTime Service.given
       Service.matchZones andb].
  assert (Hall : filter (fun _ : Problem => true) db = db).
  { clear Hne. induction db as [| p rest IH]; [reflexivity |].
    cbn [filter]. rewrite IH. reflexivity. }
  rewrite Hall.
  unfold Service.analyzeProblems at 1 2. rewrite !length_map.
  destruct db as [| p rest]; [contradiction |].
  cbn [List.length Nat.eqb Service.fastData].
  cbn [totalProblems byDuration Service.fastGroup Service.fTotalProblems
       Service.fDurationLt5 Service.fDuration5to15 Service.fDuration15to60
       Service.fDuration1to4h Service.fDurationGt4h List.length].
  split; [reflexivity |].
  rewrite summary_buckets_fold. cbn [Service.summaryAcc0 Service.accByDuration].
  unfold plusCounts, fastBuckets.
  cbn [lt5min from5to15min from15to60min from1to4h gt4h Nat.add]. reflexivity.
Qed.

(** Under the default thresholds the mock record of a grouped problem
    is a FALSE_POSITIVE exactly when the problem lasted less than five
    minutes and its [Autoremediado] is one of the tokens. *)
Lemma isToken_truthy (v : jsval) : isToken v = true -> truthy v = true.
Proof.
  destruct v as [| | [|] | s | z].
  - intro H. vm_compute in H. discriminate H.
  - intro H. vm_compute in H. discriminate H.
  - reflexivity.
  - intro H. vm_compute in H. discriminate H.
  - destruct s as [| c s]; [intro H; vm_compute in H; discriminate H | reflexivity].
  - destruct z; [intro H; vm_compute in H; discriminate H | reflexivity | reflexivity].
Qed.

Lemma mock_false_positive_default (db : list Problem) (p : Problem) :
  isFalsePositive
    (Service.calculateFPScore (Service.new db)
       (Service.mockProblem (Service.pushed p)))
  = Qltb (orZero (duration p)) 5 && isToken (Autoremediado p).
Proof.
  unfold Service.calculateFPScore, Service.detectAutoRemediation,
    Service.wasQuickManualClose, isFalsePositive.
  cbn [Service.mockProblem Service.pushed duration orZero jsGe Autoremediado
       FuncionoAutoRemediacion commentsOf recentComments comments evidenceDetails
       gDuration gAutoremediado gStatus existsb Service.new Service.thresholds
       classification].
  unfold durationStep. cbn [DEFAULT_FP_THRESHOLDS veryShortDurationMinutes shortDurationMinutes].
  destruct (isToken (Autoremediado p)) eqn:T.
  - rewrite (isToken_truthy _ T).
    destruct (Qltb (orZero (duration p)) 5);
      [| destruct (Qltb (orZero (duration p)) 15)];
      destruct (Qle_bool 10 (orZero (duration p))); vm_compute; reflexivity.
  - destruct (truthy (Autoremediado p));
      (destruct (Qltb (orZero (duration p)) 5);
       [| destruct (Qltb (orZero (duration p)) 15)]);
      destruct (Qle_bool 10 (orZero (duration p))); vm_compute; reflexivity.
Qed.

(* ================================================================== *)
(** ** The score and its reasons *)
(* ================================================================== *)

Lemma sumWeights_app (a b : list FPReasonDetail) :
  sumWeights (a ++ b) == sumWeights a + sumWeights b.
Proof.
  induction a as [| r a IH].
  - change (sumWeights ([] ++ b)) with (sumWeights b).
    change (sumWeights []) with 0. lra.
  - change (sumWeights ((r :: a) ++ b)) with (weight r + sumWeights (a ++ b)).
    change (sumWeights (r :: a)) with (weight r + sumWeights a).
    rewrite IH. lra.
Qed.

Lemma durationStep_appending (th : FPThresholds) (d : Q) :
  appending (durationStep th d).
Proof.
  intro acc. unfold durationStep.
  destruct (Qltb d (veryShortDurationMinutes th));
    [| destruct (Qltb d (shortDurationMinutes th))];
    cbn [addReason snd app]; try reflexivity.
  symmetry. apply app_nil_r.
Qed.

Lemma remediationStep_appending (flags : bool * bool) :
  appending (remediationStep flags).
Proof.
  intro acc. destruct flags as [[|] [|]]; cbn [remediationStep addReason snd app];
    try reflexivity; symmetry; apply app_nil_r.
Qed.

Lemma noCommentsStep_appending (p : Problem) : appending (noCommentsStep p).
Proof.
  intro acc. unfold noCommentsStep.
  destruct (Nat.eqb (commentCountOf p) 0); cbn [addReason snd app];
    [reflexivity | symmetry; apply app_nil_r].
Qed.

Lemma manualCloseStep_appending (hit : bool) (d : Q) :
  appending (manualCloseStep hit d).
Proof.
  intro acc. destruct hit; cbn [manualCloseStep addReason snd app];
    [reflexivity | symmetry; apply app_nil_r].
Qed.

Lemma lowSeverityStep_appending (p : Problem) : appending (lowSeverityStep p).
Proof.
  intro acc. unfold lowSeverityStep.
  destruct (isLowSeverity p); cbn [addReason snd app];
    [reflexivity | symmetry; apply app_nil_r].
Qed.

(** The reasons after the five steps are the reasons of each step, in
    order. *)
Lemma five_steps_reasons (s1 s2 s3 s4 s5 : Acc -> Acc) :
  appending s1 -> appending s2 -> appending s3 -> appending s4 -> appending s5 ->
  snd (s5 (s4 (s3 (s2 (s1 (0, []))))))
  = snd (s1 (0, [])) ++ snd (s2 (0, [])) ++ snd (s3 (0, []))
    ++ snd (s4 (0, [])) ++ snd (s5 (0, [])).
Proof.
  intros A1 A2 A3 A4 A5.
  rewrite (A5 (s4 (s3 (s2 (s1 (0, [])))))), (A4 (s3 (s2 (s1 (0, []))))),
    (A3 (s2 (s1 (0, [])))), (A2 (s1 (0, []))).
  rewrite <- !app_assoc. reflexivity.
Qed.

(** What one step contributes, alone: its weight, the sum of the
    weights of its reasons, within its own bound. *)
Lemma durationStep_alone (th : FPThresholds) (d : Q) :
  fst (durationStep th d (0, [])) == sumWeights (snd (durationStep th d (0, []))) /\
  0 <= fst (durationStep th d (0, [])) <= 0.35.
Proof.
  unfold durationStep.
  destruct (Qltb d (veryShortDurationMinutes th));
    [| destruct (Qltb d (shortDurationMinutes th))];
    cbn [addReason fst snd app sumWeights fold_right weight]; lra.
Qed.

Lemma remediationStep_alone (flags : bool * bool) :
  fst (remediationStep flags (0, []))
    == sumWeights (snd (remediationStep flags (0, []))) /\
  0 <= fst (remediationStep flags (0, [])) <= 0.25.
Proof.
  destruct flags as [[|] [|]];
    cbn [remediationStep addReason fst snd app sumWeights fold_right weight]; lra.
Qed.

Lemma noCommentsStep_alone (p : Problem) :
  fst (noCommentsStep p (0, [])) == sumWeights (snd (noCommentsStep p (0, []))) /\
  0 <= fst (noCommentsStep p (0, [])) <= 0.05.
Proof.
  unfold noCommentsStep. destruct (Nat.eqb (commentCountOf p) 0);
    cbn [addReason fst snd app sumWeights fold_right weight]; lra.
Qed.

Lemma manualCloseStep_alone (hit : bool) (d : Q) :
  fst (manualCloseStep hit d (0, []))
    == sumWeights (snd (manualCloseStep hit d (0, []))) /\
  0 <= fst (manualCloseStep hit d (0, [])) <= 0.15.
Proof.
  destruct hit;
    cbn [manualCloseStep addReason fst snd app sumWeights fold_right weight]; lra.
Qed.

Lemma lowSeverityStep_alone (p : Problem) :
  fst (lowSeverityStep p (0, [])) == sumWeights (snd (lowSeverityStep p (0, []))) /\
  0 <= fst (lowSeverityStep p (0, [])) <= 0.10.
Proof.
  unfold lowSeverityStep. destruct (isLowSeverity p);
    cbn [addReason fst snd app sumWeights fold_right weight]; lra.
Qed.

Lemma clamp01_inside (s : Q) : 0 <= s -> s <= 1 -> clamp01 s == s.
Proof.
  intros H0 H1. unfold clamp01.
  rewrite (Q.max_r 0 s) by exact H0. apply Q.min_r. exact H1.
Qed.

(** The account after the five steps of either scoring function. *)
Lemma five_steps_account (th : FPThresholds) (d : Q) (flags : bool * bool)
    (p : Problem) (hit : bool) :
  let acc := lowSeverityStep p
               (manualCloseStep hit d
                  (noCommentsStep p
                     (remediationStep flags (durationStep th d (0, []))))) in
  fst acc == sumWeights (snd acc) /\ 0 <= fst acc <= 0.90 /\
  clamp01 (fst acc) == fst acc.
Proof.
  cbv zeta.
  pose proof (five_steps_sum _ _ _ _ _
    (durationStep_additive th d) (remediationStep_additive flags)
    (noCommentsStep_additive p) (manualCloseStep_additive hit d)
    (lowSeverityStep_additive p)) as Hsum.
  pose proof (five_steps_reasons _ _ _ _ _
    (durationStep_appending th d) (remediationStep_appending flags)
    (noCommentsStep_appending p) (manualCloseStep_appending hit d)
    (lowSeverityStep_appending p)) as Hrs.
  destruct (durationStep_alone th d) as (D1 & D2).
  destruct (remediationStep_alone flags) as (R1 & R2).
  destruct (noCommentsStep_alone p) as (N1 & N2).
  destruct (manualCloseStep_alone hit d) as (M1 & M2).
  destruct (lowSeverityStep_alone p) as (L1 & L2).
  assert (Hb : 0 <= fst (lowSeverityStep p
               (manualCloseStep hit d
                  (noCommentsStep p
                     (remediationStep flags (durationStep th d (0, []))))))
               <= 0.90) by lra.
  split; [| split; [exact Hb |]].
  - rewrite Hrs, !sumWeights_app. lra.
  - apply clamp01_inside; lra.
Qed.

(** X1. In the utilities and in the service, the score of a result is
    the sum of the weights of its reasons: the clamp to [[0,1]] never
    changes the sum. *)
Theorem score_is_sum_of_weights
    (p : Problem) (th : FPThresholds) (db : list Problem) :
  score (Utils.calculateFPScore p th)
    == sumWeights (reasons (Utils.calculateFPScore p th)) /\
  score (Service.calculateFPScore (serviceWith db th) p)
    == sumWeights (reasons (Service.calculateFPScore (serviceWith db th) p)).
Proof.
  split.
  - unfold Utils.calculateFPScore. cbn [score reasons].
    destruct (five_steps_account th (orZero (duration p))
                (Utils.detectAutoRemediation p) p
                (Utils.hasManualCloseKeyword p (orZero (duration p))))
      as (Hs & _ & Hc).
    rewrite Hc. exact Hs.
  - unfold Service.calculateFPScore. cbn [score reasons serviceWith Service.thresholds].
    destruct (five_steps_account th (orZero (duration p))
                (Service.detectAutoRemediation p) p
                (Service.wasQuickManualClose p))
      as (Hs & _ & Hc).
    rewrite Hc. exact Hs.
Qed.

(** In the utilities a quick manual close needs a positive comment
    count, which excludes the no-comment term. *)
Lemma utils_comment_terms (p : Problem) (d : Q) :
  fst (noCommentsStep p (0, []))
  + fst (manualCloseStep (Utils.hasManualCloseKeyword p d) d (0, [])) <= 0.15 /\
  (List.length (snd (noCommentsStep p (0%Q, [])))
   + List.length (snd (manualCloseStep (Utils.hasManualCloseKeyword p d) d (0%Q, [])))
   <= 1)%nat.
Proof.
  unfold noCommentsStep, Utils.hasManualCloseKeyword.
  destruct (commentCountOf p) as [| n]; cbn [Nat.eqb Nat.ltb Nat.leb andb].
  - rewrite andb_false_r. cbn [andb manualCloseStep addReason fst snd app List.length].
    split; [lra | lia].
  - destruct (Qltb d 10 && true && _);
      cbn [manualCloseStep addReason fst snd app List.length]; split; try lra; lia.
Qed.

Lemma step_lengths (th : FPThresholds) (d : Q) (flags : bool * bool)
    (p : Problem) (hit : bool) :
  (List.length (snd (durationStep th d (0%Q, []))) <= 1)%nat /\
  (List.length (snd (remediationStep flags (0%Q, []))) <= 1)%nat /\
  (List.length (snd (noCommentsStep p (0%Q, []))) <= 1)%nat /\
  (List.length (snd (manualCloseStep hit d (0%Q, []))) <= 1)%nat /\
  (List.length (snd (lowSeverityStep p (0%Q, []))) <= 1)%nat.
Proof.
  unfold durationStep, noCommentsStep, lowSeverityStep.
  destruct (Qltb d (veryShortDurationMinutes th)), (Qltb d (shortDurationMinutes th)),
    flags as [[|] [|]], (Nat.eqb (commentCountOf p) 0), hit, (isLowSeverity p);
    cbn [remediationStep manualCloseStep addReason snd app List.length];
    repeat split; lia.
Qed.

(** X2. The score never reaches the upper clamp. In the utilities it is
    at most [0.85], with at most four reasons, because the no-comment
    term and the quick manual close exclude each other; in the service,
    whose manual-close check does not read the comment count, it is at
    most [0.90], with at most five reasons. Both bounds are reached. *)
Theorem score_upper_bounds
    (p : Problem) (th : FPThresholds) (db : list Problem) :
  (score (Utils.calculateFPScore p th) <= 0.85 /\
   (List.length (reasons (Utils.calculateFPScore p th)) <= 4)%nat) /\
  (score (Service.calculateFPScore (serviceWith db th) p) <= 0.90 /\
   (List.length (reasons (Service.calculateFPScore (serviceWith db th) p)) <= 5)%nat) /\
  score (Utils.calculateFPScore closedByHand DEFAULT_FP_THRESHOLDS) == 0.85 /\
  score (Service.calculateFPScore (Service.new []) closedByHandUncounted) == 0.90.
Proof.
  split; [| split; [| split; vm_compute; reflexivity]].
  - unfold Utils.calculateFPScore. cbn [score reasons].
    set (d := orZero (duration p)).
    set (hit := Utils.hasManualCloseKeyword p d).
    set (fl := Utils.detectAutoRemediation p).
    destruct (five_steps_account th d fl p hit) as (_ & _ & Hc).
    pose proof (five_steps_sum _ _ _ _ _
      (durationStep_additive th d) (remediationStep_additive fl)
      (noCommentsStep_additive p) (manualCloseStep_additive hit d)
      (lowSeverityStep_additive p)) as Hsum.
    pose proof (five_steps_reasons _ _ _ _ _
      (durationStep_appending th d) (remediationStep_appending fl)
      (noCommentsStep_appending p) (manualCloseStep_appending hit d)
      (lowSeverityStep_appending p)) as Hrs.
    destruct (durationStep_alone th d) as (_ & D2).
    destruct (remediationStep_alone fl) as (_ & R2).
    destruct (lowSeverityStep_alone p) as (_ & L2).
    destruct (utils_comment_terms p d) as (C1 & C2). fold hit in C1, C2.
    destruct (step_lengths th d fl p hit) as (Ld & Lr & _ & _ & Ll).
    split.
    + rewrite Hc. lra.
    + rewrite Hrs, !length_app. lia.
  - unfold Service.calculateFPScore. cbn [score reasons serviceWith Service.thresholds].
    set (d := orZero (duration p)).
    set (hit := Service.wasQuickManualClose p).
    set (fl := Service.detectAutoRemediation p).
    destruct (five_steps_account th d fl p hit) as (_ & Hb & Hc).
    pose proof (five_steps_reasons _ _ _ _ _
      (durationStep_appending th d) (remediationStep_appending fl)
      (noCommentsStep_appending p) (manualCloseStep_appending hit d)
      (lowSeverityStep_appending p)) as Hrs.
    destruct (step_lengths th d fl p hit) as (Ld & Lr & Ln & Lm & Ll).
    split.
    + rewrite Hc. lra.
    + rewrite Hrs, !length_app. lia.
Qed.

(** The codes one step can append. *)
Lemma step_codes (th : FPThresholds) (d : Q) (flags : bool * bool)
    (p : Problem) (hit : bool) :
  (map reason (snd (durationStep th d (0, []))) = [VERY_SHORT_DURATION] \/
   map reason (snd (durationStep th d (0, []))) = [SHORT_DURATION] \/
   map reason (snd (durationStep th d (0, []))) = []) /\
  (map reason (snd (remediationStep flags (0, []))) = [AUTO_REMEDIATION_SUCCESS] \/
   map reason (snd (remediationStep flags (0, []))) = [AUTO_REMEDIATED] \/
   map reason (snd (remediationStep flags (0, []))) = []) /\
  (map reason (snd (noCommentsStep p (0, []))) = [NO_COMMENTS] \/
   map reason (snd (noCommentsStep p (0, []))) = []) /\
  (map reason (snd (manualCloseStep hit d (0, []))) = [QUICK_MANUAL_CLOSE] \/
   map reason (snd (manualCloseStep hit d (0, []))) = []) /\
  (map reason (snd (lowSeverityStep p (0, []))) = [LOW_SEVERITY] \/
   map reason (snd (lowSeverityStep p (0, []))) = []).
Proof.
  unfold durationStep, noCommentsStep, lowSeverityStep.
  repeat split.
  - destruct (Qltb d (veryShortDurationMinutes th));
      [| destruct (Qltb d (shortDurationMinutes th))]; cbn; auto.
  - destruct flags as [[|] [|]]; cbn; auto.
  - destruct (Nat.eqb (commentCountOf p) 0); cbn; auto.
  - destruct hit; cbn; auto.
  - destruct (isLowSeverity p); cbn; auto.
Qed.

Lemma five_steps_codes (th : FPThresholds) (d : Q) (flags : bool * bool)
    (p : Problem) (hit : bool) :
  wellFormedCodes
    (map reason
       (snd (lowSeverityStep p
               (manualCloseStep hit d
                  (noCommentsStep p
                     (remediationStep flags (durationStep th d (0, [])))))))).
Proof.
  rewrite (five_steps_reasons _ _ _ _ _
    (durationStep_appending th d) (remediationStep_appending flags)
    (noCommentsStep_appending p) (manualCloseStep_appending hit d)
    (lowSeverityStep_appending p)).
  rewrite !map_app.
  destruct (step_codes th d flags p hit) as (D & R & N & M & L).
  destruct D as [-> | [-> | ->]], R as [-> | [-> | ->]], N as [-> | ->],
    M as [-> | ->], L as [-> | ->];
    cbn [app]; unfold wellFormedCodes; cbn [List.length In];
    (split; [repeat constructor; cbn [In]; intuition discriminate |]);
    (split; [lia |]); intuition discriminate.
Qed.

(** X3. The reasons of a result are well formed, in the utilities and in
    the service: no code appears twice, there are at most five, the two
    duration codes exclude each other and so do the two remediation
    codes, the codes RESOURCE_CONTENTION, RECURRING_PATTERN and
    SPIKE_PATTERN are never produced, and every reason carries the label
    of its code. *)
Theorem reasons_well_formed
    (p : Problem) (th : FPThresholds) (db : list Problem) :
  (wellFormedCodes (reasonCodes (Utils.calculateFPScore p th)) /\
   Forall (fun r => label r = FP_REASON_LABELS (reason r))
          (reasons (Utils.calculateFPScore p th))) /\
  (wellFormedCodes (reasonCodes (Service.calculateFPScore (serviceWith db th) p)) /\
   Forall (fun r => label r = FP_REASON_LABELS (reason r))
          (reasons (Service.calculateFPScore (serviceWith db th) p))).
Proof.
  assert (Hlab : forall (d : Q) (flags : bool * bool) (hit : bool),
            Forall (fun r => label r = FP_REASON_LABELS (reason r))
              (snd (lowSeverityStep p
                      (manualCloseStep hit d
                         (noCommentsStep p
                            (remediationStep flags (durationStep th d (0, [])))))))).
  { intros d flags hit.
    rewrite (five_steps_reasons _ _ _ _ _
      (durationStep_appending th d) (remediationStep_appending flags)
      (noCommentsStep_appending p) (manualCloseStep_appending hit d)
      (lowSeverityStep_appending p)).
    unfold durationStep, noCommentsStep, lowSeverityStep.
    repeat (apply Forall_app; split).
    - destruct (Qltb d (veryShortDurationMinutes th));
        [| destruct (Qltb d (shortDurationMinutes th))];
        cbn [addReason snd app]; repeat constructor.
    - destruct flags as [[|] [|]]; cbn [remediationStep addReason snd app];
        repeat constructor.
    - destruct (Nat.eqb (commentCountOf p) 0); cbn [addReason snd app];
        repeat constructor.
    - destruct hit; cbn [manualCloseStep addReason snd app]; repeat constructor.
    - destruct (isLowSeverity p); cbn [addReason snd app]; repeat constructor. }
  split; split.
  - unfold reasonCodes, Utils.calculateFPScore. cbn [reasons]. apply five_steps_codes.
  - unfold Utils.calculateFPScore. cbn [reasons]. apply Hlab.
  - unfold reasonCodes, Service.calculateFPScore.
    cbn [reasons serviceWith Service.thresholds]. apply five_steps_codes.
  - unfold Service.calculateFPScore.
    cbn [reasons serviceWith Service.thresholds]. apply Hlab.
Qed.

(* ================================================================== *)
(** ** Classification: order, duration, fast paths *)
(* ================================================================== *)

(** The classification rule is monotone in the score, whatever the two
    cutoffs are. *)
Lemma classify_rank_mono (th : FPThresholds) (s1 s2 : Q) :
  s1 <= s2 ->
  (classificationRank (Utils.classifyByScore s1 th)
   <= classificationRank (Utils.classifyByScore s2 th))%nat.
Proof.
  intro Hle. unfold Utils.classifyByScore.
  destruct (Qle_bool (fpScoreThreshold th) s1) eqn:F1;
    destruct (Qle_bool (fpScoreThreshold th) s2) eqn:F2;
    destruct (Qle_bool (uncertainThreshold th) s1) eqn:U1;
    destruct (Qle_bool (uncertainThreshold th) s2) eqn:U2;
    cbn [classificationRank]; try lia;
    repeat match goal with
           | H : Qle_bool _ _ = true |- _ => apply Qle_bool_iff in H
           | H : Qle_bool _ _ = false |- _ => apply Qle_bool_lt in H
           end; lra.
Qed.

(** X4. [classifyByScore] is monotone in the score for every pair of
    cutoffs, ordered or not: a higher score is never classified lower
    (TRUE_POSITIVE below UNCERTAIN below FALSE_POSITIVE). *)
Theorem classifyByScore_monotone (th : FPThresholds) (s1 s2 : Q) :
  s1 <= s2 ->
  (classificationRank (Utils.classifyByScore s1 th)
   <= classificationRank (Utils.classifyByScore s2 th))%nat.
Proof. apply classify_rank_mono. Qed.

Lemma classifyByScore_monotone_witness :
  0.25 <= 0.75 /\
  (classificationRank (Utils.classifyByScore 0.25 DEFAULT_FP_THRESHOLDS)
   <= classificationRank (Utils.classifyByScore 0.75 DEFAULT_FP_THRESHOLDS))%nat.
Proof.
  assert (H : 0.25 <= 0.75) by lra.
  split; [exact H |].
  exact (classifyByScore_monotone DEFAULT_FP_THRESHOLDS 0.25 0.75 H).
Defined.

(** X5. Raising only the duration of a problem never raises its score
    and never moves its classification towards FALSE_POSITIVE, in the
    utilities and in the service, for every configuration. *)
Theorem longer_duration_never_more_false_positive
    (th : FPThresholds) (p : Problem) (db : list Problem) (d1 d2 : Q) :
  d1 <= d2 ->
  (score (Utils.calculateFPScore (withDuration p (Num d2)) th)
     <= score (Utils.calculateFPScore (withDuration p (Num d1)) th) /\
   (classificationRank
      (classification (Utils.calculateFPScore (withDuration p (Num d2)) th))
    <= classificationRank
         (classification (Utils.calculateFPScore (withDuration p (Num d1)) th)))%nat) /\
  (score (Service.calculateFPScore (serviceWith db th) (withDuration p (Num d2)))
     <= score (Service.calculateFPScore (serviceWith db th) (withDuration p (Num d1))) /\
   (classificationRank
      (classification
         (Service.calculateFPScore (serviceWith db th) (withDuration p (Num d2))))
    <= classificationRank
         (classification
            (Service.calculateFPScore (serviceWith db th) (withDuration p (Num d1)))))%nat).
Proof.
  intro Hle.
  destruct (score_antitone_in_duration th p db d1 d2 Hle) as (Hu & Hs).
  split; split; try assumption.
  - apply (classify_rank_mono th _ _ Hu).
  - apply (classify_rank_mono th _ _ Hs).
Qed.

Lemma longer_duration_never_more_false_positive_witness :
  3 <= 30 /\
  score (Utils.calculateFPScore (withDuration scenarioA (Num 30)) DEFAULT_FP_THRESHOLDS)
    <= score (Utils.calculateFPScore (withDuration scenarioA (Num 3)) DEFAULT_FP_THRESHOLDS).
Proof.
  assert (H : 3 <= 30) by lra.
  split; [exact H |].
  exact (proj1 (proj1 (longer_duration_never_more_false_positive
                         DEFAULT_FP_THRESHOLDS scenarioA [] 3 30 H))).
Defined.

Lemma not_truthy_not_token (v : jsval) : truthy v = false -> isToken v = false.
Proof.
  intro H. destruct (isToken v) eqn:T; [| reflexivity].
  apply isToken_truthy in T. congruence.
Qed.

(** X6. On a problem without comments and without evidence details the
    scoring function of the utilities and the one of the service return
    the same result (score, classification, reasons, confidence), for
    every configuration. *)
Theorem engines_agree_without_comments
    (p : Problem) (th : FPThresholds) (db : list Problem) :
  commentsOf p = [] -> evidenceDetails p = [] ->
  Utils.calculateFPScore p th = Service.calculateFPScore (serviceWith db th) p.
Proof.
  intros Hc He.
  assert (Hhit : Utils.hasManualCloseKeyword p (orZero (duration p))
                 = Service.wasQuickManualClose p).
  { unfold Utils.hasManualCloseKeyword, Service.wasQuickManualClose.
    rewrite Hc, He. cbn [existsb]. rewrite andb_false_r.
    destruct (jsGe (duration p) 10); reflexivity. }
  assert (Hrem : forall acc,
            remediationStep (Utils.detectAutoRemediation p) acc
            = remediationStep (Service.detectAutoRemediation p) acc).
  { intro acc. unfold Utils.detectAutoRemediation, Service.detectAutoRemediation.
    rewrite Hc. cbn [scanComments].
    destruct (truthy (Autoremediado p)) eqn:T.
    - destruct (Autoremediado p); try discriminate T; reflexivity.
    - pose proof (not_truthy_not_token _ T) as N.
      destruct (Autoremediado p); cbn [closedMeansSuccess andb remediationStep];
        try reflexivity; rewrite N; reflexivity. }
  unfold Utils.calculateFPScore, Service.calculateFPScore, Utils.classifyByScore,
    Utils.calculateConfidence, Service.calculateConfidence.
  cbn [serviceWith Service.thresholds].
  rewrite Hhit, Hrem. reflexivity.
Qed.

Lemma engines_agree_without_comments_witness :
  commentsOf scenarioA = [] /\ evidenceDetails scenarioA = [] /\
  Utils.calculateFPScore scenarioA DEFAULT_FP_THRESHOLDS
  = Service.calculateFPScore (serviceWith [] DEFAULT_FP_THRESHOLDS) scenarioA.
Proof.
  split; [reflexivity |]. split; [reflexivity |].
  exact (engines_agree_without_comments scenarioA DEFAULT_FP_THRESHOLDS []
           eq_refl eq_refl).
Defined.

Lemma closedMeansSuccess_closed (p : Problem) (flags : bool * bool) :
  status p = "CLOSED"%string ->
  fst (closedMeansSuccess p flags) = true ->
  snd (closedMeansSuccess p flags) = true.
Proof.
  intros Hs. unfold closedMeansSuccess. destruct flags as [a b]. rewrite Hs.
  change (String.eqb "CLOSED" "CLOSED") with true.
  destruct a, b; cbn; congruence.
Qed.

(** A remediation step whose flags say "success whenever attempted"
    never appends AUTO_REMEDIATED. *)
Lemma no_attempt_only (th : FPThresholds) (d : Q) (flags : bool * bool)
    (p : Problem) (hit : bool) :
  (fst flags = true -> snd flags = true) ->
  ~ In AUTO_REMEDIATED
      (map reason
         (snd (lowSeverityStep p
                 (manualCloseStep hit d
                    (noCommentsStep p
                       (remediationStep flags (durationStep th d (0, [])))))))).
Proof.
  intro Hfl.
  rewrite (five_steps_reasons _ _ _ _ _
    (durationStep_appending th d) (remediationStep_appending flags)
    (noCommentsStep_appending p) (manualCloseStep_appending hit d)
    (lowSeverityStep_appending p)).
  rewrite !map_app.
  destruct (step_codes th d flags p hit) as (D & R & N & M & L).
  assert (R' : map reason (snd (remediationStep flags (0, []))) = [AUTO_REMEDIATION_SUCCESS] \/
               map reason (snd (remediationStep flags (0, []))) = []).
  { destruct flags as [[|] [|]]; cbn; auto.
    cbn [fst snd] in Hfl. discriminate (Hfl eq_refl). }
  clear R.
  destruct D as [-> | [-> | ->]], R' as [-> | ->], N as [-> | ->],
    M as [-> | ->], L as [-> | ->];
    cbn [app In]; intuition discriminate.
Qed.

(** X7. Closed means success: for a CLOSED problem whose remediation
    is read from the comments (no [Autoremediado] field for the
    utilities, a falsy one for the service), the reason
    AUTO_REMEDIATED, an attempt without success, is never reported. *)
Theorem closed_problem_never_attempt_only
    (p : Problem) (th : FPThresholds) (db : list Problem) :
  status p = "CLOSED"%string ->
  (Autoremediado p = JUndefined ->
   ~ In AUTO_REMEDIATED (reasonCodes (Utils.calculateFPScore p th))) /\
  (truthy (Autoremediado p) = false ->
   ~ In AUTO_REMEDIATED
       (reasonCodes (Service.calculateFPScore (serviceWith db th) p))).
Proof.
  intro Hs. split; intro Ha.
  - unfold reasonCodes, Utils.calculateFPScore. cbn [reasons].
    apply no_attempt_only.
    unfold Utils.detectAutoRemediation. rewrite Ha.
    apply closedMeansSuccess_closed. exact Hs.
  - unfold reasonCodes, Service.calculateFPScore.
    cbn [reasons serviceWith Service.thresholds].
    apply no_attempt_only.
    unfold Service.detectAutoRemediation. rewrite Ha.
    apply closedMeansSuccess_closed. exact Hs.
Qed.

Lemma closed_problem_never_attempt_only_witness :
  status closedWithBotComment = "CLOSED"%string /\
  Autoremediado closedWithBotComment = JUndefined /\
  reasonCodes (Utils.calculateFPScore closedWithBotComment DEFAULT_FP_THRESHOLDS)
    = [AUTO_REMEDIATION_SUCCESS] /\
  ~ In AUTO_REMEDIATED
      (reasonCodes (Utils.calculateFPScore closedWithBotComment DEFAULT_FP_THRESHOLDS)).
Proof.
  split; [reflexivity |]. split; [reflexivity |].
  split; [vm_compute; reflexivity |].
  exact (proj1 (closed_problem_never_attempt_only closedWithBotComment
                  DEFAULT_FP_THRESHOLDS [] eq_refl) eq_refl).
Defined.

(** X8. [quickClassify] and the full analysis under the default
    thresholds differ by at most one step: whenever the fast answer is
    not the classification of [calculateFPScore], that classification is
    UNCERTAIN. The full analysis never calls TRUE_POSITIVE what the fast
    path calls FALSE_POSITIVE, nor the converse; both differences
    occur. *)
Theorem quickClassify_within_one_step (p : Problem) :
  (Utils.quickClassify p
     = classification (Utils.calculateFPScore p DEFAULT_FP_THRESHOLDS) \/
   classification (Utils.calculateFPScore p DEFAULT_FP_THRESHOLDS) = UNCERTAIN) /\
  (Utils.quickClassify (investigated "P-2001") = FALSE_POSITIVE /\
   classification (Utils.calculateFPScore (investigated "P-2001") DEFAULT_FP_THRESHOLDS)
     = UNCERTAIN) /\
  (Utils.quickClassify longRemediated = TRUE_POSITIVE /\
   classification (Utils.calculateFPScore longRemediated DEFAULT_FP_THRESHOLDS)
     = UNCERTAIN).
Proof.
  split; [| split; split; vm_compute; reflexivity].
  unfold Utils.quickClassify.
  set (d := orZero (duration p)).
  destruct (Qltb d 5 && isToken (orEmptyVal (Autoremediado p))) eqn:Fast.
  - (* the fast FALSE_POSITIVE: the full score is at least 0.35 + 0.15 *)
    apply andb_true_iff in Fast. destruct Fast as (Hd & Ht).
    assert (Htok : isToken (Autoremediado p) = true /\ Autoremediado p <> JUndefined).
    { unfold orEmptyVal in Ht. destruct (truthy (Autoremediado p)) eqn:T.
      - split; [exact Ht |]. intro E. rewrite E in T. discriminate T.
      - vm_compute in Ht. discriminate Ht. }
    destruct Htok as (Htok & Hdef).
    unfold Utils.calculateFPScore, Utils.classifyByScore. cbn [classification].
    fold d.
    set (hit := Utils.hasManualCloseKeyword p d).
    set (fl := Utils.detectAutoRemediation p).
    destruct (five_steps_account DEFAULT_FP_THRESHOLDS d fl p hit) as (_ & _ & Hc).
    pose proof (five_steps_sum _ _ _ _ _
      (durationStep_additive DEFAULT_FP_THRESHOLDS d) (remediationStep_additive fl)
      (noCommentsStep_additive p) (manualCloseStep_additive hit d)
      (lowSeverityStep_additive p)) as Hsum.
    destruct (noCommentsStep_alone p) as (_ & N2).
    destruct (manualCloseStep_alone hit d) as (_ & M2).
    destruct (lowSeverityStep_alone p) as (_ & L2).
    assert (Hdur : fst (durationStep DEFAULT_FP_THRESHOLDS d (0, [])) == 0.35).
    { unfold durationStep. cbn [DEFAULT_FP_THRESHOLDS veryShortDurationMinutes].
      rewrite Hd. cbn [addReason fst]. lra. }
    assert (Hrem : 0.15 <= fst (remediationStep fl (0, []))).
    { subst fl. unfold Utils.detectAutoRemediation.
      destruct (Autoremediado p) eqn:E; try congruence; rewrite Htok;
        destruct (isToken (orEmptyVal (FuncionoAutoRemediacion p)));
        cbn [remediationStep addReason fst]; lra. }
    set (s := clamp01 _) in *.
    assert (Hs : 0.5 <= s) by (subst s; lra).
    destruct (Qle_bool (fpScoreThreshold DEFAULT_FP_THRESHOLDS) s); [left; reflexivity |].
    right.
    assert (Hu : Qle_bool (uncertainThreshold DEFAULT_FP_THRESHOLDS) s = true).
    { apply Qle_bool_iff. cbn [DEFAULT_FP_THRESHOLDS uncertainThreshold]. lra. }
    rewrite Hu. reflexivity.
  - destruct (Qltb 60 d && Nat.ltb 0 (commentCountOf p)) eqn:Slow; [| left; reflexivity].
    (* the fast TRUE_POSITIVE: the full score is at most 0.25 + 0.10 *)
    apply andb_true_iff in Slow. destruct Slow as (Hd & Hn).
    apply Qltb_lt in Hd. apply Nat.ltb_lt in Hn.
    unfold Utils.calculateFPScore, Utils.classifyByScore. cbn [classification].
    fold d.
    set (hit := Utils.hasManualCloseKeyword p d).
    set (fl := Utils.detectAutoRemediation p).
    destruct (five_steps_account DEFAULT_FP_THRESHOLDS d fl p hit) as (_ & _ & Hc).
    pose proof (five_steps_sum _ _ _ _ _
      (durationStep_additive DEFAULT_FP_THRESHOLDS d) (remediationStep_additive fl)
      (noCommentsStep_additive p) (manualCloseStep_additive hit d)
      (lowSeverityStep_additive p)) as Hsum.
    destruct (remediationStep_alone fl) as (_ & R2).
    destruct (lowSeverityStep_alone p) as (_ & L2).
    assert (Hdur : fst (durationStep DEFAULT_FP_THRESHOLDS d (0, [])) == 0).
    { destruct (durationStep_values DEFAULT_FP_THRESHOLDS d (0, [])) as (_ & _ & H3).
      rewrite H3; cbn [DEFAULT_FP_THRESHOLDS veryShortDurationMinutes
                       shortDurationMinutes fst]; lra. }
    assert (Hnc : fst (noCommentsStep p (0, [])) == 0).
    { unfold noCommentsStep. destruct (commentCountOf p); [lia |].
      cbn [Nat.eqb fst]. lra. }
    assert (Hmc : fst (manualCloseStep hit d (0, [])) == 0).
    { subst hit. unfold Utils.hasManualCloseKeyword.
      assert (E : Qltb d 10 = false) by (apply Qltb_ge; lra).
      rewrite E. cbn [andb manualCloseStep fst]. lra. }
    set (s := clamp01 _) in *.
    assert (Hs : s <= 0.35) by (subst s; lra).
    assert (Hf : Qle_bool (fpScoreThreshold DEFAULT_FP_THRESHOLDS) s = false).
    { apply Qle_bool_lt. cbn [DEFAULT_FP_THRESHOLDS fpScoreThreshold]. lra. }
    rewrite Hf.
    destruct (Qle_bool (uncertainThreshold DEFAULT_FP_THRESHOLDS) s);
      [right | left]; reflexivity.
Qed.

(* ================================================================== *)
(** ** Counts and rates *)
(* ================================================================== *)

Lemma ofNat_le (a b : nat) : (a <= b)%nat -> ofNat a <= ofNat b.
Proof. intro H. unfold ofNat. rewrite <- Zle_Qle. lia. Qed.

Lemma ofNat_pos (b : nat) : (0 < b)%nat -> 0 < ofNat b.
Proof.
  intro H. unfold ofNat. change 0 with (inject_Z 0). rewrite <- Zlt_Qlt. lia.
Qed.

(** A quotient of a number by a positive count that bounds it. *)
Lemma ratio_in_unit (x : Q) (b : nat) :
  (0 < b)%nat -> 0 <= x -> x <= ofNat b -> 0 <= x / ofNat b <= 1.
Proof.
  intros Hb H0 H1. pose proof (ofNat_pos b Hb) as Hp. split.
  - apply Qle_shift_div_l; [exact Hp | lra].
  - apply Qle_shift_div_r; [exact Hp | lra].
Qed.

Lemma count_ratio_in_unit (a b : nat) :
  (0 < b)%nat -> (a <= b)%nat -> 0 <= ofNat a / ofNat b <= 1.
Proof.
  intros Hb Hab. apply ratio_in_unit; [exact Hb | apply ofNat_nonneg | apply ofNat_le; exact Hab].
Qed.

Lemma countClassification_partition (results : list (Problem * FPScoreResult)) :
  (Utils.countClassification FALSE_POSITIVE results
   + Utils.countClassification TRUE_POSITIVE results
   + Utils.countClassification UNCERTAIN results
   = List.length results)%nat.
Proof.
  unfold Utils.countClassification.
  induction results as [| e rest IH]; [reflexivity |].
  cbn [filter List.length].
  destruct (classification (snd e)); cbn [List.length]; lia.
Qed.

(** X9. For every list of problems and every (optional) configuration,
    the three counts of [calculateFPRate] add up to [total], which is
    the number of problems; [fpRate] lies in [[0,1]]; and on the empty
    list it is [0], without a division. *)
Theorem calculateFPRate_counts
    (problems : list Problem) (thresholds : option FPThresholds) :
  let r := Utils.calculateFPRate problems thresholds in
  Utils.total r = List.length problems /\
  (Utils.falsePositives r + Utils.truePositives r + Utils.uncertain r
   = Utils.total r)%nat /\
  0 <= Utils.fpRate r <= 1 /\
  Utils.fpRate (Utils.calculateFPRate [] thresholds) = 0.
Proof.
  cbv zeta. unfold Utils.calculateFPRate.
  cbn [Utils.total Utils.falsePositives Utils.truePositives Utils.uncertain Utils.fpRate].
  set (results := Utils.batchCalculateFPScores problems _).
  assert (Hlen : List.length results = List.length problems)
    by (subst results; unfold Utils.batchCalculateFPScores; apply length_map).
  pose proof (countClassification_partition results) as Hpart.
  split; [reflexivity |].
  split; [lia |].
  split.
  - destruct (Nat.ltb 0 (List.length problems)) eqn:E; [| lra].
    apply Nat.ltb_lt in E. apply count_ratio_in_unit; lia.
  - reflexivity.
Qed.

Lemma summary_paths_share_buckets_witness :
  [halfHourRemediated] <> [] /\
  byDuration (Service.summarize (serviceWith [halfHourRemediated] DEFAULT_FP_THRESHOLDS)
                [halfHourRemediated])
  = byDuration (Service.getSummaryFast
                  (serviceWith [halfHourRemediated] DEFAULT_FP_THRESHOLDS)
                  None None None).
Proof.
  assert (H : [halfHourRemediated] <> []) by discriminate.
  split; [exact H |].
  exact (proj2 (summary_paths_share_buckets [halfHourRemediated]
                  DEFAULT_FP_THRESHOLDS H)).
Defined.

(** The loop of [calculateSummary]: every iteration adds one to one
    classification counter and to one duration counter. *)
Lemma summary_fold_counts (entries : list (Problem * FPScoreResult))
    (acc : Service.SummaryAcc) :
  let acc' := fold_left Service.summaryStep entries acc in
  (sumClasses (Service.accByClassification acc')
   = sumClasses (Service.accByClassification acc) + List.length entries)%nat /\
  (sumCounts (Service.accByDuration acc')
   = sumCounts (Service.accByDuration acc) + List.length entries)%nat /\
  (Service.accAutoRemediatedCount acc'
   <= Service.accAutoRemediatedCount acc + List.length entries)%nat /\
  (Service.accAutoRemediatedCount acc <= Service.accAutoRemediatedCount acc')%nat.
Proof.
  cbv zeta. revert acc.
  induction entries as [| [p r] rest IH]; intro acc.
  - cbn [fold_left List.length]. repeat split; lia.
  - cbn [fold_left List.length].
    destruct (IH (Service.summaryStep acc (p, r))) as (H1 & H2 & H3 & H4).
    rewrite H1, H2.
    assert (S1 : sumClasses (Service.accByClassification (Service.summaryStep acc (p, r)))
                 = S (sumClasses (Service.accByClassification acc))).
    { cbn [Service.summaryStep Service.accByClassification].
      unfold Service.bumpClassification, sumClasses.
      destruct (classification r);
        cbn [countFalsePositive countTruePositive countUncertain]; lia. }
    assert (S2 : sumCounts (Service.accByDuration (Service.summaryStep acc (p, r)))
                 = S (sumCounts (Service.accByDuration acc))).
    { cbn [Service.summaryStep Service.accByDuration].
      unfold Service.bumpDuration, sumCounts.
      destruct (Qltb (orZero (duration p)) 5);
        [| destruct (Qltb (orZero (duration p)) 15);
           [| destruct (Qltb (orZero (duration p)) 60);
              [| destruct (Qltb (orZero (duration p)) 240)]]];
        cbn [lt5min from5to15min from15to60min from1to4h gt4h]; lia. }
    assert (S3 : (Service.accAutoRemediatedCount acc
                  <= Service.accAutoRemediatedCount (Service.summaryStep acc (p, r))
                  <= S (Service.accAutoRemediatedCount acc))%nat).
    { cbn [Service.summaryStep Service.accAutoRemediatedCount].
      destruct (Service.hasRemediationReason (reasons r)); lia. }
    repeat split; lia.
Qed.

Lemma sumValues_durationObject (k : DurationCounts) :
  sumValues (durationObject k) = sumCounts k.
Proof. unfold sumValues, durationObject, sumCounts. cbn [fold_right snd]. lia. Qed.

(** X10. For every list of analysed problems, empty or not, the
    summary of [calculateSummary] counts each problem once in each
    distribution: the three classification counts add up to
    [totalProblems], the duration buckets add up to [totalProblems], and
    [totalProblems] is the length of the list. *)
Theorem calculateSummary_counts (entries : list (Problem * FPScoreResult)) :
  let summary := Service.calculateSummary entries in
  totalProblems summary = List.length entries /\
  analyzedProblems summary = totalProblems summary /\
  (falsePositives summary + truePositives summary + uncertain summary
   = totalProblems summary)%nat /\
  sumClasses (byClassification summary) = totalProblems summary /\
  sumValues (byDuration summary) = totalProblems summary.
Proof.
  cbv zeta. unfold Service.calculateSummary.
  destruct entries as [| e rest].
  - cbn. repeat split; reflexivity.
  - change (Nat.eqb (List.length (e :: rest)) 0) with false. cbv iota.
    cbn [totalProblems analyzedProblems falsePositives truePositives uncertain
         byClassification byDuration].
    destruct (summary_fold_counts (e :: rest) Service.summaryAcc0) as (H1 & H2 & _).
    cbv zeta in H1, H2.
    change (sumClasses (Service.accByClassification Service.summaryAcc0)) with 0%nat in H1.
    change (sumCounts (Service.accByDuration Service.summaryAcc0)) with 0%nat in H2.
    rewrite sumValues_durationObject.
    unfold sumClasses in *. repeat split; lia.
Qed.





(* ------------------------------------------------------------------ *)
(** *** The aggregation of [getSummaryFast] *)

Lemma sumCond_cons (c : Problem -> bool) (p : Problem) (docs : list Problem) :
  Service.sumCond c (p :: docs) = (b2n (c p) + Service.sumCond c docs)%nat.
Proof.
  unfold Service.sumCond. cbn [filter]. destruct (c p); reflexivity.
Qed.

Lemma sumCond_le (c : Problem -> bool) (docs : list Problem) :
  (Service.sumCond c docs <= List.length docs)%nat.
Proof. unfold Service.sumCond. apply filter_length_le. Qed.

Lemma fastFpScore_range (p : Problem) : 0 <= Service.fastFpScore p <= 0.75.
Proof.
  unfold Service.fastFpScore.
  destruct (mongoLtIfNull0 (duration p) 5), (mongoLtIfNull0 (duration p) 15),
    (mongoLtIfNull0 (duration p) 60),
    (Service.mongoIsToken (Autoremediado p) && Service.mongoIsToken (FuncionoAutoRemediacion p)),
    (Service.mongoIsToken (Autoremediado p)), (isLowSeverity p),
    (Nat.eqb (commentCountOf p) 0); split; lra.
Qed.

(** The three [$cond]s on the score select exactly one counter. *)
Lemma fast_class_one (s : Q) :
  (b2n (Qle_bool 0.6 s) + b2n (Qltb s 0.3) + b2n (Qle_bool 0.3 s && Qltb s 0.6) = 1)%nat.
Proof.
  destruct (Qle_bool 0.6 s) eqn:A, (Qltb s 0.3) eqn:B, (Qle_bool 0.3 s) eqn:C,
    (Qltb s 0.6) eqn:D; cbn; try reflexivity; exfalso;
    repeat match goal with
           | H : Qle_bool _ _ = true |- _ => apply Qle_bool_iff in H
           | H : Qle_bool _ _ = false |- _ => apply Qle_bool_lt in H
           | H : Qltb _ _ = true |- _ => apply Qltb_lt in H
           | H : Qltb _ _ = false |- _ => apply Qltb_ge in H
           end; lra.
Qed.

(** The [$switch] selects exactly one category. *)
Lemma fast_bucket_one (p : Problem) :
  (b2n (String.eqb (Service.fastDurationCategory p) "<5min")
   + b2n (String.eqb (Service.fastDurationCategory p) "5-15min")
   + b2n (String.eqb (Service.fastDurationCategory p) "15-60min")
   + b2n (String.eqb (Service.fastDurationCategory p) "1-4h")
   + b2n (String.eqb (Service.fastDurationCategory p) ">4h") = 1)%nat.
Proof.
  unfold Service.fastDurationCategory.
  destruct (mongoLtIfNull0 (duration p) 5);
    [| destruct (mongoLtIfNull0 (duration p) 15);
       [| destruct (mongoLtIfNull0 (duration p) 60);
          [| destruct (mongoLtIfNull0 (duration p) 240)]]]; reflexivity.
Qed.

Lemma fastGroup_counts (docs : list Problem) :
  let g := Service.fastGroup docs in
  (Service.fFalsePositives g + Service.fTruePositives g + Service.fUncertain g
   = List.length docs)%nat /\
  (Service.fDurationLt5 g + Service.fDuration5to15 g + Service.fDuration15to60 g
   + Service.fDuration1to4h g + Service.fDurationGt4h g = List.length docs)%nat /\
  0 <= Service.fTotalFPScore g <= 0.75 * ofNat (List.length docs).
Proof.
  cbv zeta. unfold Service.fastGroup.
  cbn [Service.fFalsePositives Service.fTruePositives Service.fUncertain
       Service.fDurationLt5 Service.fDuration5to15 Service.fDuration15to60
       Service.fDuration1to4h Service.fDurationGt4h Service.fTotalFPScore].
  split; [| split].
  - induction docs as [| p rest IH]; [reflexivity |].
    rewrite !sumCond_cons. cbn [List.length].
    pose proof (fast_class_one (Service.fastFpScore p)). lia.
  - induction docs as [| p rest IH]; [reflexivity |].
    rewrite !sumCond_cons. cbn [List.length].
    pose proof (fast_bucket_one p). lia.
  - assert (H : forall (l : list Problem) (a : Q),
              a <= fold_left (fun s p => s + Service.fastFpScore p) l a
                <= a + 0.75 * ofNat (List.length l)).
    { induction l as [| p rest IH]; intro a.
      - cbn [fold_left List.length]. change (ofNat 0) with 0. split; lra.
      - cbn [fold_left List.length].
        destruct (IH (a + Service.fastFpScore p)) as (I1 & I2).
        pose proof (fastFpScore_range p) as Hr.
        assert (E : ofNat (S (List.length rest)) == ofNat (List.length rest) + 1).
        { unfold ofNat. rewrite Nat2Z.inj_succ, <- Z.add_1_r, inject_Z_plus.
          reflexivity. }
        rewrite E. split; lra. }
    destruct (H docs 0) as (H1 & H2). split; lra.
Qed.

(** X12. For every collection and every filter, the optimized summary
    counts each matched problem once in each distribution (the three
    classification counts and the five buckets add up to
    [totalProblems], which is at most the size of the collection) and
    its rates are proper: [falsePositiveRate] and [autoRemediationRate]
    lie in [[0,1]] and [avgFPScore] in [[0,0.75]]. *)
Theorem getSummaryFast_counts
    (this : Service.FalsePositiveService)
    (dateFrom dateTo : option string) (zones : option (list string)) :
  let summary := Service.getSummaryFast this dateFrom dateTo zones in
  (totalProblems summary <= List.length (Service.collection this))%nat /\
  (falsePositives summary + truePositives summary + uncertain summary
   = totalProblems summary)%nat /\
  sumValues (byDuration summary) = totalProblems summary /\
  0 <= falsePositiveRate summary <= 1 /\
  0 <= autoRemediationRate summary <= 1 /\
  0 <= avgFPScore summary <= 0.75.
Proof.
  cbv zeta. unfold Service.getSummaryFast.
  set (docs := filter _ (Service.collection this)).
  assert (Hsub : (List.length docs <= List.length (Service.collection this))%nat)
    by (subst docs; apply filter_length_le).
  cbn [totalProblems falsePositives truePositives uncertain falsePositiveRate
       autoRemediationRate avgFPScore byDuration].
  rewrite sumValues_durationObject. unfold sumCounts.
  cbn [lt5min from5to15min from15to60min from1to4h gt4h].
  destruct docs as [| p rest] eqn:E.
  - cbn [Service.fastData Service.fTotalProblems Service.fFalsePositives
         Service.fTruePositives Service.fUncertain Service.fAutoRemediated
         Service.fTotalFPScore Service.fDurationLt5 Service.fDuration5to15
         Service.fDuration15to60 Service.fDuration1to4h Service.fDurationGt4h
         Nat.ltb Nat.leb].
    repeat split; try lia; lra.
  - cbn [Service.fastData].
    destruct (fastGroup_counts (p :: rest)) as (H1 & H2 & H3 & H4).
    cbv zeta in H1, H2, H3, H4.
    assert (Ht : Service.fTotalProblems (Service.fastGroup (p :: rest))
                 = S (List.length rest)) by reflexivity.
    rewrite Ht. cbn [List.length] in *.
    change (Nat.ltb 0 (S (List.length rest))) with true. cbv iota.
    assert (Hp : 0 < ofNat (S (List.length rest))) by (apply ofNat_pos; lia).
    assert (Ha : (Service.fAutoRemediated (Service.fastGroup (p :: rest))
                  <= S (List.length rest))%nat)
      by (apply (sumCond_le _ (p :: rest))).
    split; [exact Hsub |].
    split; [exact H1 |].
    split; [exact H2 |].
    split; [apply count_ratio_in_unit; lia |].
    split; [apply count_ratio_in_unit; lia |].
    split.
    + apply Qle_shift_div_l; [exact Hp | lra].
    + apply Qle_shift_div_r; [exact Hp | lra].
Qed.

(* ================================================================== *)
(** ** The entries of the recurrence analysis *)
(* ================================================================== *)

Lemma insertByTotal_perm (g : EntityGroup) (gs : list EntityGroup) :
  Permutation (insertByTotal g gs) (g :: gs).
Proof.
  induction gs as [| h rest IH]; cbn [insertByTotal]; [apply Permutation_refl |].
  destruct (Nat.ltb (groupTotalProblems h) (groupTotalProblems g)).
  - apply Permutation_refl.
  - apply Permutation_trans with (h :: g :: rest).
    + apply perm_skip. exact IH.
    + apply perm_swap.
Qed.

Lemma sortByTotalDesc_perm (gs : list EntityGroup) :
  Permutation (sortByTotalDesc gs) gs.
Proof.
  unfold sortByTotalDesc.
  induction gs as [| g rest IH]; cbn [fold_right]; [apply Permutation_refl |].
  apply Permutation_trans with (g :: fold_right insertByTotal [] rest).
  - apply insertByTotal_perm.
  - apply perm_skip. exact IH.
Qed.

Lemma NoDup_map_filter {A B : Type} (f : A -> B) (c : A -> bool) (l : list A) :
  NoDup (map f l) -> NoDup (map f (filter c l)).
Proof.
  induction l as [| a l IH]; intro H; [constructor |].
  cbn [map] in H. inversion H as [| x xs Hnotin Hnd]; subst.
  cbn [filter]. destruct (c a); [| apply IH; exact Hnd].
  cbn [map]. constructor; [| apply IH; exact Hnd].
  intro Hin. apply Hnotin.
  apply in_map_iff in Hin. destruct Hin as (y & Hy & Hin).
  apply in_map_iff. exists y. split; [exact Hy |].
  apply filter_In in Hin. exact (proj1 Hin).
Qed.

Lemma NoDup_map_firstn {A B : Type} (f : A -> B) (n : nat) (l : list A) :
  NoDup (map f l) -> NoDup (map f (firstn n l)).
Proof.
  intro H. rewrite <- (firstn_skipn n l), map_app in H.
  exact (NoDup_app_remove_r _ _ H).
Qed.

(** The groups leaving the pipeline have pairwise distinct keys. *)
Lemma recurrencePipeline_distinct
    (db : list Problem) (dateFrom dateTo : option string) :
  NoDup (map groupId (Service.recurrencePipeline db dateFrom dateTo)).
Proof.
  unfold Service.recurrencePipeline.
  apply NoDup_map_firstn.
  destruct (groupByEntity_spec
              (Service.unwind (filter (Service.matchWindow dateFrom dateTo) db)))
    as (Hnd & _ & _).
  eapply Permutation_NoDup.
  - apply Permutation_map. apply Permutation_sym. apply sortByTotalDesc_perm.
  - apply NoDup_map_filter. exact Hnd.
Qed.

(** X14. No entity appears twice in the list [analyzeEntityRecurrence]
    returns: the entity ids of its entries are pairwise distinct. *)
Theorem recurrence_entities_distinct
    (this : Service.FalsePositiveService) (dateFrom dateTo : option string) :
  NoDup (map eEntityId (Service.analyzeEntityRecurrence this dateFrom dateTo)).
Proof.
  unfold Service.analyzeEntityRecurrence. rewrite map_map.
  cbn [Service.analyzeEntity eEntityId].
  apply recurrencePipeline_distinct.
Qed.

(** X15. Every entry of the recurrence analysis has proper rates and a
    bounded sample: [autoRemediationRate] and [falsePositiveRate] lie in
    [[0,1]], [recentProblems] holds at most five problems, the first
    ones of the group in document order, each with [fpScore] 0. *)
Theorem recurrence_entry_ranges
    (this : Service.FalsePositiveService) (dateFrom dateTo : option string)
    (e : EntityRecurrenceAnalysis) :
  In e (Service.analyzeEntityRecurrence this dateFrom dateTo) ->
  0 <= eAutoRemediationRate e <= 1 /\
  0 <= eFalsePositiveRate e <= 1 /\
  (List.length (eRecentProblems e) <= 5)%nat /\
  List.length (eRecentProblems e) = Nat.min 5 (eTotalProblems e) /\
  map rProblemId (eRecentProblems e)
    = firstn 5 (map (fun doc => problemId (fst doc))
                  (observedInWindow (Service.collection this) dateFrom dateTo
                     (eEntityId e))) /\
  Forall (fun r => rFpScore r = 0) (eRecentProblems e).
Proof.
  unfold Service.analyzeEntityRecurrence. intro He.
  apply in_map_iff in He. destruct He as (g & <- & Hg).
  destruct (recurrencePipeline_groups _ _ _ _ Hg) as (H2 & HT & HP).
  assert (Hlen : List.length (groupProblems g) = groupTotalProblems g)
    by (rewrite HP, length_map; symmetry; exact HT).
  cbn [Service.analyzeEntity eAutoRemediationRate eFalsePositiveRate eRecentProblems
       eTotalProblems eEntityId].
  assert (Hpos : Nat.ltb 0 (groupTotalProblems g) = true) by (apply Nat.ltb_lt; lia).
  rewrite Hpos.
  split; [| split; [| split; [| split; [| split]]]].
  - apply count_ratio_in_unit; [lia |].
    rewrite <- Hlen. apply filter_length_le.
  - apply count_ratio_in_unit; [lia |].
    unfold Service.fpCount. rewrite <- Hlen. apply filter_length_le.
  - rewrite length_map, length_firstn. apply Nat.le_min_l.
  - rewrite length_map, length_firstn, Hlen. reflexivity.
  - rewrite map_map. cbn [rProblemId].
    rewrite HP, <- !firstn_map, map_map. reflexivity.
  - rewrite Forall_forall. intros r Hr.
    apply in_map_iff in Hr. destruct Hr as (x & <- & _). reflexivity.
Qed.

Lemma recurrence_entry_ranges_witness :
  In analyzeEntityHostA
     (Service.analyzeEntityRecurrence (Service.new twoInvestigated) None None) /\
  0 <= eFalsePositiveRate analyzeEntityHostA <= 1 /\
  List.length (eRecentProblems analyzeEntityHostA) = 2%nat.
Proof.
  assert (H : In analyzeEntityHostA
                (Service.analyzeEntityRecurrence (Service.new twoInvestigated) None None))
    by (left; vm_compute; reflexivity).
  split; [exact H |].
  destruct (recurrence_entry_ranges (Service.new twoInvestigated) None None
              analyzeEntityHostA H) as (_ & Hr & _ & Hl & _).
  split; [exact Hr | exact Hl].
Defined.

(** X16. With a positive [highRecurrenceCount], the recurrence score of
    every entry lies in [(0,1]]; it is [1] exactly from
    [highRecurrenceCount] problems on, and the quotient
    [totalProblems / highRecurrenceCount] below. *)
Theorem recurrence_score_range
    (this : Service.FalsePositiveService) (dateFrom dateTo : option string)
    (e : EntityRecurrenceAnalysis) :
  0 < highRecurrenceCount (Service.thresholds this) ->
  In e (Service.analyzeEntityRecurrence this dateFrom dateTo) ->
  0 < eRecurrenceScore e <= 1 /\
  (highRecurrenceCount (Service.thresholds this) <= ofNat (eTotalProblems e) ->
   eRecurrenceScore e == 1) /\
  (ofNat (eTotalProblems e) < highRecurrenceCount (Service.thresholds this) ->
   eRecurrenceScore e
     == ofNat (eTotalProblems e) / highRecurrenceCount (Service.thresholds this) /\
   eRecurrenceScore e < 1).
Proof.
  intro Hh. unfold Service.analyzeEntityRecurrence. intro He.
  apply in_map_iff in He. destruct He as (g & <- & Hg).
  destruct (recurrencePipeline_groups _ _ _ _ Hg) as (H2 & _ & _).
  cbn [Service.analyzeEntity eRecurrenceScore eTotalProblems].
  set (h := highRecurrenceCount (Service.thresholds this)) in *.
  set (n := groupTotalProblems g) in *.
  unfold Service.recurrenceScoreOf.
  assert (Hz : Qeq_bool h 0 = false).
  { destruct (Qeq_bool h 0) eqn:E; [| reflexivity].
    apply Qeq_bool_iff in E. lra. }
  rewrite Hz.
  assert (Hn : 0 < ofNat n) by (apply ofNat_pos; lia).
  assert (Hq : 0 < ofNat n / h).
  { apply Qlt_shift_div_l; [exact Hh | lra]. }
  split; [| split].
  - split.
    + destruct (Q.min_spec 1 (ofNat n / h)) as [(_ & ->) | (_ & ->)]; lra.
    + apply Q.le_min_l.
  - intro Hge. apply Q.min_l. apply Qle_shift_div_l; [exact Hh | lra].
  - intro Hlt.
    assert (Hlt1 : ofNat n / h < 1) by (apply Qlt_shift_div_r; [exact Hh | lra]).
    assert (E : Qmin 1 (ofNat n / h) == ofNat n / h) by (apply Q.min_r; lra).
    split; [exact E | rewrite E; exact Hlt1].
Qed.

Lemma recurrence_score_range_witness :
  0 < highRecurrenceCount (Service.thresholds (Service.new twoInvestigated)) /\
  In analyzeEntityHostA
     (Service.analyzeEntityRecurrence (Service.new twoInvestigated) None None) /\
  0 < eRecurrenceScore analyzeEntityHostA <= 1.
Proof.
  assert (Hh : 0 < highRecurrenceCount (Service.thresholds (Service.new twoInvestigated)))
    by reflexivity.
  assert (H : In analyzeEntityHostA
                (Service.analyzeEntityRecurrence (Service.new twoInvestigated) None None))
    by (left; vm_compute; reflexivity).
  split; [exact Hh |]. split; [exact H |].
  exact (proj1 (recurrence_score_range (Service.new twoInvestigated) None None
                  analyzeEntityHostA Hh H)).
Defined.

(** X17. Under the default thresholds the reported [falsePositiveRate]
    of an entity is the share of its grouped problems that lasted less
    than five minutes and whose [Autoremediado] is one of the tokens;
    severity, comments, status and [FuncionoAutoRemediacion] of the
    stored problems play no part. *)
Theorem recurrence_rate_under_defaults
    (db : list Problem) (dateFrom dateTo : option string)
    (e : EntityRecurrenceAnalysis) :
  In e (Service.analyzeEntityRecurrence (Service.new db) dateFrom dateTo) ->
  eFalsePositiveRate e
  = ofNat (List.length
             (filter (fun doc =>
                        Qltb (orZero (duration (fst doc))) 5
                        && isToken (Autoremediado (fst doc)))
                (observedInWindow db dateFrom dateTo (eEntityId e))))
    / ofNat (eTotalProblems e).
Proof.
  unfold Service.analyzeEntityRecurrence. intro He.
  apply in_map_iff in He. destruct He as (g & <- & Hg).
  destruct (recurrencePipeline_groups _ _ _ _ Hg) as (H2 & HT & HP).
  cbn [Service.analyzeEntity eTotalProblems eEntityId eFalsePositiveRate
       Service.new Service.collection] in *.
  assert (Hpos : Nat.ltb 0 (groupTotalProblems g) = true) by (apply Nat.ltb_lt; lia).
  rewrite Hpos. unfold Service.fpCount. rewrite HP.
  rewrite (filter_map_comm
             (fun p => match classification
                               (Service.calculateFPScore (Service.new db)
                                  (Service.mockProblem p)) with
                       | FALSE_POSITIVE => true
                       | _ => false
                       end)
             (fun doc => Service.pushed (fst doc))).
  rewrite length_map.
  do 3 f_equal.
  apply filter_ext. intro doc.
  exact (mock_false_positive_default db (fst doc)).
Qed.

Lemma recurrence_rate_under_defaults_witness :
  In analyzeEntityHostA
     (Service.analyzeEntityRecurrence (Service.new twoInvestigated) None None) /\
  eFalsePositiveRate analyzeEntityHostA
  = ofNat (List.length
             (filter (fun doc =>
                        Qltb (orZero (duration (fst doc))) 5
                        && isToken (Autoremediado (fst doc)))
                (observedInWindow twoInvestigated None None
                   (eEntityId analyzeEntityHostA))))
    / ofNat (eTotalProblems analyzeEntityHostA).
Proof.
  assert (H : In analyzeEntityHostA
                (Service.analyzeEntityRecurrence (Service.new twoInvestigated) None None))
    by (left; vm_compute; reflexivity).
  split; [exact H |].
  exact (recurrence_rate_under_defaults twoInvestigated None None analyzeEntityHostA H).
Defined.

Lemma groupAdd_keys (doc : Problem * AffectedEntity) (gs : list EntityGroup)
    (k : option string) :
  In k (map groupId (Service.groupAdd doc gs)) ->
  k = keyOf doc \/ In k (map groupId gs).
Proof.
  induction gs as [| g rest IH]; cbn [Service.groupAdd].
  - cbn. intros [<- | []]. left. reflexivity.
  - destruct (optStringEqb (groupId g) (id (entityId (snd doc)))).
    + cbn [map groupId]. intro H. right. exact H.
    + cbn [map In]. intros [<- | H]; [right; left; reflexivity |].
      destruct (IH H) as [-> | H']; [left; reflexivity | right; right; exact H'].
Qed.

Lemma groupByEntity_keys (docs : list (Problem * AffectedEntity)) (k : option string) :
  In k (map groupId (Service.groupByEntity docs)) -> In k (map keyOf docs).
Proof.
  unfold Service.groupByEntity.
  assert (H : forall (l : list (Problem * AffectedEntity)) (gs : list EntityGroup),
            In k (map groupId (fold_left (fun gs doc => Service.groupAdd doc gs) l gs)) ->
            In k (map groupId gs) \/ In k (map keyOf l)).
  { induction l as [| doc rest IH]; intros gs Hin; [left; exact Hin |].
    cbn [fold_left] in Hin. destruct (IH _ Hin) as [H1 | H2].
    - destruct (groupAdd_keys _ _ _ H1) as [-> | H3].
      + right. left. reflexivity.
      + left. exact H3.
    - right. right. exact H2. }
  intro Hin. destruct (H docs [] Hin) as [[] | H']. exact H'.
Qed.

(** X18. The cap of 50 is the only way an entity with two or more
    problems is left out: when at most 50 distinct entities are met in
    the problems of the window, every entity with at least two
    occurrences has an entry, with its exact count. *)
Theorem recurrence_complete_below_cap
    (this : Service.FalsePositiveService) (dateFrom dateTo : option string)
    (key : option string) :
  (List.length (entitiesInWindow (Service.collection this) dateFrom dateTo) <= 50)%nat ->
  (2 <= List.length (observedInWindow (Service.collection this) dateFrom dateTo key))%nat ->
  exists e : EntityRecurrenceAnalysis,
    In e (Service.analyzeEntityRecurrence this dateFrom dateTo) /\
    eEntityId e = key /\
    eTotalProblems e
      = List.length (observedInWindow (Service.collection this) dateFrom dateTo key).
Proof.
  unfold entitiesInWindow, observedInWindow, Service.analyzeEntityRecurrence,
    Service.recurrencePipeline.
  set (docs := Service.unwind (filter (Service.matchWindow dateFrom dateTo)
                                 (Service.collection this))).
  intros Hcap Hobs.
  destruct (groupByEntity_spec docs) as (Hnd & Hcov & Hgs).
  set (gs := Service.groupByEntity docs) in *.
  (* the group of the key *)
  assert (Hdoc : exists doc, In doc docs /\ keyOf doc = key).
  { destruct (ofEntity key docs) as [| doc rest] eqn:E; [cbn in Hobs; lia |].
    exists doc.
    assert (Hin : In doc (ofEntity key docs)) by (rewrite E; left; reflexivity).
    unfold ofEntity in Hin. apply filter_In in Hin. destruct Hin as (Hin & Hk).
    split; [exact Hin | apply optStringEqb_eq; exact Hk]. }
  destruct Hdoc as (doc & Hin & Hk).
  pose proof (Hcov doc Hin) as Hkey. rewrite Hk in Hkey.
  apply in_map_iff in Hkey. destruct Hkey as (g & Hgk & Hg).
  destruct (Hgs g Hg) as (HT & _). rewrite Hgk in HT.
  (* fewer than 50 groups: the limit keeps them all *)
  assert (Hlen : (List.length gs <= 50)%nat).
  { rewrite <- (length_map groupId gs).
    eapply Nat.le_trans; [| exact Hcap].
    apply NoDup_incl_length; [exact Hnd |].
    intros k Hkin. apply nodup_In. apply groupByEntity_keys. exact Hkin. }
  set (kept := sortByTotalDesc (filter (fun g => Nat.leb 2 (groupTotalProblems g)) gs)).
  assert (Hkept : (List.length kept <= 50)%nat).
  { subst kept. rewrite (Permutation_length (sortByTotalDesc_perm _)).
    eapply Nat.le_trans; [apply filter_length_le | exact Hlen]. }
  exists (Service.analyzeEntity this g).
  split; [| split].
  - apply in_map. rewrite firstn_all2 by exact Hkept.
    apply sortByTotalDesc_In. apply filter_In. split; [exact Hg |].
    apply Nat.leb_le. lia.
  - exact Hgk.
  - exact HT.
Qed.

Lemma recurrence_complete_below_cap_witness :
  (List.length (entitiesInWindow twoInvestigated None None) <= 50)%nat /\
  (2 <= List.length (observedInWindow twoInvestigated None None
                       (Some "HOST-A"%string)))%nat /\
  exists e : EntityRecurrenceAnalysis,
    In e (Service.analyzeEntityRecurrence (Service.new twoInvestigated) None None) /\
    eEntityId e = Some "HOST-A"%string /\
    eTotalProblems e
      = List.length (observedInWindow twoInvestigated None None (Some "HOST-A"%string)).
Proof.
  assert (H1 : (List.length (entitiesInWindow twoInvestigated None None) <= 50)%nat)
    by (vm_compute; lia).
  assert (H2 : (2 <= List.length (observedInWindow twoInvestigated None None
                                    (Some "HOST-A"%string)))%nat)
    by (vm_compute; lia).
  split; [exact H1 |]. split; [exact H2 |].
  exact (recurrence_complete_below_cap (Service.new twoInvestigated) None None
           (Some "HOST-A"%string) H1 H2).
Defined.

(* ------------------------------------------------------------------ *)
(** *** Objects of counters *)

Lemma bump_spec (key : string) (obj : list (string * nat)) :
  sumValues (bump key obj) = S (sumValues obj) /\
  (forall k, In k (map fst (bump key obj)) <-> k = key \/ In k (map fst obj)) /\
  (NoDup (map fst obj) -> NoDup (map fst (bump key obj))) /\
  (forall k, lookupCount k (bump key obj)
             = if String.eqb k key then S (lookupCount k obj) else lookupCount k obj).
Proof.
  induction obj as [| [k0 n0] rest IH].
  - cbn [bump]. split; [| split; [| split]].
    + reflexivity.
    + intro k. cbn. intuition congruence.
    + intros _. cbn. constructor; [intros [] | constructor].
    + intro k. unfold lookupCount. cbn [find fst snd].
      rewrite String.eqb_sym. destruct (String.eqb k key); reflexivity.
  - destruct IH as (I1 & I2 & I3 & I4). cbn [bump].
    destruct (String.eqb k0 key) eqn:E.
    + apply String.eqb_eq in E. subst k0. split; [| split; [| split]].
      * reflexivity.
      * intro k. cbn [map fst In]. intuition congruence.
      * intro H. exact H.
      * intro k. unfold lookupCount. cbn [find fst snd].
        rewrite (String.eqb_sym k key). destruct (String.eqb key k); reflexivity.
    + split; [| split; [| split]].
      * change (sumValues ((k0, n0) :: bump key rest))
          with (n0 + sumValues (bump key rest))%nat.
        change (sumValues ((k0, n0) :: rest)) with (n0 + sumValues rest)%nat.
        rewrite I1. lia.
      * intro k. cbn [map fst In]. rewrite I2. tauto.
      * cbn [map fst]. intro H. inversion H as [| x xs Hnotin Hnd]; subst.
        constructor; [| apply I3; exact Hnd].
        rewrite I2. intros [-> | Hin]; [| exact (Hnotin Hin)].
        rewrite String.eqb_refl in E. discriminate E.
      * intro k. unfold lookupCount in *. cbn [find fst snd].
        destruct (String.eqb k0 k) eqn:Ek.
        -- apply String.eqb_eq in Ek. subst k0.
           rewrite E. reflexivity.
        -- apply I4.
Qed.

(** A histogram built by [bump] from the left counts every key. *)
Lemma histogram_spec (keys : list string) (obj : list (string * nat)) :
  let h := fold_left (fun o k => bump k o) keys obj in
  sumValues h = (sumValues obj + List.length keys)%nat /\
  (NoDup (map fst obj) -> NoDup (map fst h)) /\
  (forall k, lookupCount k h
             = (lookupCount k obj + count_occ string_dec keys k)%nat).
Proof.
  cbv zeta. revert obj.
  induction keys as [| key rest IH]; intro obj.
  - cbn [fold_left List.length count_occ]. split; [lia | split; [auto |]].
    intro k. lia.
  - cbn [fold_left List.length].
    destruct (IH (bump key obj)) as (I1 & I2 & I3).
    destruct (bump_spec key obj) as (B1 & _ & B3 & B4).
    split; [| split].
    + rewrite I1, B1. lia.
    + intro H. apply I2. apply B3. exact H.
    + intro k. rewrite I3, B4. cbn [count_occ].
      destruct (string_dec key k) as [-> | Hne].
      * rewrite String.eqb_refl. lia.
      * destruct (String.eqb k key) eqn:E; [| lia].
        apply String.eqb_eq in E. congruence.
Qed.

(** X19. The problem types of an entry are an exact histogram of the
    titles of its grouped problems: every title appears once as a key,
    its counter is the number of the entity's problems of the window with
    that title, and the counters add up to [totalProblems].  The titles
    are taken not to be names that objects inherit ([constructor],
    [toString], ...): the counter object is a plain object, and the
    first look-up of such a title does not give [undefined]. *)
Theorem recurrence_problem_types
    (this : Service.FalsePositiveService) (dateFrom dateTo : option string)
    (e : EntityRecurrenceAnalysis) :
  In e (Service.analyzeEntityRecurrence this dateFrom dateTo) ->
  Forall (fun doc => inheritedKey (title (fst doc)) = false)
    (observedInWindow (Service.collection this) dateFrom dateTo (eEntityId e)) ->
  NoDup (map fst (eProblemTypes e)) /\
  sumValues (eProblemTypes e) = eTotalProblems e /\
  (forall t : string,
     lookupCount t (eProblemTypes e)
     = count_occ string_dec
         (map (fun doc => title (fst doc))
            (observedInWindow (Service.collection this) dateFrom dateTo (eEntityId e)))
         t).
Proof.
  unfold Service.analyzeEntityRecurrence. intros He _.
  apply in_map_iff in He. destruct He as (g & <- & Hg).
  destruct (recurrencePipeline_groups _ _ _ _ Hg) as (_ & HT & HP).
  cbn [Service.analyzeEntity eProblemTypes eTotalProblems eEntityId].
  assert (Hfold : forall (ps : list GroupedProblem) (obj : list (string * nat)),
            fold_left (fun o p => bump (gTitle p) o) ps obj
            = fold_left (fun o k => bump k o) (map gTitle ps) obj).
  { induction ps as [| q rest IH]; intro obj; [reflexivity |].
    cbn [map fold_left]. apply IH. }
  rewrite Hfold.
  destruct (histogram_spec (map gTitle (groupProblems g)) []) as (H1 & H2 & H3).
  cbv zeta in H1, H2, H3.
  split; [apply H2; constructor |].
  split.
  - rewrite H1, length_map, HP, length_map. cbn [sumValues fold_right]. lia.
  - intro t. rewrite H3. cbn [lookupCount find].
    rewrite HP, map_map. reflexivity.
Qed.

Lemma recurrence_problem_types_witness :
  In analyzeEntityHostA
     (Service.analyzeEntityRecurrence (Service.new twoInvestigated) None None) /\
  eProblemTypes analyzeEntityHostA = [("Host unavailable"%string, 2%nat)] /\
  sumValues (eProblemTypes analyzeEntityHostA) = eTotalProblems analyzeEntityHostA.
Proof.
  assert (H : In analyzeEntityHostA
                (Service.analyzeEntityRecurrence (Service.new twoInvestigated) None None))
    by (left; vm_compute; reflexivity).
  split; [exact H |]. split; [vm_compute; reflexivity |].
  exact (proj1 (proj2 (recurrence_problem_types (Service.new twoInvestigated) None None
                         analyzeEntityHostA H
                         ltac:(vm_compute; repeat constructor)))).
Defined.


(* ================================================================== *)
(** ** Updates, dashboard figures and endpoints *)
(* ================================================================== *)

(* ------------------------------------------------------------------ *)
(** *** Successive threshold updates *)

(** X20. [setThresholds] composes like the object spread it is: the
    empty update changes nothing, two updates in a row amount to the one
    merged update in which the later keys win, repeating an update
    changes nothing more, and the collection is never touched. *)
Theorem setThresholds_composes
    (this : Service.FalsePositiveService) (a b : PartialThresholds) :
  Service.setThresholds this noUpdate = this /\
  Service.setThresholds (Service.setThresholds this a) b
    = Service.setThresholds this (mergeUpdates a b) /\
  Service.setThresholds (Service.setThresholds this a) a
    = Service.setThresholds this a /\
  Service.collection (Service.setThresholds this a) = Service.collection this.
Proof.
  destruct this as [db th], th, a as [a1 a2 a3 a4 a5 a6 a7],
    b as [b1 b2 b3 b4 b5 b6 b7].
  repeat split.
  - unfold Service.setThresholds; cbn.
    destruct b1, b2, b3, b4, b5, b6, b7; reflexivity.
  - unfold Service.setThresholds; cbn.
    destruct a1, a2, a3, a4, a5, a6, a7; reflexivity.
Qed.

(* ------------------------------------------------------------------ *)
(** *** The average resolution time and the health score *)

Lemma rangeWeight_cases (range : string) :
  (inheritedKey range = true /\ Service.rangeWeight range = NumNaN) \/
  (inheritedKey range = false /\
   exists w, Service.rangeWeight range = Num w /\ 2.5 <= w <= 360).
Proof.
  unfold Service.rangeWeight.
  repeat match goal with
         | |- context [String.eqb range ?k] =>
             destruct (String.eqb_spec range k) as [-> | _];
             [right; split; [reflexivity |];
              eexists; split; [reflexivity | split; lra] |]
         end.
  destruct (inheritedKey range); [left; split; reflexivity |].
  right. split; [reflexivity |]. eexists. split; [reflexivity | split; lra].
Qed.

Lemma resolutionTotals_fold (obj : list (string * nat)) (w0 : Q) (a0 : jsnum) :
  let totals :=
    fold_left
      (fun acc entry =>
         (fst acc + ofNat (snd entry),
          match snd acc, Service.rangeWeight (fst entry) with
          | Num d, Num w => Num (d + w * ofNat (snd entry))
          | _, _ => NumNaN
          end))
      obj (w0, a0) in
  fst totals == w0 + ofNat (sumValues obj) /\
  match a0 with
  | Num d0 =>
      if existsb (fun entry => inheritedKey (fst entry)) obj
      then snd totals = NumNaN
      else exists d, snd totals = Num d /\
                     d0 + 2.5 * ofNat (sumValues obj) <= d /\
                     d <= d0 + 360 * ofNat (sumValues obj)
  | NumNaN => snd totals = NumNaN
  | NumUndefined => True
  end.
Proof.
  cbv zeta. revert w0 a0.
  induction obj as [| [range count] rest IH]; intros w0 a0.
  - cbn [fold_left fst snd existsb]. change (ofNat (sumValues [])) with 0.
    split; [lra |]. destruct a0 as [| | d0]; [exact I | reflexivity |].
    exists d0. split; [reflexivity | split; lra].
  - cbn [fold_left fst snd existsb].
    assert (E : ofNat (sumValues ((range, count) :: rest))
                == ofNat count + ofNat (sumValues rest)).
    { unfold sumValues. cbn [fold_right snd]. unfold ofNat.
      rewrite Nat2Z.inj_add, inject_Z_plus. reflexivity. }
    pose proof (ofNat_nonneg count) as Hc.
    match goal with
    | |- context [fold_left ?f rest (?w, ?a)] =>
        destruct (IH w a) as (H1 & H2)
    end.
    split; [rewrite E; lra |].
    destruct a0 as [| | d0]; [exact I | exact H2 |].
    destruct (rangeWeight_cases range) as [(Hi & Hr) | (Hi & w & Hr & Hw)];
      rewrite Hr in *; rewrite Hi; cbn [orb]; [exact H2 |].
    destruct (existsb _ rest); [exact H2 |].
    destruct H2 as (d & Hd & L1 & L2).
    exists d. split; [exact Hd |]. rewrite E. split; nra.
Qed.

(** X22. The average resolution time is a weighted mean of the bucket
    midpoints. With no counted problem it is [0]. Otherwise it is a
    number between the smallest midpoint, 2.5 minutes, and the largest,
    360, unless a key of the duration object is a name that objects
    inherit, in which case it is [NaN]; it is never [undefined]. For
    the summary [calculateSummary] gives of any analysed list it is a
    number. *)
Theorem avg_resolution_time_range
    (summary : FPAnalyticsSummary) (entries : list (Problem * FPScoreResult)) :
  match Service.calculateAvgResolutionTime summary with
  | Num q =>
      (sumValues (byDuration summary) = 0%nat /\ q == 0) \/
      ((0 < sumValues (byDuration summary))%nat /\ 2.5 <= q <= 360)
  | NumNaN =>
      (0 < sumValues (byDuration summary))%nat /\
      existsb (fun entry => inheritedKey (fst entry)) (byDuration summary) = true
  | NumUndefined => False
  end /\
  exists q,
    Service.calculateAvgResolutionTime (Service.calculateSummary entries) = Num q.
Proof.
  assert (Hgen : forall s : FPAnalyticsSummary,
            match Service.calculateAvgResolutionTime s with
            | Num q =>
                (sumValues (byDuration s) = 0%nat /\ q == 0) \/
                ((0 < sumValues (byDuration s))%nat /\ 2.5 <= q <= 360)
            | NumNaN =>
                (0 < sumValues (byDuration s))%nat /\
                existsb (fun entry => inheritedKey (fst entry)) (byDuration s) = true
            | NumUndefined => False
            end).
  { intro s.
    unfold Service.calculateAvgResolutionTime, Service.resolutionTotals.
    destruct (resolutionTotals_fold (byDuration s) 0 (Num 0)) as (H1 & H2).
    cbv zeta in H1, H2.
    set (totals := fold_left _ _ _) in *.
    destruct (Nat.eq_dec (sumValues (byDuration s)) 0) as [E | E].
    - rewrite E in H1. change (ofNat 0) with 0 in H1.
      destruct (Qltb 0 (fst totals)) eqn:L.
      + apply Qltb_lt in L. lra.
      + left. split; [exact E | reflexivity].
    - assert (Hp : 0 < ofNat (sumValues (byDuration s))) by (apply ofNat_pos; lia).
      assert (L : Qltb 0 (fst totals) = true).
      { destruct (Qltb 0 (fst totals)) eqn:L; [reflexivity |].
        apply Qltb_ge in L. lra. }
      rewrite L.
      destruct (existsb _ (byDuration s)).
      + rewrite H2. split; [lia | reflexivity].
      + destruct H2 as (d & -> & L1 & L2).
        right. split; [lia |].
        assert (Hf : 0 < fst totals) by lra.
        split.
        * apply Qle_shift_div_l; [exact Hf | nra].
        * apply Qle_shift_div_r; [exact Hf | nra]. }
  split; [apply Hgen |].
  specialize (Hgen (Service.calculateSummary entries)).
  assert (Hkeys : existsb (fun entry => inheritedKey (fst entry))
                    (byDuration (Service.calculateSummary entries)) = false).
  { unfold Service.calculateSummary.
    destruct (Nat.eqb (List.length entries) 0); reflexivity. }
  destruct (Service.calculateAvgResolutionTime (Service.calculateSummary entries))
    as [| | q].
  - contradiction.
  - destruct Hgen as (_ & Hgen). congruence.
  - exists q. reflexivity.
Qed.

Lemma calculateSummary_rate_range (entries : list (Problem * FPScoreResult)) :
  0 <= falsePositiveRate (Service.calculateSummary entries) <= 1.
Proof.
  unfold Service.calculateSummary.
  destruct entries as [| e rest].
  - cbn. split; lra.
  - change (Nat.eqb (List.length (e :: rest)) 0) with false. cbv iota zeta.
    cbn [falsePositiveRate].
    destruct (summary_fold_counts (e :: rest) Service.summaryAcc0) as (H1 & _).
    cbv zeta in H1.
    change (sumClasses (Service.accByClassification Service.summaryAcc0))
      with 0%nat in H1.
    unfold sumClasses in H1.
    apply count_ratio_in_unit; [cbn [List.length]; lia | lia].
Qed.

Lemma mathRound_percent (r : Q) :
  0 <= r <= 1 ->
  (0 <= mathRound ((1 - r) * 100) <= 100)%Z /\
  (mathRound ((1 - r) * 100) = 100%Z <-> r <= 1 # 200) /\
  (mathRound ((1 - r) * 100) = 0%Z <-> 199 # 200 < r).
Proof.
  intros [H0 H1]. unfold mathRound.
  set (x := (1 - r) * 100 + (1 # 2)).
  assert (Hx : 1 # 2 <= x <= 201 # 2) by (subst x; split; lra).
  pose proof (Qfloor_le x) as Hle.
  pose proof (Qlt_floor x) as Hlt.
  assert (Hlo : (0 <= Qfloor x)%Z).
  { change 0%Z with (Qfloor 0). apply Qfloor_resp_le. lra. }
  assert (Hhi : (Qfloor x <= 100)%Z).
  { change 100%Z with (Qfloor (201 # 2)). apply Qfloor_resp_le. lra. }
  split; [lia |]. split; split; intro H.
  - rewrite H in Hle. change (inject_Z 100) with 100 in Hle. subst x. lra.
  - assert (100 <= Qfloor x)%Z; [| lia].
    change 100%Z with (Qfloor 100). apply Qfloor_resp_le. subst x. lra.
  - rewrite H in Hlt. change (inject_Z (0 + 1)) with 1 in Hlt. subst x. lra.
  - assert (Qfloor x < 1)%Z; [| lia].
    rewrite Zlt_Qlt. eapply Qle_lt_trans; [exact Hle |].
    change (inject_Z 1) with 1. subst x. lra.
Qed.

(** X23. The alert health score of a per-record summary is a whole
    number from 0 to 100, whatever was analysed.  It rounds: it reads
    100 exactly when at most one problem in 200 is a false positive, and
    0 exactly when more than 199 in 200 are. *)
Theorem alert_health_score_range (entries : list (Problem * FPScoreResult)) :
  let summary := Service.calculateSummary entries in
  (0 <= Service.alertHealthScore summary <= 100)%Z /\
  (Service.alertHealthScore summary = 100%Z
   <-> falsePositiveRate summary <= 1 # 200) /\
  (Service.alertHealthScore summary = 0%Z
   <-> 199 # 200 < falsePositiveRate summary).
Proof.
  cbv zeta. unfold Service.alertHealthScore.
  apply mathRound_percent, calculateSummary_rate_range.
Qed.

(* ------------------------------------------------------------------ *)
(** *** The recommendations *)

Lemma optional_message_length {A : Type} (c : bool) (x : A) :
  (List.length (if c then [x] else []) <= 1)%nat.
Proof. destruct c; cbn; lia. Qed.

Lemma prefix_app (a b c : string) :
  String.prefix (a ++ b) (a ++ c) = String.prefix b c.
Proof.
  induction a as [| x a IH]; [reflexivity |].
  cbn [String.append String.prefix].
  destruct (ascii_dec x x) as [_ | N]; [exact IH | contradiction].
Qed.

Lemma abridged_message (a x b c : string) :
  String.prefix b c = true ->
  String.prefix (a ++ x ++ b) (a ++ x ++ c) = true.
Proof. intro H. rewrite !prefix_app. exact H. Qed.

(** X21. The texts of the two generators. [generateRecommendations]
    always speaks and never says more than five things, and for the
    summary of an empty analysis it only reports 0.0% false positives.
    The generator inside [getSummaryFast] says at most three things,
    and nothing on an empty collection; whatever it says opens a text
    that [generateRecommendations] gives for the same summary. *)
Theorem recommendations_of_both_paths
    (this : Service.FalsePositiveService) (summary : FPAnalyticsSummary)
    (bySeverity : list (string * nat))
    (topRecurringEntities : option (list EntityRecurrenceAnalysis))
    (dateFrom dateTo : option string) (zones : option (list string)) :
  let fast := Service.getSummaryFastRecommendations this dateFrom dateTo zones in
  let full :=
    Service.generateRecommendations this
      (Service.getSummaryFast this dateFrom dateTo zones)
      bySeverity topRecurringEntities in
  (1 <= List.length
          (Service.generateRecommendations this summary bySeverity topRecurringEntities)
     <= 5)%nat /\
  Service.generateRecommendations this Service.getEmptySummary [] None
  = ["✅ BUENO: Solo 0.0% de falsos positivos detectados."%string] /\
  (List.length fast <= 3)%nat /\
  Service.getSummaryFastRecommendations (Service.new []) dateFrom dateTo zones = [] /\
  Forall (fun text => Exists (fun long => String.prefix text long = true) full) fast.
Proof.
  cbv zeta.
  assert (Hfirst : forall (a b c d : string) (x y z : bool),
             List.length (if x then [a] else if y then [b] else if z then [c] else [d])
             = 1%nat) by (intros; destruct x, y, z; reflexivity).
  assert (Hhead : forall (a b : string) (x y : bool),
             (List.length (if x then [a] else if y then [b] else []) <= 1)%nat)
    by (intros; destruct x, y; cbn; lia).
  split; [| split; [reflexivity | split; [| split; [reflexivity |]]]].
  - unfold Service.generateRecommendations. cbv zeta.
    rewrite !length_app, Hfirst.
    repeat match goal with
           | |- context [List.length (if ?c then [?x] else [])] =>
               let H := fresh "H" in
               pose proof (optional_message_length c x) as H;
               set (List.length (if c then [x] else [])) in *
           end.
    lia.
  - unfold Service.getSummaryFastRecommendations. cbv zeta.
    rewrite !length_app.
    match goal with
    | |- context [List.length (if ?x then [?a] else if ?y then [?b] else [])] =>
        pose proof (Hhead a b x y);
        set (List.length (if x then [a] else if y then [b] else [])) in *
    end.
    repeat match goal with
           | |- context [List.length (if ?c then [?x] else [])] =>
               let H := fresh "H" in
               pose proof (optional_message_length c x) as H;
               set (List.length (if c then [x] else [])) in *
           end.
    lia.
  - unfold Service.getSummaryFastRecommendations, Service.generateRecommendations.
    cbv zeta.
    set (S := Service.getSummaryFast this dateFrom dateTo zones).
    set (docs := filter _ (Service.collection this)).
    set (data := Service.fastData docs).
    assert (Htotal : totalProblems S = Service.fTotalProblems data) by reflexivity.
    assert (Hshort : lookupCount "<5min" (byDuration S) = Service.fDurationLt5 data)
      by reflexivity.
    rewrite Htotal, Hshort.
    apply Forall_app; split; [| apply Forall_app; split].
    + destruct (Qltb 0.5 (falsePositiveRate S)).
      * constructor; [| constructor].
        apply Exists_app. left. constructor.
        apply abridged_message. reflexivity.
      * destruct (Qltb 0.3 (falsePositiveRate S)); [| constructor].
        constructor; [| constructor].
        apply Exists_app. left. constructor.
        apply abridged_message. reflexivity.
    + destruct (Qltb 0.5 (autoRemediationRate S)); [| constructor].
      constructor; [| constructor].
      apply Exists_app. right. apply Exists_app. left. constructor.
      apply abridged_message. reflexivity.
    + assert (Hrate :
        Qltb 0.3 (ofNat (Service.fDurationLt5 data)
                  / ofNat (if Nat.eqb (Service.fTotalProblems data) 0 then 1%nat
                           else Service.fTotalProblems data)) = true ->
        (if Nat.ltb 0 (Service.fTotalProblems data)
         then ofNat (Service.fDurationLt5 data) / ofNat (Service.fTotalProblems data)
         else 0)
        = ofNat (Service.fDurationLt5 data)
          / ofNat (if Nat.eqb (Service.fTotalProblems data) 0 then 1%nat
                   else Service.fTotalProblems data)).
      { subst data. destruct docs as [| p rest].
        - cbn. discriminate.
        - intros _. reflexivity. }
      destruct (Qltb 0.3 (ofNat (Service.fDurationLt5 data) / _)) eqn:E;
        [| constructor].
      rewrite (Hrate eq_refl), E.
      constructor; [| constructor].
      apply Exists_app. right. apply Exists_app. right. apply Exists_app. left.
      constructor. apply abridged_message. reflexivity.
Qed.

(* ------------------------------------------------------------------ *)
(** *** The list endpoints *)

Lemma insertByScore_perm (x : Problem * FPScoreResult)
    (l : list (Problem * FPScoreResult)) :
  Permutation (x :: l) (insertByScore x l).
Proof.
  induction l as [| h rest IH]; cbn [insertByScore]; [reflexivity |].
  destruct (Qltb (score (snd x)) (score (snd h))); [| reflexivity].
  rewrite perm_swap. apply perm_skip, IH.
Qed.

Lemma sortByScoreDesc_perm (l : list (Problem * FPScoreResult)) :
  Permutation l (sortByScoreDesc l).
Proof.
  induction l as [| x rest IH]; [reflexivity |].
  change (sortByScoreDesc (x :: rest)) with (insertByScore x (sortByScoreDesc rest)).
  rewrite <- insertByScore_perm. apply perm_skip, IH.
Qed.

Lemma insertByScore_sorted (x : Problem * FPScoreResult)
    (l : list (Problem * FPScoreResult)) :
  StronglySorted scoreDesc l -> StronglySorted scoreDesc (insertByScore x l).
Proof.
  induction l as [| h rest IH]; intro Hs; cbn [insertByScore].
  - constructor; [constructor | constructor].
  - inversion Hs as [| ? ? Hrest Hall]; subst.
    destruct (Qltb (score (snd x)) (score (snd h))) eqn:E.
    + apply Qltb_lt in E.
      constructor; [apply IH, Hrest |].
      apply (Permutation_Forall (insertByScore_perm x rest)).
      constructor; [unfold scoreDesc; lra | exact Hall].
    + apply Qltb_ge in E.
      constructor; [exact Hs |].
      constructor; [exact E |].
      eapply Forall_impl; [| exact Hall].
      intros a Ha. unfold scoreDesc in *. lra.
Qed.

Lemma sortByScoreDesc_sorted (l : list (Problem * FPScoreResult)) :
  StronglySorted scoreDesc (sortByScoreDesc l).
Proof.
  induction l as [| x rest IH]; [constructor |].
  change (sortByScoreDesc (x :: rest)) with (insertByScore x (sortByScoreDesc rest)).
  apply insertByScore_sorted, IH.
Qed.

Lemma skipn_sorted {A : Type} (R : A -> A -> Prop) (n : nat) (l : list A) :
  StronglySorted R l -> StronglySorted R (skipn n l).
Proof.
  revert l. induction n as [| n IH]; intros l Hs; [exact Hs |].
  destruct l as [| x rest]; [constructor |].
  cbn [skipn]. apply IH. inversion Hs; assumption.
Qed.

Lemma skipn_In {A : Type} (n : nat) (l : list A) (x : A) :
  In x (skipn n l) -> In x l.
Proof.
  revert l. induction n as [| n IH]; intros l H; [exact H |].
  destruct l as [| y rest]; [exact H |]. right. apply IH, H.
Qed.

Lemma firstn_plus {A : Type} (a b : nat) (l : list A) :
  firstn (a + b) l = firstn a l ++ firstn b (skipn a l).
Proof.
  revert l. induction a as [| a IH]; intro l; [reflexivity |].
  destruct l as [| x rest].
  - cbn. rewrite firstn_nil. reflexivity.
  - cbn [Nat.add firstn skipn app]. rewrite IH. reflexivity.
Qed.

(** A slice from a position of the array is what [firstn] takes after
    [skipn]. *)
Lemma slice_firstn_skipn {A : Type} (l : list A) (start n : Z) :
  (0 <= start)%Z -> (0 <= n)%Z ->
  slice l start (start + n) = firstn (Z.to_nat n) (skipn (Z.to_nat start) l).
Proof.
  intros Hs Hn. unfold slice.
  destruct (start <? 0)%Z eqn:E1; [apply Z.ltb_lt in E1; lia |].
  destruct (start + n <? 0)%Z eqn:E2; [apply Z.ltb_lt in E2; lia |].
  set (len := Z.of_nat (List.length l)).
  destruct (Z.le_gt_cases len start) as [Hout | Hin].
  - rewrite (Z.min_r start len) by lia. rewrite (Z.min_r (start + n) len) by lia.
    rewrite Z.sub_diag. cbn [Z.to_nat firstn].
    rewrite (skipn_all2 l) by (subst len; lia).
    rewrite firstn_nil. reflexivity.
  - rewrite (Z.min_l start len) by lia.
    destruct (Z.le_gt_cases (start + n) len) as [Hfit | Hcut].
    + rewrite (Z.min_l (start + n) len) by lia.
      replace (start + n - start)%Z with n by lia. reflexivity.
    + rewrite (Z.min_r (start + n) len) by lia.
      rewrite !firstn_all2; [reflexivity | |];
        rewrite length_skipn; subst len; lia.
Qed.

Lemma pages_concat {A : Type} (l : list A) (limit n : nat) :
  List.concat (map (fun k => firstn limit (skipn ((k - 1) * limit) l)) (seq 1 n))
  = firstn (n * limit) l.
Proof.
  induction n as [| n IH]; [reflexivity |].
  rewrite seq_S, map_app, concat_app, IH. cbn [map List.concat Nat.add].
  rewrite app_nil_r.
  replace (S n - 1)%nat with n by lia.
  replace (S n * limit)%nat with (n * limit + limit)%nat by lia.
  symmetry. apply firstn_plus.
Qed.

(** The number of pages covers the listing, and its last page starts
    inside it. *)
Lemma totalPages_spec (total : nat) (limit : Z) :
  (1 <= limit)%Z ->
  let pages := Qceiling (inject_Z (Z.of_nat total) / inject_Z limit) in
  (0 <= pages)%Z /\
  (Z.of_nat total <= pages * limit)%Z /\
  ((pages - 1) * limit < Z.of_nat total)%Z.
Proof.
  intros Hl. cbv zeta.
  set (q := inject_Z (Z.of_nat total) / inject_Z limit).
  assert (Hlq : 0 < inject_Z limit).
  { change 0 with (inject_Z 0). rewrite <- Zlt_Qlt. lia. }
  assert (Hq : q * inject_Z limit == inject_Z (Z.of_nat total)).
  { subst q. field. lra. }
  pose proof (Qle_ceiling q) as Hc.
  pose proof (Qceiling_lt q) as Hc'.
  set (pages := Qceiling q) in *.
  assert (H1 : inject_Z (Z.of_nat total) <= inject_Z pages * inject_Z limit) by nra.
  assert (H2 : inject_Z (pages - 1) * inject_Z limit < inject_Z (Z.of_nat total)) by nra.
  rewrite <- inject_Z_mult, <- Zle_Qle in H1.
  rewrite <- inject_Z_mult, <- Zlt_Qlt in H2.
  repeat split; [nia | exact H1 | exact H2].
Qed.

Lemma filterProblems_spec (l : list (Problem * FPScoreResult))
    (c : option string) (mn mx : jsnum) (p : Problem * FPScoreResult) :
  In p (Controller.filterProblems l c mn mx) <-> In p l /\ passesFilters c mn mx p.
Proof.
  unfold Controller.filterProblems, passesFilters.
  destruct mx as [| | hi]; destruct mn as [| | lo];
    destruct c as [c |]; try destruct (String.eqb_spec c EmptyString) as [Ec | Ec];
    rewrite ?filter_In, ?Qle_bool_iff, ?String.eqb_eq;
    intuition (try discriminate; try congruence; auto).
Qed.

Lemma slice_parts {A : Type} (l : list A) (start stop : Z) :
  exists n m, slice l start stop = firstn n (skipn m l).
Proof. unfold slice. eexists _, _. reflexivity. Qed.

Lemma sorted_app_le {A : Type} (R : A -> A -> Prop) (l1 l2 : list A) :
  StronglySorted R (l1 ++ l2) ->
  Forall (fun x => Forall (fun y => R x y) l2) l1.
Proof.
  induction l1 as [| x rest IH]; intro Hs; [constructor |].
  cbn [app] in Hs. inversion Hs as [| ? ? Hrest Hall]; subst.
  constructor; [| apply IH, Hrest].
  apply Forall_app in Hall. apply Hall.
Qed.

(** X24. Paging [GET /problems] with a page size of at least 1 cuts the
    filtered, sorted listing into consecutive pages without loss or
    overlap: the pages from 1 to [totalPages], put end to end, are the
    whole listing; each holds at most [limit] entries; [total] is the
    length of the listing on every page; and a page from 1 on is empty
    exactly when its number exceeds [totalPages]. *)
Theorem pagination_partitions_listing
    (resultProblems : option (list (Problem * FPScoreResult)))
    (limit : option Z) (classificationParam : option string)
    (minScore maxScore : jsnum) (k : Z) :
  (1 <= orDefaultZ limit 20)%Z ->
  (1 <= k)%Z ->
  let page := pageOf resultProblems limit classificationParam minScore maxScore in
  let listing :=
    sortByScoreDesc
      (Controller.filterProblems (resultOf resultProblems)
         classificationParam minScore maxScore) in
  pagesUpTo (Z.to_nat (Controller.listTotalPages (page k)))
    (fun j => Controller.listProblems (page j)) = listing /\
  Controller.listTotal (page k) = List.length listing /\
  (List.length (Controller.listProblems (page k))
   <= Z.to_nat (orDefaultZ limit 20))%nat /\
  (Controller.listProblems (page k) = []
   <-> (Controller.listTotalPages (page k) < k)%Z).
Proof.
  intros Hl Hk. cbv zeta.
  set (listing := sortByScoreDesc _).
  set (lim := orDefaultZ limit 20) in *.
  assert (Hpage : forall j, (1 <= j)%Z ->
            Controller.listProblems
              (pageOf resultProblems limit classificationParam minScore maxScore j)
            = firstn (Z.to_nat lim)
                (skipn ((Z.to_nat j - 1) * Z.to_nat lim) listing)).
  { intros j Hj. unfold pageOf, Controller.getProblemsWithAnalysis.
    cbv zeta. cbn [Controller.listProblems].
    assert (Ej : orDefaultZ (Some j) 1 = j).
    { unfold orDefaultZ. destruct (Z.eqb_spec j 0); [lia | reflexivity]. }
    rewrite Ej. fold lim. fold (resultOf resultProblems). fold listing.
    rewrite slice_firstn_skipn by nia.
    f_equal. f_equal. nia. }
  assert (Hpages : Controller.listTotalPages
                     (pageOf resultProblems limit classificationParam minScore maxScore k)
                   = Qceiling (inject_Z (Z.of_nat (List.length listing)) / inject_Z lim))
    by reflexivity.
  destruct (totalPages_spec (List.length listing) lim Hl) as (P0 & P1 & P2).
  cbv zeta in P0, P1, P2. rewrite <- Hpages in P0, P1, P2.
  set (pages := Controller.listTotalPages _) in *.
  split; [| split; [reflexivity | split]].
  - unfold pagesUpTo.
    rewrite (map_ext_in _ (fun j => firstn (Z.to_nat lim)
                                      (skipn ((j - 1) * Z.to_nat lim) listing))).
    + rewrite pages_concat. apply firstn_all2. nia.
    + intros j Hj. apply in_seq in Hj. rewrite Hpage by lia.
      rewrite Nat2Z.id. reflexivity.
  - rewrite Hpage by exact Hk. apply firstn_le_length.
  - rewrite Hpage by exact Hk. split; intro H.
    + destruct (Z.lt_ge_cases pages k) as [Hlt | Hge]; [exact Hlt | exfalso].
      assert (Hlen : List.length
                       (firstn (Z.to_nat lim)
                          (skipn ((Z.to_nat k - 1) * Z.to_nat lim) listing)) = 0%nat)
        by (rewrite H; reflexivity).
      rewrite length_firstn, length_skipn in Hlen. nia.
    + apply length_zero_iff_nil.
      rewrite length_firstn, length_skipn. nia.
Qed.

(** Page 2 of five scored problems, two to a page. *)
Lemma pagination_partitions_listing_witness :
  let scored (s : Q) : Problem * FPScoreResult :=
    (scenarioA, mkFPScoreResult s UNCERTAIN [] 0.5) in
  let result := Some [scored 0.1; scored 0.5; scored 0.3; scored 0.5; scored 0.2] in
  let page := pageOf result (Some 2%Z) None NumUndefined NumUndefined in
  map (fun p => score (snd p)) (Controller.listProblems (page 2%Z)) = [0.3; 0.2] /\
  Controller.listTotalPages (page 2%Z) = 3%Z /\
  pagesUpTo 3 (fun j => Controller.listProblems (page j))
  = sortByScoreDesc
      (Controller.filterProblems (resultOf result) None NumUndefined NumUndefined).
Proof.
  cbv zeta.
  split; [reflexivity |]. split; [reflexivity |].
  exact (proj1 (pagination_partitions_listing
                  (Some [(scenarioA, mkFPScoreResult 0.1 UNCERTAIN [] 0.5);
                         (scenarioA, mkFPScoreResult 0.5 UNCERTAIN [] 0.5);
                         (scenarioA, mkFPScoreResult 0.3 UNCERTAIN [] 0.5);
                         (scenarioA, mkFPScoreResult 0.5 UNCERTAIN [] 0.5);
                         (scenarioA, mkFPScoreResult 0.2 UNCERTAIN [] 0.5)])
                  (Some 2%Z) None NumUndefined NumUndefined 2%Z
                  ltac:(vm_compute; discriminate) ltac:(lia))).
Defined.

Lemma filterProblems_length (l : list (Problem * FPScoreResult))
    (c : option string) (mn mx : jsnum) :
  (List.length (Controller.filterProblems l c mn mx) <= List.length l)%nat.
Proof.
  unfold Controller.filterProblems.
  destruct mx, mn, c as [c |]; try destruct (String.eqb c EmptyString);
    repeat match goal with
           | |- (List.length (filter ?f ?x) <= _)%nat =>
               etransitivity; [apply filter_length_le |]
           end; lia.
Qed.

(** X25. Whatever page and page size are asked, valid or not, a page of
    [GET /problems] is in descending score order and holds only analysed
    problems that pass the three filters (an unparseable score bound
    lets nothing pass); it never holds more entries than [total], and
    [total] never exceeds the number of problems analysed. *)
Theorem listing_sorted_and_filtered
    (resultProblems : option (list (Problem * FPScoreResult)))
    (page limit : option Z) (classificationParam : option string)
    (minScore maxScore : jsnum) :
  let response :=
    Controller.getProblemsWithAnalysis resultProblems page limit
      classificationParam minScore maxScore in
  StronglySorted scoreDesc (Controller.listProblems response) /\
  Forall (fun p => In p (resultOf resultProblems) /\
                   passesFilters classificationParam minScore maxScore p)
    (Controller.listProblems response) /\
  (List.length (Controller.listProblems response)
   <= Controller.listTotal response)%nat /\
  (Controller.listTotal response <= List.length (resultOf resultProblems))%nat.
Proof.
  cbv zeta. unfold Controller.getProblemsWithAnalysis. cbv zeta.
  cbn [Controller.listProblems Controller.listTotal].
  fold (resultOf resultProblems).
  set (filtered := Controller.filterProblems _ _ _ _).
  destruct (slice_parts (sortByScoreDesc filtered)
              ((orDefaultZ page 1 - 1) * orDefaultZ limit 20)
              ((orDefaultZ page 1 - 1) * orDefaultZ limit 20 + orDefaultZ limit 20))
    as (n & m & ->).
  split; [| split; [| split]].
  - apply firstn_sorted, skipn_sorted, sortByScoreDesc_sorted.
  - apply Forall_forall. intros p Hp.
    apply firstn_In, skipn_In in Hp.
    apply (Permutation_in _ (Permutation_sym (sortByScoreDesc_perm filtered))) in Hp.
    apply filterProblems_spec in Hp. exact Hp.
  - rewrite length_firstn, length_skipn. lia.
  - rewrite <- (Permutation_length (sortByScoreDesc_perm filtered)).
    apply filterProblems_length.
Qed.

(* ------------------------------------------------------------------ *)
(** *** The top false positives *)

Lemma slice_from_start {A : Type} (l : list A) (n : Z) :
  (0 <= n)%Z -> slice l 0 n = firstn (Z.to_nat n) l.
Proof.
  intro Hn. change n with (0 + n)%Z at 1.
  rewrite slice_firstn_skipn by lia. reflexivity.
Qed.

(** X26. With a limit of at least 1, [GET /problems/top] sends the
    highest-scored false positives: at most [limit] entries and [total]
    is their number; their scores descend; every entry comes from a
    problem classed FALSE_POSITIVE; and each false positive of the
    analysis is either in the list or scores no more than every entry
    of it. *)
Theorem top_false_positives_are_top
    (resultProblems : option (list (Problem * FPScoreResult)))
    (limit : option Z) :
  (1 <= orDefaultZ limit 10)%Z ->
  let top := fst (Controller.getTopFalsePositives resultProblems limit) in
  snd (Controller.getTopFalsePositives resultProblems limit) = List.length top /\
  (List.length top <= Z.to_nat (orDefaultZ limit 10))%nat /\
  StronglySorted (fun a b => Controller.topFpScore b <= Controller.topFpScore a) top /\
  Forall (fun e => exists p, In p (resultOf resultProblems) /\
                             classification (snd p) = FALSE_POSITIVE /\
                             e = Controller.topEntry p) top /\
  Forall (fun p => classification (snd p) = FALSE_POSITIVE ->
                   In (Controller.topEntry p) top \/
                   Forall (fun e => score (snd p) <= Controller.topFpScore e) top)
    (resultOf resultProblems).
Proof.
  intro Hl. cbv zeta. unfold Controller.getTopFalsePositives. cbv zeta.
  cbn [fst snd]. fold (resultOf resultProblems).
  set (fps := filter _ (resultOf resultProblems)).
  rewrite !slice_from_start by lia.
  set (n := Z.to_nat (orDefaultZ limit 10)).
  assert (Hfps : forall p, In p fps <->
                   In p (resultOf resultProblems) /\
                   classification (snd p) = FALSE_POSITIVE).
  { intro p. subst fps. rewrite filter_In.
    destruct (classification (snd p)); intuition congruence. }
  split; [reflexivity |]. split; [| split; [| split]].
  - rewrite length_map. apply firstn_le_length.
  - apply (map_sorted scoreDesc); [intros a b H; exact H |].
    apply firstn_sorted, sortByScoreDesc_sorted.
  - apply Forall_forall. intros e He.
    apply in_map_iff in He. destruct He as (p & <- & Hp).
    apply firstn_In in Hp.
    apply (Permutation_in _ (Permutation_sym (sortByScoreDesc_perm fps))) in Hp.
    apply Hfps in Hp. exists p. tauto.
  - apply Forall_forall. intros p Hp Hc.
    assert (Hin : In p (sortByScoreDesc fps)).
    { apply (Permutation_in _ (sortByScoreDesc_perm fps)). apply Hfps. tauto. }
    rewrite <- (firstn_skipn n (sortByScoreDesc fps)) in Hin.
    apply in_app_or in Hin. destruct Hin as [Hin | Hin].
    + left. apply in_map, Hin.
    + right. apply Forall_forall. intros e He.
      apply in_map_iff in He. destruct He as (q & <- & Hq).
      pose proof (sortByScoreDesc_sorted fps) as Hs.
      rewrite <- (firstn_skipn n (sortByScoreDesc fps)) in Hs.
      apply sorted_app_le in Hs.
      rewrite Forall_forall in Hs. specialize (Hs q Hq).
      rewrite Forall_forall in Hs. exact (Hs p Hin).
Qed.

(** The two highest of three false positives. *)
Lemma top_false_positives_are_top_witness :
  let scored (s : Q) (c : FPClassification) : Problem * FPScoreResult :=
    (scenarioA, mkFPScoreResult s c [] 0.5) in
  let result :=
    Some [scored 0.6 FALSE_POSITIVE; scored 0.4 UNCERTAIN;
          scored 0.9 FALSE_POSITIVE; scored 0.7 FALSE_POSITIVE] in
  map Controller.topFpScore
    (fst (Controller.getTopFalsePositives result (Some 2%Z))) = [0.9; 0.7] /\
  snd (Controller.getTopFalsePositives result (Some 2%Z)) = 2%nat.
Proof.
  cbv zeta. split; [reflexivity |].
  exact (proj1 (top_false_positives_are_top
                  (Some [(scenarioA, mkFPScoreResult 0.6 FALSE_POSITIVE [] 0.5);
                         (scenarioA, mkFPScoreResult 0.4 UNCERTAIN [] 0.5);
                         (scenarioA, mkFPScoreResult 0.9 FALSE_POSITIVE [] 0.5);
                         (scenarioA, mkFPScoreResult 0.7 FALSE_POSITIVE [] 0.5)])
                  (Some 2%Z) ltac:(vm_compute; discriminate))).
Defined.

(* ------------------------------------------------------------------ *)
(** *** The entity endpoints *)

Lemma filter_all {A : Type} (f : A -> bool) (l : list A) :
  Forall (fun x => f x = true) l -> filter f l = l.
Proof.
  induction 1 as [| x rest Hx _ IH]; [reflexivity |].
  cbn [filter]. rewrite Hx, IH. reflexivity.
Qed.


Lemma analysis_entry (this : Service.FalsePositiveService)
    (dateFrom dateTo : option string) (e : EntityRecurrenceAnalysis) :
  In e (Service.analyzeEntityRecurrence this dateFrom dateTo) ->
  (2 <= eTotalProblems e)%nat /\
  eTotalProblems e
  = List.length (observedInWindow (Service.collection this) dateFrom dateTo
                   (eEntityId e)).
Proof.
  unfold Service.analyzeEntityRecurrence. intro H.
  apply in_map_iff in H. destruct H as (g & <- & Hg).
  apply recurrencePipeline_groups in Hg. destruct Hg as (H2 & Hn & _).
  cbn [Service.analyzeEntity eTotalProblems eEntityId]. tauto.
Qed.




(** X28. Asking [GET /entities] for a minimum of 2 problems or fewer
    changes nothing: the analysis only lists entities with at least two
    problems, so the answer is the one given without the parameter. *)
Theorem entity_minimum_below_two
    (db : list Problem) (this : Controller.FalsePositiveController)
    (dateFrom dateTo : option string) (m : Z) (entityType : option string) :
  (m <= 2)%Z ->
  Controller.getEntityAnalysis db this dateFrom dateTo (Some m) entityType
  = Controller.getEntityAnalysis db this dateFrom dateTo None entityType.
Proof.
  intro Hm. unfold Controller.getEntityAnalysis.
  destruct (Controller.getService db this) as [svc this'].
  destruct (Z.eqb m 0); [reflexivity |].
  rewrite filter_all; [reflexivity |].
  apply Forall_forall. intros e He.
  apply (analysis_entry svc dateFrom dateTo) in He.
  apply Z.leb_le. lia.
Qed.

Lemma entity_minimum_below_two_witness :
  Controller.getEntityAnalysis twoInvestigated freshController None None
    (Some 2%Z) None
  = Controller.getEntityAnalysis twoInvestigated freshController None None
      None None.
Proof.
  apply (entity_minimum_below_two twoInvestigated freshController None None 2%Z None).
  lia.
Defined.

(** X29. [GET /entities/:entityId] answers from the recurrence analysis
    of the whole collection. A 200 carries an entry of that analysis
    with the identifier asked for, whose count is the number of
    occurrences of the entity in the collection and is at least two. A
    404 carries the text naming the identifier, and is sent exactly when
    no entry of the analysis has it. *)
Theorem entity_by_id_answer
    (db : list Problem) (this : Controller.FalsePositiveController)
    (entityId : string) :
  let svc := fst (Controller.getService db this) in
  let entities := Service.analyzeEntityRecurrence svc None None in
  match fst (Controller.getEntityById db this entityId) with
  | Controller.Entity200 e =>
      In e entities /\
      eEntityId e = Some entityId /\
      eTotalProblems e
      = List.length (observedInWindow (Service.collection svc) None None
                       (Some entityId)) /\
      (2 <= eTotalProblems e)%nat
  | Controller.Entity404 message =>
      message = ("Entity " ++ entityId ++ " not found")%string /\
      ~ In (Some entityId) (map eEntityId entities)
  end.
Proof.
  cbv zeta. unfold Controller.getEntityById.
  destruct (Controller.getService db this) as [svc this'].
  cbn [fst].
  destruct (find _ (Service.analyzeEntityRecurrence svc None None)) as [e |] eqn:F;
    cbn [fst].
  - apply find_some in F. destruct F as (He & Hid).
    apply optStringEqb_eq in Hid.
    pose proof (analysis_entry svc None None e He) as (H2 & Hn).
    rewrite Hid in Hn. tauto.
  - split; [reflexivity |]. intro Hin.
    apply in_map_iff in Hin. destruct Hin as (e & Hid & He).
    pose proof (find_none _ _ F e He) as Hno. cbn beta in Hno.
    rewrite Hid in Hno.
    assert (optStringEqb (Some entityId) (Some entityId) = true)
      by (apply optStringEqb_eq; reflexivity).
    congruence.
Qed.

(* ------------------------------------------------------------------ *)
(** *** Query parameters *)

Section DropWhile3.

Variable s1 : ascii -> bool.
Variable s2 : ascii -> ascii -> bool.
Variable s3 : ascii -> ascii -> ascii -> bool.

(** One step of the scan: the list is left whole, or the scan goes on
    after a non-empty prefix. *)
Lemma dropWhile3_cases (l : list ascii) :
  dropWhile3 s1 s2 s3 l = l \/
  exists pre k, pre <> [] /\ l = pre ++ k /\
                dropWhile3 s1 s2 s3 l = dropWhile3 s1 s2 s3 k.
Proof.
  destruct l as [| b1 r1]; [left; reflexivity |].
  destruct (s1 b1) eqn:E1.
  { right. exists [b1], r1. split; [discriminate | split; [reflexivity |]].
    cbn [dropWhile3]. rewrite E1. reflexivity. }
  destruct r1 as [| b2 r2].
  { left. cbn [dropWhile3]. rewrite E1. reflexivity. }
  destruct (s2 b1 b2) eqn:E2.
  { right. exists [b1; b2], r2. split; [discriminate | split; [reflexivity |]].
    cbn [dropWhile3]. rewrite E1, E2. reflexivity. }
  destruct r2 as [| b3 r3].
  { left. cbn [dropWhile3]. rewrite E1, E2. reflexivity. }
  destruct (s3 b1 b2 b3) eqn:E3.
  { right. exists [b1; b2; b3], r3. split; [discriminate | split; [reflexivity |]].
    cbn [dropWhile3]. rewrite E1, E2, E3. reflexivity. }
  left. cbn [dropWhile3]. rewrite E1, E2, E3. reflexivity.
Qed.

(** The scan removes a prefix. *)
Lemma dropWhile3_suffix (l : list ascii) :
  exists pre, l = pre ++ dropWhile3 s1 s2 s3 l.
Proof.
  assert (H : forall n l, (List.length l <= n)%nat ->
            exists pre, l = pre ++ dropWhile3 s1 s2 s3 l).
  { induction n as [| n IH]; intros k Hk.
    - destruct k; [exists []; reflexivity | cbn in Hk; lia].
    - destruct (dropWhile3_cases k) as [E | (pre & k' & Hpre & Ek & E)].
      + exists []. rewrite E. reflexivity.
      + destruct (IH k') as (pre' & E').
        { rewrite Ek, length_app in Hk. destruct pre; [contradiction |].
          cbn [List.length] in Hk. lia. }
        exists (pre ++ pre'). rewrite E, <- app_assoc, <- E'. exact Ek. }
  exact (H (List.length l) l (le_n _)).
Qed.

Lemma dropWhile3_length (l : list ascii) :
  (List.length (dropWhile3 s1 s2 s3 l) <= List.length l)%nat.
Proof.
  destruct (dropWhile3_suffix l) as (pre & E).
  rewrite E at 2. rewrite length_app. lia.
Qed.

(** What the scan leaves, it leaves again. *)
Lemma dropWhile3_idem (l : list ascii) :
  dropWhile3 s1 s2 s3 (dropWhile3 s1 s2 s3 l) = dropWhile3 s1 s2 s3 l.
Proof.
  assert (H : forall n l, (List.length l <= n)%nat ->
            dropWhile3 s1 s2 s3 (dropWhile3 s1 s2 s3 l) = dropWhile3 s1 s2 s3 l).
  { induction n as [| n IH]; intros k Hk.
    - destruct k; [reflexivity | cbn in Hk; lia].
    - destruct (dropWhile3_cases k) as [E | (pre & k' & Hpre & Ek & E)].
      + rewrite !E. reflexivity.
      + rewrite E. apply IH.
        rewrite Ek, length_app in Hk. destruct pre; [contradiction |].
        cbn [List.length] in Hk. lia. }
  exact (H (List.length l) l (le_n _)).
Qed.

(** A prefix of what the scan leaves whole is left whole. *)
Lemma dropWhile3_prefix (a b : list ascii) :
  dropWhile3 s1 s2 s3 (a ++ b) = a ++ b -> dropWhile3 s1 s2 s3 a = a.
Proof.
  intro H.
  assert (Hshort : forall k : list ascii,
            (List.length k < List.length (a ++ b))%nat ->
            dropWhile3 s1 s2 s3 k <> a ++ b).
  { intros k Hk E. pose proof (dropWhile3_length k) as L. rewrite E in L. lia. }
  destruct a as [| b1 [| b2 [| b3 rest]]]; [reflexivity | | |].
  - cbn [dropWhile3]. destruct (s1 b1) eqn:E1; [| reflexivity].
    exfalso. cbn [app dropWhile3] in H. rewrite E1 in H.
    apply (Hshort b); [cbn; lia | exact H].
  - cbn [dropWhile3]. cbn [app dropWhile3] in H.
    destruct (s1 b1) eqn:E1.
    + exfalso. apply (Hshort (b2 :: b)); [cbn; lia | exact H].
    + destruct (s2 b1 b2) eqn:E2; [| reflexivity].
      exfalso. apply (Hshort b); [cbn; lia | exact H].
  - cbn [dropWhile3]. cbn [app dropWhile3] in H.
    destruct (s1 b1) eqn:E1.
    + exfalso. apply (Hshort (b2 :: b3 :: rest ++ b)); [cbn; lia | exact H].
    + destruct (s2 b1 b2) eqn:E2.
      * exfalso. apply (Hshort (b3 :: rest ++ b)); [cbn; lia | exact H].
      * destruct (s3 b1 b2 b3) eqn:E3; [| reflexivity].
        exfalso. apply (Hshort (rest ++ b)); [cbn; lia | exact H].
Qed.

End DropWhile3.

Lemma trimBytes_idem (l : list ascii) : trimBytes (trimBytes l) = trimBytes l.
Proof.
  unfold trimBytes.
  set (front := dropWhile3 isSpace1 isSpace2 isSpace3).
  set (back := dropWhile3 isSpace1 (fun b2 b1 => isSpace2 b1 b2)
                 (fun b3 b2 b1 => isSpace3 b1 b2 b3)).
  destruct (dropWhile3_suffix isSpace1 (fun b2 b1 => isSpace2 b1 b2)
              (fun b3 b2 b1 => isSpace3 b1 b2 b3) (rev (front l))) as (pre & E).
  fold back in E.
  assert (Hclean : front (rev (back (rev (front l)))) = rev (back (rev (front l)))).
  { apply (dropWhile3_prefix isSpace1 isSpace2 isSpace3 _ (rev pre)).
    rewrite <- rev_app_distr, <- E, rev_involutive.
    apply dropWhile3_idem. }
  rewrite Hclean, rev_involutive.
  unfold back. rewrite dropWhile3_idem. reflexivity.
Qed.

Lemma trimBytes_In (l : list ascii) (c : ascii) :
  In c (trimBytes l) -> In c l.
Proof.
  unfold trimBytes. intro H. apply in_rev in H.
  destruct (dropWhile3_suffix isSpace1 (fun b2 b1 => isSpace2 b1 b2)
              (fun b3 b2 b1 => isSpace3 b1 b2 b3)
              (rev (dropWhile3 isSpace1 isSpace2 isSpace3 l))) as (pre & E).
  assert (H' : In c (rev (dropWhile3 isSpace1 isSpace2 isSpace3 l)))
    by (rewrite E; apply in_or_app; right; exact H).
  apply in_rev in H'.
  destruct (dropWhile3_suffix isSpace1 isSpace2 isSpace3 l) as (pre' & E').
  rewrite E'. apply in_or_app. right. exact H'.
Qed.

Lemma trim_idem (s : string) : trim (trim s) = trim s.
Proof.
  unfold trim. rewrite list_ascii_of_string_of_list_ascii, trimBytes_idem.
  reflexivity.
Qed.

Lemma split_pieces (sep : ascii) (s : string) :
  Forall (fun piece => ~ In sep (list_ascii_of_string piece)) (split sep s).
Proof.
  induction s as [| c rest IH]; cbn [split].
  - constructor; [intros [] | constructor].
  - destruct (Ascii.eqb_spec c sep) as [E | N].
    + constructor; [intros [] | exact IH].
    + destruct (split sep rest) as [| piece pieces].
      * constructor; [| constructor]. cbn. intros [H | []]. congruence.
      * inversion IH as [| ? ? Hp Hps]; subst.
        constructor; [| exact Hps].
        cbn [list_ascii_of_string]. intros [H | H]; [congruence | exact (Hp H)].
Qed.

(** X30. A comma-separated query parameter: for a non-empty string,
    [parseArrayParam] gives a list whose every element is non-empty,
    holds no comma and is trimmed; and a [managementZones] parameter
    whose pieces are all blank gives the empty list, with which
    [GET /summary] answers as it does without the parameter. *)
Theorem parseArrayParam_pieces
    (db : list Problem) (this : Controller.FalsePositiveController)
    (dateFrom dateTo : option string) (s : string) :
  s <> EmptyString ->
  exists items,
    Controller.parseArrayParam (Controller.QueryString s) = Some items /\
    Forall (fun e => e <> EmptyString /\
                     ~ In ","%char (list_ascii_of_string e) /\
                     trim e = e) items /\
    (Forall (fun piece => trim piece = EmptyString) (split ","%char s) ->
     items = [] /\
     Controller.getSummary db this dateFrom dateTo (Controller.QueryString s)
     = Controller.getSummary db this dateFrom dateTo Controller.QueryMissing).
Proof.
  intro Hs. unfold Controller.getSummary.
  cbn [Controller.parseArrayParam].
  destruct (String.eqb_spec s EmptyString) as [E | _]; [contradiction |].
  eexists. split; [reflexivity |]. split.
  - apply Forall_forall. intros e He.
    apply filter_In in He. destruct He as (He & Hne).
    apply in_map_iff in He. destruct He as (piece & <- & Hpiece).
    split; [| split].
    + destruct (String.eqb_spec (trim piece) EmptyString); [discriminate | assumption].
    + intro Hc. unfold trim in Hc.
      rewrite list_ascii_of_string_of_list_ascii in Hc.
      apply trimBytes_In in Hc.
      pose proof (split_pieces ","%char s) as Hall.
      rewrite Forall_forall in Hall. exact (Hall piece Hpiece Hc).
    + apply trim_idem.
  - intro Hblank.
    assert (Hnone : filter (fun piece => negb (String.eqb piece EmptyString))
                      (map trim (split ","%char s)) = []).
    { apply filter_none. intros e He.
      apply in_map_iff in He. destruct He as (piece & <- & Hpiece).
      rewrite Forall_forall in Hblank. rewrite (Hblank piece Hpiece). reflexivity. }
    rewrite Hnone. split; [reflexivity |].
    destruct (Controller.getService db this) as [svc this']. reflexivity.
Qed.

(** A parameter of commas and blanks, and one with two zones. *)
Lemma parseArrayParam_pieces_witness :
  Controller.parseArrayParam (Controller.QueryString " , ,") = Some [] /\
  Controller.parseArrayParam (Controller.QueryString " prod , ,dev ")
  = Some ["prod"; "dev"]%string /\
  exists items,
    Controller.parseArrayParam (Controller.QueryString " , ,") = Some items /\
    Forall (fun e => e <> EmptyString /\
                     ~ In ","%char (list_ascii_of_string e) /\
                     trim e = e) items /\
    (Forall (fun piece => trim piece = EmptyString) (split ","%char " , ,") ->
     items = [] /\
     Controller.getSummary twoInvestigated freshController None None
       (Controller.QueryString " , ,")
     = Controller.getSummary twoInvestigated freshController None None
         Controller.QueryMissing).
Proof.
  split; [reflexivity |]. split; [reflexivity |].
  apply (parseArrayParam_pieces twoInvestigated freshController None None " , ,").
  discriminate.
Defined.
